(** * Chat agents of the intelligence module: streaming orchestration

    A shallow embedding of

    - [app/modules/intelligence/agents/chat_agents/code_changes_chat_agent.py]
      (class [CodeChangesChatAgent]) and
    - [app/modules/intelligence/agents/custom_agents/custom_agent.py]
      (class [CustomAgent]),

    followed by the properties of their [run] generators: what is yielded,
    what is written to the history manager and in which order, and how
    failures surface.

    Modelling conventions.

    - A Python [str] is a [string] whose characters are code points below
      256; [json.dumps] and [str.lower] are written out for that range.
    - An exception is a value of [Exc]: its class and its [str(e)].  Only
      classes derived from [Exception] are modelled (these are the ones the
      [except Exception] clauses of the source see; cancellation of the
      task is not one of them).
    - The collaborators that live outside the two files (rate limiter,
      provider, prompt service, history manager, classifier, auxiliary
      agents, the model stream) are oracles gathered in [World]: each
      answers from the interaction so far and the arguments of the call, and
      may raise.  Every call, its arguments and its answer are recorded in
      the trace, together with every [yield] and every log line.
    - The attributes of an instance are a record [Self].  An attribute the
      constructor does not set ([llm] of [CodeChangesChatAgent]) is an
      option, [None] standing for its absence; the method
      [_get_system_prompt], which [CustomAgent] calls and does not define,
      is looked up in the world.
    - A generator is run to exhaustion; the sequence it produces is the list
      of [yield] entries of its trace.  The model stream is finite. *)

From Stdlib Require Import String Ascii List ZArith NArith Lia Bool DecimalString.
Import ListNotations.
Local Open Scope list_scope.
Local Open Scope string_scope.

(* ================================================================= *)
(** ** Python strings, exceptions and results *)

Module Py.

(** [needle in hay] on strings. *)
Fixpoint contains (needle hay : string) : bool :=
  String.prefix needle hay ||
  match hay with
  | EmptyString => false
  | String _ hay' => contains needle hay'
  end.

(** [c.lower()] on a code point below 256: A-Z and the upper-case letters
    of Latin-1 (0xC0-0xDE without the multiplication sign 0xD7). *)
Definition lower_char (c : ascii) : ascii :=
  let n := N_of_ascii c in
  if ((65 <=? n) && (n <=? 90))%N then ascii_of_N (n + 32)
  else if ((192 <=? n) && (n <=? 222) && negb (n =? 215))%N then ascii_of_N (n + 32)
  else c.

Fixpoint lower (s : string) : string :=
  match s with
  | EmptyString => EmptyString
  | String c s' => String (lower_char c) (lower s')
  end.

(** [str(n)] for an [int]. *)
Definition str_of_int (z : Z) : string := NilZero.string_of_int (Z.to_int z).

(** [str(b)] for a [bool]. *)
Definition str_of_bool (b : bool) : string := if b then "True" else "False".

(** [''.join(l)]. *)
Definition join (l : list string) : string := String.concat EmptyString l.

(** Exception classes the two files raise, catch or meet. *)
Inductive ExcType :=
| TimeoutError                        (* asyncio.TimeoutError *)
| ValueError
| AttributeError
| RuntimeError
| Exception                           (* a bare [Exception(...)] *)
| OtherException (qualname : string). (* any other subclass of Exception,
                                         not derived from TimeoutError *)

Record Exc := mkExc { exc_type : ExcType; exc_str : string }.

Definition is_TimeoutError (e : Exc) : bool :=
  match exc_type e with TimeoutError => true | _ => false end.

Inductive Result (A : Type) :=
| Return (a : A)
| Raise (e : Exc).
Arguments Return {A} a.
Arguments Raise {A} e.

End Py.
Import Py.

(* ================================================================= *)
(** ** [json.dumps] *)

Module Json.

(** The values the two files serialise. *)
#[local] Set Warnings "-register-all".
Inductive JValue :=
| JNull
| JBool (b : bool)
| JInt (z : Z)
| JStr (s : string)
| JArr (l : list JValue)
| JObj (l : list (string * JValue)).

Definition dquote : ascii := "034"%char.
Definition backslash : ascii := "092"%char.

Definition hex_digit (n : N) : ascii :=
  if (n <? 10)%N then ascii_of_N (48 + n) else ascii_of_N (87 + n).

(** [ESCAPE_DCT] and the [\uXXXX] fallback of [json.encoder], with
    [ensure_ascii=True] (the default). *)
Definition escape_char (c : ascii) : string :=
  let n := N_of_ascii c in
  if (n =? 34)%N then String backslash (String dquote EmptyString)
  else if (n =? 92)%N then String backslash (String backslash EmptyString)
  else if (n =? 8)%N then String backslash "b"
  else if (n =? 12)%N then String backslash "f"
  else if (n =? 10)%N then String backslash "n"
  else if (n =? 13)%N then String backslash "r"
  else if (n =? 9)%N then String backslash "t"
  else if ((32 <=? n) && (n <=? 126))%N then String c EmptyString
  else String backslash
         ("u00" ++ String (hex_digit (n / 16)) (String (hex_digit (n mod 16)) EmptyString)).

Fixpoint escape (s : string) : string :=
  match s with
  | EmptyString => EmptyString
  | String c s' => escape_char c ++ escape s'
  end.

Definition dumps_str (s : string) : string :=
  String dquote (escape s ++ String dquote EmptyString).

(** Items joined by [", "] (the default item separator). *)
Fixpoint join_items (l : list string) : string :=
  match l with
  | [] => EmptyString
  | [x] => x
  | x :: l' => x ++ ", " ++ join_items l'
  end.

Fixpoint dumps (v : JValue) : string :=
  match v with
  | JNull => "null"
  | JBool true => "true"
  | JBool false => "false"
  | JInt z => str_of_int z
  | JStr s => dumps_str s
  | JArr l => "[" ++ join_items (map dumps l) ++ "]"
  | JObj l =>
      "{" ++ join_items (map (fun kv => dumps_str (fst kv) ++ ": " ++ dumps (snd kv)) l) ++ "}"
  end.

(** *** Reading an event back

    A reader for the texts [dumps] writes (and for JSON with other
    spacing), used to speak of the [message] and the [citations] of an
    item of the produced sequence.  Escapes of code points above 255 are
    outside the model of [str] and are refused. *)

Definition is_ws (c : ascii) : bool :=
  let n := N_of_ascii c in ((n =? 32) || (n =? 9) || (n =? 10) || (n =? 13))%N.

Fixpoint skip_ws (s : string) : string :=
  match s with
  | EmptyString => EmptyString
  | String c s' => if is_ws c then skip_ws s' else s
  end.

Definition hex_value (c : ascii) : option N :=
  let n := N_of_ascii c in
  if ((48 <=? n) && (n <=? 57))%N then Some (n - 48)%N
  else if ((97 <=? n) && (n <=? 102))%N then Some (n - 87)%N
  else if ((65 <=? n) && (n <=? 70))%N then Some (n - 55)%N
  else None.

Definition cons_char (c : ascii) (r : option (string * string)) : option (string * string) :=
  match r with
  | Some (s, rest) => Some (String c s, rest)
  | None => None
  end.

(** The characters of a string literal, after its opening quote, up to
    and including the closing quote; gives the string and what follows. *)
Fixpoint parse_chars (s : string) : option (string * string) :=
  match s with
  | EmptyString => None
  | String c s1 =>
      let n := N_of_ascii c in
      if (n =? 34)%N then Some (EmptyString, s1)
      else if (n =? 92)%N then
        match s1 with
        | EmptyString => None
        | String e s2 =>
            let m := N_of_ascii e in
            if (m =? 34)%N then cons_char dquote (parse_chars s2)
            else if (m =? 92)%N then cons_char backslash (parse_chars s2)
            else if (m =? 47)%N then cons_char "/" (parse_chars s2)
            else if (m =? 98)%N then cons_char "008" (parse_chars s2)
            else if (m =? 102)%N then cons_char "012" (parse_chars s2)
            else if (m =? 110)%N then cons_char "010" (parse_chars s2)
            else if (m =? 114)%N then cons_char "013" (parse_chars s2)
            else if (m =? 116)%N then cons_char "009" (parse_chars s2)
            else if (m =? 117)%N then
              match s2 with
              | String h1 (String h2 (String h3 (String h4 s6))) =>
                  match hex_value h1, hex_value h2, hex_value h3, hex_value h4 with
                  | Some a, Some b, Some c', Some d =>
                      let code := (((a * 16 + b) * 16 + c') * 16 + d)%N in
                      if (code <? 256)%N
                      then cons_char (ascii_of_N code) (parse_chars s6)
                      else None
                  | _, _, _, _ => None
                  end
              | _ => None
              end
            else None
        end
      else if (n <? 32)%N then None
      else cons_char c (parse_chars s1)
  end.

Definition is_digit (c : ascii) : bool :=
  let n := N_of_ascii c in ((48 <=? n) && (n <=? 57))%N.

Fixpoint parse_digits (acc : Z) (s : string) : Z * string :=
  match s with
  | EmptyString => (acc, s)
  | String c s' =>
      if is_digit c
      then parse_digits (acc * 10 + Z.of_N (N_of_ascii c - 48)) s'
      else (acc, s)
  end.

Definition starts_with_digit (s : string) : bool :=
  match s with
  | String c _ => is_digit c
  | EmptyString => false
  end.

Definition parse_literal (s : string) : option (JValue * string) :=
  if String.prefix "null" s then Some (JNull, substring 4 (String.length s - 4) s)
  else if String.prefix "true" s then Some (JBool true, substring 4 (String.length s - 4) s)
  else if String.prefix "false" s then Some (JBool false, substring 5 (String.length s - 5) s)
  else
    match s with
    | String c s' =>
        if Ascii.eqb c "-" then
          if starts_with_digit s'
          then let '(z, rest) := parse_digits 0 s' in Some (JInt (- z), rest)
          else None
        else if is_digit c
        then let '(z, rest) := parse_digits 0 s in Some (JInt z, rest)
        else None
    | EmptyString => None
    end.

Fixpoint parse_value (fuel : nat) (s : string) {struct fuel} : option (JValue * string) :=
  match fuel with
  | O => None
  | S fuel' =>
      match skip_ws s with
      | EmptyString => None
      | String c s1 =>
          if Ascii.eqb c dquote then
            match parse_chars s1 with
            | Some (str, rest) => Some (JStr str, rest)
            | None => None
            end
          else if Ascii.eqb c "[" then
            match skip_ws s1 with
            | String c' rest =>
                if Ascii.eqb c' "]" then Some (JArr [], rest)
                else
                  match parse_elems fuel' s1 with
                  | Some (l, rest') => Some (JArr l, rest')
                  | None => None
                  end
            | EmptyString => None
            end
          else if Ascii.eqb c "{" then
            match skip_ws s1 with
            | String c' rest =>
                if Ascii.eqb c' "}" then Some (JObj [], rest)
                else
                  match parse_members fuel' s1 with
                  | Some (l, rest') => Some (JObj l, rest')
                  | None => None
                  end
            | EmptyString => None
            end
          else parse_literal (String c s1)
      end
  end
with parse_elems (fuel : nat) (s : string) {struct fuel} : option (list JValue * string) :=
  match fuel with
  | O => None
  | S fuel' =>
      match parse_value fuel' s with
      | Some (v, rest) =>
          match skip_ws rest with
          | String c rest' =>
              if Ascii.eqb c "," then
                match parse_elems fuel' rest' with
                | Some (l, r) => Some (v :: l, r)
                | None => None
                end
              else if Ascii.eqb c "]" then Some ([v], rest')
              else None
          | EmptyString => None
          end
      | None => None
      end
  end
with parse_members (fuel : nat) (s : string) {struct fuel}
  : option (list (string * JValue) * string) :=
  match fuel with
  | O => None
  | S fuel' =>
      match skip_ws s with
      | String q s1 =>
          if Ascii.eqb q dquote then
            match parse_chars s1 with
            | Some (k, rest) =>
                match skip_ws rest with
                | String c rest1 =>
                    if Ascii.eqb c ":" then
                      match parse_value fuel' rest1 with
                      | Some (v, rest2) =>
                          match skip_ws rest2 with
                          | String c' rest3 =>
                              if Ascii.eqb c' "," then
                                match parse_members fuel' rest3 with
                                | Some (l, r) => Some ((k, v) :: l, r)
                                | None => None
                                end
                              else if Ascii.eqb c' "}" then Some ([(k, v)], rest3)
                              else None
                          | EmptyString => None
                          end
                      | None => None
                      end
                    else None
                | EmptyString => None
                end
            | None => None
            end
          else None
      | EmptyString => None
      end
  end.

(** [json.loads], on the values of [JValue]. *)
Definition loads (s : string) : option JValue :=
  match parse_value (S (String.length s)) s with
  | Some (v, rest) =>
      match skip_ws rest with
      | EmptyString => Some v
      | _ => None
      end
  | None => None
  end.

(** [v[k]] on an object (the last member of that name, as [json.loads]
    keeps it). *)
Definition obj_get (k : string) (v : JValue) : option JValue :=
  match v with
  | JObj l => option_map snd (find (fun kv => String.eqb k (fst kv)) (rev l))
  | _ => None
  end.

Fixpoint strings_of (l : list JValue) : option (list string) :=
  match l with
  | [] => Some []
  | JStr s :: l' => option_map (cons s) (strings_of l')
  | _ :: _ => None
  end.

End Json.
Import Json.

(* ================================================================= *)
(** ** Data exchanged with the collaborators *)

(** [prompt_schema.PromptType], the two members the source asks for. *)
Module PromptType.
Inductive t := SYSTEM | HUMAN.
Definition eqb (a b : t) : bool :=
  match a, b with SYSTEM, SYSTEM | HUMAN, HUMAN => true | _, _ => false end.
End PromptType.

Record PromptResponse := { type : PromptType.t; text : string }.

(** [AgentType], the members the source names. *)
Module AgentType.
Inductive t := LANGCHAIN | CODE_CHANGES.
End AgentType.

(** [message_model.MessageType], the member the source names. *)
Module MessageType.
Inductive t := AI_GENERATED.
End MessageType.

(** Modelled from the spec: the declaration of [ClassificationResult] is not
    in the two files; the spec gives it as the enum
    {AGENT_REQUIRED, NO_AGENT_REQUIRED}. *)
Module ClassificationResult.
Inductive t := AGENT_REQUIRED | NO_AGENT_REQUIRED.
Definition eqb (a b : t) : bool :=
  match a, b with
  | AGENT_REQUIRED, AGENT_REQUIRED | NO_AGENT_REQUIRED, NO_AGENT_REQUIRED => true
  | _, _ => false
  end.
End ClassificationResult.

Record NodeContext := { node_id : string; name : string }.

(** A model handle as the provider returns it. *)
Record LLM := { llm_name : string }.

(** [langchain.schema] messages. *)
Inductive Message :=
| HumanMessage (content : string)
| SystemMessage (content : string)
| AIMessage (content : string).



Definition content (m : Message) : string :=
  match m with
  | HumanMessage c | SystemMessage c | AIMessage c => c
  end.

(** A [float], identified by its [str] form (the shortest representation
    that reads back to it). *)
Record PyFloat := { float_str : string }.

(** What [get_session_history] may hand back: primitives or messages. *)
Inductive HistoryEntry :=
| Prim_str (s : string)
| Prim_int (z : Z)
| Prim_bool (b : bool)       (* [bool] is a subclass of [int] *)
| Prim_float (f : PyFloat)
| Msg (m : Message).

(** The pieces of a [ChatPromptTemplate]. *)
Inductive TemplatePart :=
| SystemMessagePromptTemplate (template : string)
| MessagesPlaceholder (variable_name : string)
| HumanMessagePromptTemplate (template : string).

(** [prompt_template | llm]. *)
Record Chain := { chain_prompt : list TemplatePart; chain_llm : LLM }.

(** The dict passed to [chain.astream]. *)
Record Inputs := {
  inputs_history : list HistoryEntry;
  inputs_tool_results : list Message;
  inputs_input : string
}.

(** What the model stream delivers: an object with a [content] attribute,
    or any other object, identified by its [str] form. *)
Inductive Chunk :=
| ContentChunk (chunk_content : string)
| OtherChunk (chunk_str : string).

(** Result of [kickoff_blast_radius_agent]. *)
Record BlastRadiusAgentResponse := { response : string; citations : list string }.
Record CrewOutput := { pydantic : option BlastRadiusAgentResponse; raw : string }.

(* ================================================================= *)
(** ** Effects, traces and the world *)

Inductive LogRecord :=
| LogText (msg : string)
| LogInputs (inputs : Inputs).     (* f"Inputs to LLM: {inputs}" *)

Inductive Effect :=
| E_wait_for_acquire (timeout : Z) (r : Result unit)
| E_handle_quota_exceeded (r : Result unit)
| E_get_small_llm (agent_type : AgentType.t) (r : Result LLM)
| E_get_prompts_by_agent_id_and_types
    (agent_id : string) (types : list PromptType.t) (r : Result (list PromptResponse))
| E_get_system_prompt (r : Result (option string))
| E_get_session_history (user_id conversation_id : string) (r : Result (list HistoryEntry))
| E_add_message_chunk
    (conversation_id chunk : string) (message_type : MessageType.t)
    (citations : option (list string)) (r : Result unit)
| E_flush_message_buffer (conversation_id : string) (message_type : MessageType.t) (r : Result unit)
| E_get_classification_prompt (agent_type : AgentType.t) (r : Result string)
| E_classification_ainvoke
    (llm : LLM) (prompt query : string) (history : list string)
    (r : Result ClassificationResult.t)
| E_kickoff_blast_radius_agent
    (query project_id : string) (node_ids : list NodeContext) (user_id : string)
    (llm : LLM) (r : Result CrewOutput)
| E_format_citations (citations : list string) (r : Result (list string))
| E_run_agent
    (agent_id query conversation_id user_id : string) (node_ids : list NodeContext)
    (r : Result JValue)
| E_astream (chain : Chain) (inputs : Inputs)
| E_anext (r : Result (option Chunk))   (* [Return None]: the stream is exhausted *)
| E_yield (item : string)
| E_logger_debug (rec : LogRecord)
| E_logger_error (msg : string).

Definition Trace := list Effect.

(** The collaborators.  Each oracle sees the interaction so far. *)
Record World := {
  w_wait_for_acquire : Trace -> Z -> Result unit;
  w_handle_quota_exceeded : Trace -> Result unit;
  w_get_small_llm : Trace -> AgentType.t -> Result LLM;
  w_get_prompts_by_agent_id_and_types :
    Trace -> string -> list PromptType.t -> Result (list PromptResponse);
  (** [None]: the attribute [_get_system_prompt] cannot be found on the
      agent, which is the case for [CustomAgent] as the file defines it. *)
  w_get_system_prompt : option (Trace -> Result (option string));
  w_get_session_history : Trace -> string -> string -> Result (list HistoryEntry);
  w_add_message_chunk :
    Trace -> string -> string -> MessageType.t -> option (list string) -> Result unit;
  w_flush_message_buffer : Trace -> string -> MessageType.t -> Result unit;
  w_get_classification_prompt : Trace -> AgentType.t -> Result string;
  w_classification_ainvoke :
    Trace -> LLM -> string -> string -> list string -> Result ClassificationResult.t;
  w_kickoff_blast_radius_agent :
    Trace -> string -> string -> list NodeContext -> string -> LLM -> Result CrewOutput;
  w_format_citations : Trace -> list string -> Result (list string);
  w_run_agent :
    Trace -> string -> string -> string -> string -> list NodeContext -> Result JValue;
  (** The chunks the stream will deliver, and the exception that ends it,
      if any; the stream is finite. *)
  w_astream : Trace -> Chain -> Inputs -> list Chunk * option Exc
}.

(* ================================================================= *)
(** ** The monad of agent code

    A computation runs in a world, after a trace, on the agent's
    attributes; it gives a result or an exception, the attributes as it
    leaves them, and the effects it performed. *)

Definition M (S A : Type) : Type := World -> Trace -> S -> Result A * S * Trace.

Definition ret {S A} (a : A) : M S A := fun _ _ s => (Return a, s, []).

Definition bind {S A B} (m : M S A) (k : A -> M S B) : M S B :=
  fun w t s =>
    match m w t s with
    | (Return a, s1, t1) =>
        let '(r, s2, t2) := k a w (t ++ t1)%list s1 in (r, s2, (t1 ++ t2)%list)
    | (Raise e, s1, t1) => (Raise e, s1, t1)
    end.

Definition raise {S A} (e : Exc) : M S A := fun _ _ s => (Raise e, s, []).

(** [try: m except Exception as e: h e]. *)
Definition try_except {S A} (m : M S A) (h : Exc -> M S A) : M S A :=
  fun w t s =>
    match m w t s with
    | (Return a, s1, t1) => (Return a, s1, t1)
    | (Raise e, s1, t1) =>
        let '(r, s2, t2) := h e w (t ++ t1)%list s1 in (r, s2, (t1 ++ t2)%list)
    end.

Definition get_self {S} : M S S := fun _ _ s => (Return s, s, []).
Definition set_self {S} (s : S) : M S unit := fun _ _ _ => (Return tt, s, []).

(** A call to a collaborator: ask the oracle, record call and answer. *)
Definition call {S A} (oracle : World -> Trace -> Result A) (record : Result A -> Effect)
  : M S A :=
  fun w t s => let r := oracle w t in (r, s, [record r]).

Definition emit {S} (e : Effect) : M S unit := fun _ _ s => (Return tt, s, [e]).

Declare Scope agent_scope.
Delimit Scope agent_scope with agent.
Notation "x <- m ;; k" := (bind m (fun x => k))
  (at level 100, m at next level, right associativity) : agent_scope.
Notation "m ;; k" := (bind m (fun _ => k))
  (at level 100, right associativity) : agent_scope.
Local Open Scope agent_scope.

Definition yield {S} (item : string) : M S unit := emit (E_yield item).

Module logger.
Definition debug {S} (msg : string) : M S unit := emit (E_logger_debug (LogText msg)).
Definition debug_inputs {S} (i : Inputs) : M S unit := emit (E_logger_debug (LogInputs i)).
Definition error {S} (msg : string) : M S unit := emit (E_logger_error msg).
End logger.

(** [async for chunk in stream: acc = body chunk acc], the stream being the
    chunks [chunks] followed by exhaustion or by the exception [stop]. *)
Fixpoint async_for {S A} (chunks : list Chunk) (stop : option Exc)
    (body : Chunk -> A -> M S A) (acc : A) : M S A :=
  match chunks with
  | [] =>
      match stop with
      | None => emit (E_anext (Return None));; ret acc
      | Some e => emit (E_anext (Raise e));; raise e
      end
  | chunk :: rest =>
      emit (E_anext (Return (Some chunk)));;
      acc' <- body chunk acc;;
      async_for rest stop body acc'
  end.

(** [chunk.content if hasattr(chunk, "content") else str(chunk)]. *)
Definition chunk_text (chunk : Chunk) : string :=
  match chunk with
  | ContentChunk c => c
  | OtherChunk s => s
  end.

(** [str(msg)] when [isinstance(msg, (str, int, float))], nothing otherwise. *)
Definition primitive_str (msg : HistoryEntry) : option string :=
  match msg with
  | Prim_str s => Some s
  | Prim_int z => Some (str_of_int z)
  | Prim_bool b => Some (str_of_bool b)
  | Prim_float f => Some (float_str f)
  | Msg _ => None
  end.

(** The list comprehension of [run]:
    [HumanMessage(content=str(msg)) if isinstance(msg, (str, int, float)) else msg]. *)
Definition validate_entry (msg : HistoryEntry) : HistoryEntry :=
  match primitive_str msg with
  | Some s => Msg (HumanMessage s)
  | None => msg
  end.

Definition validate_history (history : list HistoryEntry) : list HistoryEntry :=
  map validate_entry history.

(* ================================================================= *)
(** ** The collaborators as the agents call them *)

Module asyncio.
(** [await asyncio.wait_for(limiter.acquire(), timeout=timeout)]; a
    timeout surfaces as [TimeoutError]. *)
Definition wait_for_acquire {S} (timeout : Z) : M S unit :=
  call (fun w t => w_wait_for_acquire w t timeout) (E_wait_for_acquire timeout).
End asyncio.

Module llm_rate_limiter.
Definition handle_quota_exceeded {S} : M S unit :=
  call w_handle_quota_exceeded E_handle_quota_exceeded.
End llm_rate_limiter.

Module _llm_provider.
Definition get_small_llm {S} (agent_type : AgentType.t) : M S LLM :=
  call (fun w t => w_get_small_llm w t agent_type) (E_get_small_llm agent_type).
End _llm_provider.

Module prompt_service.
Definition get_prompts_by_agent_id_and_types {S}
    (agent_id : string) (types : list PromptType.t) : M S (list PromptResponse) :=
  call (fun w t => w_get_prompts_by_agent_id_and_types w t agent_id types)
       (E_get_prompts_by_agent_id_and_types agent_id types).
End prompt_service.

Module history_manager.
Definition get_session_history {S} (user_id conversation_id : string)
  : M S (list HistoryEntry) :=
  call (fun w t => w_get_session_history w t user_id conversation_id)
       (E_get_session_history user_id conversation_id).

Definition add_message_chunk {S} (conversation_id chunk : string)
    (message_type : MessageType.t) (citations : option (list string)) : M S unit :=
  call (fun w t => w_add_message_chunk w t conversation_id chunk message_type citations)
       (E_add_message_chunk conversation_id chunk message_type citations).

Definition flush_message_buffer {S} (conversation_id : string)
    (message_type : MessageType.t) : M S unit :=
  call (fun w t => w_flush_message_buffer w t conversation_id message_type)
       (E_flush_message_buffer conversation_id message_type).
End history_manager.

Module ClassificationPrompts.
Definition get_classification_prompt {S} (agent_type : AgentType.t) : M S string :=
  call (fun w t => w_get_classification_prompt w t agent_type)
       (E_get_classification_prompt agent_type).
End ClassificationPrompts.

Module agents_service.
Definition format_citations {S} (cits : list string) : M S (list string) :=
  call (fun w t => w_format_citations w t cits) (E_format_citations cits).
End agents_service.

Module custom_agents_service.
Definition run_agent {S} (agent_id query conversation_id user_id : string)
    (node_ids : list NodeContext) : M S JValue :=
  call (fun w t => w_run_agent w t agent_id query conversation_id user_id node_ids)
       (E_run_agent agent_id query conversation_id user_id node_ids).
End custom_agents_service.

Definition kickoff_blast_radius_agent {S} (query project_id : string)
    (node_ids : list NodeContext) (user_id : string) (llm : LLM) : M S CrewOutput :=
  call (fun w t => w_kickoff_blast_radius_agent w t query project_id node_ids user_id llm)
       (E_kickoff_blast_radius_agent query project_id node_ids user_id llm).

(** [chain.astream(inputs)]: the async iterator, as the chunks it will
    deliver and how it ends. *)
Definition astream {S} (chain : Chain) (inputs : Inputs) : M S (list Chunk * option Exc) :=
  fun w t s => (Return (w_astream w t chain inputs), s, [E_astream chain inputs]).

(** [msg.content], which primitives do not have. *)
Definition getattr_content (msg : HistoryEntry) : Result string :=
  match msg with
  | Msg m => Return (content m)
  | Prim_str _ => Raise (mkExc AttributeError "'str' object has no attribute 'content'")
  | Prim_int _ => Raise (mkExc AttributeError "'int' object has no attribute 'content'")
  | Prim_bool _ => Raise (mkExc AttributeError "'bool' object has no attribute 'content'")
  | Prim_float _ => Raise (mkExc AttributeError "'float' object has no attribute 'content'")
  end.

(** [[msg.content for msg in l]]. *)
Fixpoint contents (l : list HistoryEntry) : Result (list string) :=
  match l with
  | [] => Return []
  | msg :: l' =>
      match getattr_content msg with
      | Raise e => Raise e
      | Return c =>
          match contents l' with
          | Raise e => Raise e
          | Return cs => Return (c :: cs)
          end
      end
  end.

Definition lift {S A} (r : Result A) : M S A := fun _ _ s => (r, s, []).

(** [l[-n:]] for a positive [n]. *)
Definition last_n {A} (n : nat) (l : list A) : list A := skipn (length l - n) l.

(** The prompts keyed by type: [{prompt.type: prompt for prompt in prompts}],
    a later prompt of a type replacing an earlier one, and [d.get(k)]. *)
Fixpoint dict_set (k : PromptType.t) (v : PromptResponse)
    (d : list (PromptType.t * PromptResponse)) : list (PromptType.t * PromptResponse) :=
  match d with
  | [] => [(k, v)]
  | (k', v') :: d' =>
      if PromptType.eqb k k' then (k, v) :: d' else (k', v') :: dict_set k v d'
  end.

Definition dict_of_prompts (prompts : list PromptResponse)
  : list (PromptType.t * PromptResponse) :=
  fold_left (fun d prompt => dict_set (type prompt) prompt d) prompts [].

Definition dict_get (k : PromptType.t) (d : list (PromptType.t * PromptResponse))
  : option PromptResponse :=
  option_map snd (find (fun kv => PromptType.eqb k (fst kv)) d).

(** The JSON value of a citation list. *)
Definition citations_json (cits : list string) : JValue := JArr (map JStr cits).

(** The [message] and the [citations] of an item of the produced sequence,
    when the item is the JSON text of an event. *)
Definition event_message (item : string) : option string :=
  match loads item with
  | Some v =>
      match obj_get "message" v, obj_get "citations" v with
      | Some (JStr m), Some (JArr _) => Some m
      | _, _ => None
      end
  | None => None
  end.

Definition event_citations (item : string) : option (list string) :=
  match loads item with
  | Some v =>
      match obj_get "message" v, obj_get "citations" v with
      | Some (JStr _), Some (JArr l) => strings_of l
      | _, _ => None
      end
  | None => None
  end.

(* ================================================================= *)
(** ** [CodeChangesChatAgent] *)

Module CodeChangesChatAgent.

(** The attributes of an instance the methods read or write.  [llm] is
    [None] when the instance has no attribute of that name;
    [_get_prompts_cached] tells whether the [lru_cache] of [_get_prompts]
    holds the coroutine made for this instance (already awaited). *)
Record Self := {
  mini_llm : LLM;
  _llm : option LLM;
  chain : option Chain;
  llm : option LLM;
  _get_prompts_cached : bool
}.

Definition set__llm (v : option LLM) (s : Self) : Self :=
  {| mini_llm := mini_llm s; _llm := v; chain := chain s; llm := llm s;
     _get_prompts_cached := _get_prompts_cached s |}.
Definition set_chain (v : option Chain) (s : Self) : Self :=
  {| mini_llm := mini_llm s; _llm := _llm s; chain := v; llm := llm s;
     _get_prompts_cached := _get_prompts_cached s |}.
Definition set__get_prompts_cached (v : bool) (s : Self) : Self :=
  {| mini_llm := mini_llm s; _llm := _llm s; chain := chain s; llm := llm s;
     _get_prompts_cached := v |}.

(** [__init__(self, mini_llm, llm, db)]: the argument [llm] is not kept. *)
Definition __init__ (mini_llm_arg llm_arg : LLM) : Self :=
  {| mini_llm := mini_llm_arg; _llm := None; chain := None; llm := None;
     _get_prompts_cached := false |}.

Definition _get_llm : M Self LLM :=
  try_except
    (asyncio.wait_for_acquire 30;;
     logger.debug "Rate limiter acquired for LLM call";;
     self <- get_self;;
     match _llm self with
     | None =>
         l <- _llm_provider.get_small_llm AgentType.LANGCHAIN;;
         self <- get_self;;
         set_self (set__llm (Some l) self);;
         ret l
     | Some l => ret l
     end)
    (fun e =>
       if is_TimeoutError e then
         logger.error "Timeout waiting for rate limiter";;
         raise (mkExc Exception "Service is currently overloaded. Please try again later.")
       else
         (if contains "429" (exc_str e) || contains "quota exceeded" (lower (exc_str e))
          then llm_rate_limiter.handle_quota_exceeded;;
               logger.error "LLM API quota exceeded"
          else ret tt);;
         logger.error ("Error getting LLM: " ++ exc_str e);;
         raise e).

(** [@lru_cache(maxsize=2)] on an [async def]: what is cached is the
    coroutine object, so that a second call on the same instance awaits a
    coroutine that has already been awaited. *)
Definition _get_prompts : M Self (list (PromptType.t * PromptResponse)) :=
  self <- get_self;;
  if _get_prompts_cached self then
    raise (mkExc RuntimeError "cannot reuse already awaited coroutine")
  else
    set_self (set__get_prompts_cached true self);;
    prompts <- prompt_service.get_prompts_by_agent_id_and_types
                 "CODE_CHANGES_AGENT" [PromptType.SYSTEM; PromptType.HUMAN];;
    ret (dict_of_prompts prompts).

Definition _create_chain : M Self Chain :=
  prompts <- _get_prompts;;
  let system_prompt := dict_get PromptType.SYSTEM prompts in
  let human_prompt := dict_get PromptType.HUMAN prompts in
  match system_prompt, human_prompt with
  | Some system_prompt, Some human_prompt =>
      let prompt_template :=
        [ SystemMessagePromptTemplate (text system_prompt);
          MessagesPlaceholder "history";
          MessagesPlaceholder "tool_results";
          HumanMessagePromptTemplate (text human_prompt) ] in
      llm <- _get_llm;;
      ret {| chain_prompt := prompt_template; chain_llm := llm |}
  | _, _ => raise (mkExc ValueError "Required prompts not found for CODE_CHANGES_AGENT")
  end.

Definition _classify_query (query : string) (history : list HistoryEntry)
  : M Self ClassificationResult.t :=
  prompt <- ClassificationPrompts.get_classification_prompt AgentType.CODE_CHANGES;;
  inputs_history <- lift (contents (last_n 5 history));;
  self <- get_self;;
  match llm self with
  | None =>
      raise (mkExc AttributeError "'CodeChangesChatAgent' object has no attribute 'llm'")
  | Some self_llm =>
      call (fun w t => w_classification_ainvoke w t self_llm prompt query inputs_history)
           (E_classification_ainvoke self_llm prompt query inputs_history)
  end.

(** The event of one chunk:
    [json.dumps({"citations": ..., "message": content})]. *)
Definition event (cits : list string) (content : string) : string :=
  dumps (JObj [("citations", citations_json cits); ("message", JStr content)]).

Definition run (query project_id user_id conversation_id : string)
    (node_ids : list NodeContext) : M Self unit :=
  try_except
    (self <- get_self;;
     match chain self with
     | None =>
         c <- _create_chain;;
         self <- get_self;;
         set_self (set_chain (Some c) self)
     | Some _ => ret tt
     end;;
     history <- history_manager.get_session_history user_id conversation_id;;
     let validated_history := validate_history history in
     classification <- _classify_query query validated_history;;
     let agent_required :=
       ClassificationResult.eqb classification ClassificationResult.AGENT_REQUIRED in
     tool <-
       (if agent_required then
          self <- get_self;;
          blast_radius_result <-
            kickoff_blast_radius_agent query project_id node_ids user_id (mini_llm self);;
          let '(cits, response) :=
            match pydantic blast_radius_result with
            | Some p => (citations p, response p)
            | None => ([], raw blast_radius_result)
            end in
          ret ([SystemMessage ("Blast Radius Agent result: " ++ response)], cits)
        else ret ([], []));;
     let '(tool_results, cits) := tool in
     let inputs :=
       {| inputs_history := validated_history;
          inputs_tool_results := tool_results;
          inputs_input := query |} in
     logger.debug_inputs inputs;;
     cits <- agents_service.format_citations cits;;
     self <- get_self;;
     stream <-
       match chain self with
       | Some c => astream c inputs
       | None => raise (mkExc AttributeError "'NoneType' object has no attribute 'astream'")
       end;;
     full_response <-
       async_for (fst stream) (snd stream)
         (fun chunk full_response =>
            let content := chunk_text chunk in
            let full_response := full_response ++ content in
            history_manager.add_message_chunk conversation_id content
              MessageType.AI_GENERATED (if agent_required then Some cits else None);;
            yield (event (if agent_required then cits else []) content);;
            ret full_response)
         EmptyString;;
     logger.debug ("Full LLM response: " ++ full_response);;
     history_manager.flush_message_buffer conversation_id MessageType.AI_GENERATED)
    (fun e =>
       logger.error ("Error during CodeChangesChatAgent run: " ++ exc_str e);;
       yield ("An error occurred: " ++ exc_str e)).

End CodeChangesChatAgent.

(* ================================================================= *)
(** ** [CustomAgent] *)

Module CustomAgent.

Record Self := {
  agent_id : string;
  user_id : string;
  _llm : option LLM;
  chain : option Chain
}.

Definition set__llm (v : option LLM) (s : Self) : Self :=
  {| agent_id := agent_id s; user_id := user_id s; _llm := v; chain := chain s |}.
Definition set_chain (v : option Chain) (s : Self) : Self :=
  {| agent_id := agent_id s; user_id := user_id s; _llm := _llm s; chain := v |}.

(** [__init__(self, llm_provider, db, agent_id, user_id)]. *)
Definition __init__ (agent_id_arg user_id_arg : string) : Self :=
  {| agent_id := agent_id_arg; user_id := user_id_arg; _llm := None; chain := None |}.

Definition _get_llm : M Self LLM :=
  self <- get_self;;
  match _llm self with
  | None =>
      l <- _llm_provider.get_small_llm AgentType.LANGCHAIN;;
      self <- get_self;;
      set_self (set__llm (Some l) self);;
      ret l
  | Some l => ret l
  end.

(** [await self._get_system_prompt()]: the class body has no such method,
    so the call goes to whatever the world attached under that name, and
    is an [AttributeError] when there is nothing. *)
Definition _get_system_prompt : M Self (option string) :=
  fun w t s =>
    match w_get_system_prompt w with
    | None =>
        (Raise (mkExc AttributeError
                  "'CustomAgent' object has no attribute '_get_system_prompt'"), s, [])
    | Some method => let r := method t in (r, s, [E_get_system_prompt r])
    end.

Definition _create_chain : M Self Chain :=
  system_prompt <- _get_system_prompt;;
  match system_prompt with
  | None | Some EmptyString =>
      self <- get_self;;
      raise (mkExc ValueError ("System prompt not found for agent " ++ agent_id self))
  | Some system_prompt =>
      let prompt_template :=
        [ SystemMessagePromptTemplate system_prompt;
          MessagesPlaceholder "history";
          MessagesPlaceholder "tool_results" ] in
      llm <- _get_llm;;
      ret {| chain_prompt := prompt_template; chain_llm := llm |}
  end.

(** The event of one chunk: [json.dumps({"message": content, "citations": []})]. *)
Definition event (content : string) : string :=
  dumps (JObj [("message", JStr content); ("citations", JArr [])]).

Definition run (query project_id user_id conversation_id : string)
    (node_ids : list NodeContext) : M Self unit :=
  try_except
    (self <- get_self;;
     match chain self with
     | None =>
         c <- _create_chain;;
         self <- get_self;;
         set_self (set_chain (Some c) self)
     | Some _ => ret tt
     end;;
     history <- history_manager.get_session_history user_id conversation_id;;
     let validated_history := validate_history history in
     self <- get_self;;
     custom_agent_result <-
       custom_agents_service.run_agent (agent_id self) query conversation_id user_id node_ids;;
     let tool_results :=
       [SystemMessage ("Custom Agent result: " ++ dumps custom_agent_result)] in
     let inputs :=
       {| inputs_history := validated_history;
          inputs_tool_results := tool_results;
          inputs_input := query |} in
     logger.debug_inputs inputs;;
     self <- get_self;;
     stream <-
       match chain self with
       | Some c => astream c inputs
       | None => raise (mkExc AttributeError "'NoneType' object has no attribute 'astream'")
       end;;
     full_response <-
       async_for (fst stream) (snd stream)
         (fun chunk full_response =>
            let content := chunk_text chunk in
            let full_response := full_response ++ content in
            history_manager.add_message_chunk conversation_id content
              MessageType.AI_GENERATED None;;
            yield (event content);;
            ret full_response)
         EmptyString;;
     logger.debug ("Full LLM response: " ++ full_response);;
     history_manager.flush_message_buffer conversation_id MessageType.AI_GENERATED)
    (fun e =>
       logger.error ("Error during CustomAgent run: " ++ exc_str e);;
       yield ("An error occurred: " ++ exc_str e)).

End CustomAgent.

(* ================================================================= *)
(** ** Reading a trace *)

(** The sequence a generator produced. *)
Fixpoint yields (t : Trace) : list string :=
  match t with
  | [] => []
  | E_yield item :: t' => item :: yields t'
  | _ :: t' => yields t'
  end.

(** The fragments handed to [add_message_chunk] by calls that returned. *)
Fixpoint persisted (t : Trace) : list string :=
  match t with
  | [] => []
  | E_add_message_chunk _ chunk _ _ (Return _) :: t' => chunk :: persisted t'
  | _ :: t' => persisted t'
  end.

(** The text of the chunks the model stream delivered. *)
Fixpoint arrived (t : Trace) : list string :=
  match t with
  | [] => []
  | E_anext (Return (Some chunk)) :: t' => chunk_text chunk :: arrived t'
  | _ :: t' => arrived t'
  end.

Definition is_history_write (e : Effect) : bool :=
  match e with
  | E_add_message_chunk _ _ _ _ _ | E_flush_message_buffer _ _ _ => true
  | _ => false
  end.

Definition is_acquire (e : Effect) : bool :=
  match e with E_wait_for_acquire _ _ => true | _ => false end.

Definition is_provider_call (e : Effect) : bool :=
  match e with E_get_small_llm _ _ => true | _ => false end.

Definition is_stream_effect (e : Effect) : bool :=
  match e with E_astream _ _ | E_anext _ => true | _ => false end.

Definition is_classification (e : Effect) : bool :=
  match e with
  | E_get_classification_prompt _ _ | E_classification_ainvoke _ _ _ _ _ => true
  | _ => false
  end.

(** The value logged as the full response, when the run got that far. *)
Fixpoint full_response_of (t : Trace) : option string :=
  match t with
  | [] => None
  | E_logger_debug (LogText msg) :: t' =>
      if String.prefix "Full LLM response: " msg
      then Some (substring 19 (String.length msg - 19) msg)
      else full_response_of t'
  | _ :: t' => full_response_of t'
  end.

(** The items of a produced sequence that are events, as their messages. *)
Definition fragments (items : list string) : list string :=
  flat_map (fun item => match event_message item with Some m => [m] | None => [] end) items.

(** The text of the terminal item of a failed run. *)
Definition error_text (e : Exc) : string := "An error occurred: " ++ exc_str e.

(** A collaborator call that raised. *)
Definition raised (e : Effect) : bool :=
  match e with
  | E_wait_for_acquire _ (Raise _)
  | E_handle_quota_exceeded (Raise _)
  | E_get_small_llm _ (Raise _)
  | E_get_prompts_by_agent_id_and_types _ _ (Raise _)
  | E_get_system_prompt (Raise _)
  | E_get_session_history _ _ (Raise _)
  | E_add_message_chunk _ _ _ _ (Raise _)
  | E_flush_message_buffer _ _ (Raise _)
  | E_get_classification_prompt _ (Raise _)
  | E_classification_ainvoke _ _ _ _ (Raise _)
  | E_kickoff_blast_radius_agent _ _ _ _ _ (Raise _)
  | E_format_citations _ (Raise _)
  | E_run_agent _ _ _ _ _ (Raise _)
  | E_anext (Raise _) => true
  | _ => false
  end.

(** A run got to the end of its [try] block: the flush returned. *)
Definition completed (t : Trace) : bool :=
  existsb (fun e => match e with
                    | E_flush_message_buffer _ _ (Return _) => true
                    | _ => false
                    end) t.

(** *** The shape of the streaming loop

    One iteration whose write returned performs [chunk_effects]; the loop
    ends in one of the ways of [StreamEnd]. *)

Definition chunk_effects (conversation_id : string) (cits : option (list string))
    (ev : string -> string) (c : Chunk) : Trace :=
  [ E_anext (Return (Some c));
    E_add_message_chunk conversation_id (chunk_text c) MessageType.AI_GENERATED cits (Return tt);
    E_yield (ev (chunk_text c)) ].

Inductive StreamEnd :=
| Exhausted                               (* the stream ended *)
| Stream_raised (e : Exc)                 (* the stream raised *)
| Write_raised (c : Chunk) (e : Exc).     (* [add_message_chunk] raised on [c] *)

Definition end_effects (conversation_id : string) (cits : option (list string))
    (en : StreamEnd) : Trace :=
  match en with
  | Exhausted => [E_anext (Return None)]
  | Stream_raised e => [E_anext (Raise e)]
  | Write_raised c e =>
      [ E_anext (Return (Some c));
        E_add_message_chunk conversation_id (chunk_text c) MessageType.AI_GENERATED cits (Raise e) ]
  end.

Definition end_result (full_response : string) (en : StreamEnd) : Result string :=
  match en with
  | Exhausted => Return full_response
  | Stream_raised e | Write_raised _ e => Raise e
  end.

(** The body of the two loops, up to the arguments that differ. *)
Definition stream_body {S} (conversation_id : string) (cits : option (list string))
    (ev : string -> string) : Chunk -> string -> M S string :=
  fun chunk full_response =>
    let content := chunk_text chunk in
    let full_response := full_response ++ content in
    history_manager.add_message_chunk conversation_id content MessageType.AI_GENERATED cits;;
    yield (ev content);;
    ret full_response.

(** What the [except Exception] clause of a [run] does with [e];
    [who] is the prefix of its log line. *)
Definition failure_effects (who : string) (e : Exc) : Trace :=
  [E_logger_error (who ++ exc_str e); E_yield (error_text e)].

(** What follows the iterations whose write returned: the end of the loop,
    then the log line and the flush (answering [fl]) or the failure. *)
Definition closing (who conversation_id : string) (cits : option (list string))
    (done : list Chunk) (en : StreamEnd) (fl : Result unit) : Trace :=
  (end_effects conversation_id cits en ++
   match en with
   | Exhausted =>
       [ E_logger_debug (LogText ("Full LLM response: " ++ join (map chunk_text done)));
         E_flush_message_buffer conversation_id MessageType.AI_GENERATED fl ] ++
       match fl with
       | Return _ => []
       | Raise e => failure_effects who e
       end
   | Stream_raised e | Write_raised _ e => failure_effects who e
   end)%list.

(** The effects of building the chain. *)
Definition chain_effect (e : Effect) : bool :=
  match e with
  | E_wait_for_acquire _ _ | E_handle_quota_exceeded _ | E_get_small_llm _ _
  | E_get_prompts_by_agent_id_and_types _ _ _ | E_get_system_prompt _
  | E_logger_error _ => true
  | E_logger_debug (LogText msg) => String.eqb msg "Rate limiter acquired for LLM call"
  | _ => false
  end.

(** The citations of a tool result, as [run] takes them, and the response. *)
Definition tool_citations (r : CrewOutput) : list string :=
  match pydantic r with Some p => citations p | None => [] end.

Definition tool_response (r : CrewOutput) : string :=
  match pydantic r with Some p => response p | None => raw r end.

(** An item of a produced sequence is an event when it reads as one. *)
Definition is_event (item : string) : bool :=
  match event_message item with Some _ => true | None => false end.

(** The events of a trace. *)
Definition events (t : Trace) : list string := filter is_event (yields t).

(* ================================================================= *)
(** ** The traces of [CustomAgent.run] *)

Module CustomAgentShape.
Import CustomAgent.

Definition who : string := "Error during CustomAgent run: ".

(** The first statement of [run]:
    [if not self.chain: self.chain = await self._create_chain()]. *)
Definition ensure_chain : M Self unit :=
  self <- get_self;;
  match chain self with
  | None =>
      c <- _create_chain;;
      self <- get_self;;
      set_self (set_chain (Some c) self)
  | Some _ => ret tt
  end.

Definition inputs_of (query : string) (h : list HistoryEntry) (v : JValue) : Inputs :=
  {| inputs_history := validate_history h;
     inputs_tool_results := [SystemMessage ("Custom Agent result: " ++ dumps v)];
     inputs_input := query |}.

(** What a run does after the first statement, given how that one ended
    and the attributes it left. *)
Inductive after_chain (self : Self) (query user_id conversation_id : string)
    (node_ids : list NodeContext) : Result unit -> Trace -> Prop :=
| chain_failed e :
    after_chain self query user_id conversation_id node_ids
      (Raise e) (failure_effects who e)
| history_failed e :
    after_chain self query user_id conversation_id node_ids (Return tt)
      (E_get_session_history user_id conversation_id (Raise e) :: failure_effects who e)
| agent_failed h e :
    after_chain self query user_id conversation_id node_ids (Return tt)
      (E_get_session_history user_id conversation_id (Return h)
       :: E_run_agent (agent_id self) query conversation_id user_id node_ids (Raise e)
       :: failure_effects who e)
| streamed h v c done en fl :
    chain self = Some c ->
    after_chain self query user_id conversation_id node_ids (Return tt)
      (E_get_session_history user_id conversation_id (Return h)
       :: E_run_agent (agent_id self) query conversation_id user_id node_ids (Return v)
       :: E_logger_debug (LogInputs (inputs_of query h v))
       :: E_astream c (inputs_of query h v)
       :: flat_map (chunk_effects conversation_id None event) done
          ++ closing who conversation_id None done en fl)%list.

End CustomAgentShape.

(* ================================================================= *)
(** ** The traces of [CodeChangesChatAgent.run] *)

Module CodeChangesShape.
Import CodeChangesChatAgent.

Definition who : string := "Error during CodeChangesChatAgent run: ".

(** The first statement of [run]. *)
Definition ensure_chain : M Self unit :=
  self <- get_self;;
  match chain self with
  | None =>
      c <- _create_chain;;
      self <- get_self;;
      set_self (set_chain (Some c) self)
  | Some _ => ret tt
  end.

(** The classification a tool result, or its absence, goes with. *)
Definition classification_of (tool : option CrewOutput) : ClassificationResult.t :=
  match tool with
  | Some _ => ClassificationResult.AGENT_REQUIRED
  | None => ClassificationResult.NO_AGENT_REQUIRED
  end.

Definition raw_citations (tool : option CrewOutput) : list string :=
  match tool with Some r => tool_citations r | None => [] end.

Definition inputs_of (query : string) (h : list HistoryEntry) (tool : option CrewOutput)
  : Inputs :=
  {| inputs_history := validate_history h;
     inputs_tool_results :=
       match tool with
       | Some r => [SystemMessage ("Blast Radius Agent result: " ++ tool_response r)]
       | None => []
       end;
     inputs_input := query |}.

(** The citations argument of [add_message_chunk] and those of the events. *)
Definition chunk_citations (tool : option CrewOutput) (formatted : list string)
  : option (list string) :=
  match tool with Some _ => Some formatted | None => None end.

Definition event_citations_of (tool : option CrewOutput) (formatted : list string)
  : list string :=
  match tool with Some _ => formatted | None => [] end.

Definition AttributeError_llm : Exc :=
  mkExc AttributeError "'CodeChangesChatAgent' object has no attribute 'llm'".

Section Run.
Variables (self : Self) (query project_id user_id conversation_id : string)
  (node_ids : list NodeContext).

(** History fetched, classification prompt obtained, classifier answered. *)
Definition classify_effects (h : list HistoryEntry) (p : string) (l : LLM)
    (hc : list string) (r : Result ClassificationResult.t) : Trace :=
  [ E_get_session_history user_id conversation_id (Return h);
    E_get_classification_prompt AgentType.CODE_CHANGES (Return p);
    E_classification_ainvoke l p query hc r ].

Definition kickoff_effects (tool : option CrewOutput) : Trace :=
  match tool with
  | Some r =>
      [E_kickoff_blast_radius_agent query project_id node_ids user_id (mini_llm self)
         (Return r)]
  | None => []
  end.

(** What a run does after the first statement, given how that one
    ended and the attributes it left. *)
Inductive after_chain : Result unit -> Trace -> Prop :=
| chain_failed e :
    after_chain (Raise e) (failure_effects who e)
| history_failed e :
    after_chain (Return tt)
      (E_get_session_history user_id conversation_id (Raise e) :: failure_effects who e)
| classification_prompt_failed h e :
    after_chain (Return tt)
      (E_get_session_history user_id conversation_id (Return h)
       :: E_get_classification_prompt AgentType.CODE_CHANGES (Raise e)
       :: failure_effects who e)
| llm_missing h p :
    llm self = None ->
    after_chain (Return tt)
      (E_get_session_history user_id conversation_id (Return h)
       :: E_get_classification_prompt AgentType.CODE_CHANGES (Return p)
       :: failure_effects who AttributeError_llm)
| classifier_failed h p l hc e :
    llm self = Some l ->
    contents (last_n 5 (validate_history h)) = Return hc ->
    after_chain (Return tt)
      (classify_effects h p l hc (Raise e) ++ failure_effects who e)%list
| tool_failed h p l hc e :
    llm self = Some l ->
    contents (last_n 5 (validate_history h)) = Return hc ->
    after_chain (Return tt)
      (classify_effects h p l hc (Return ClassificationResult.AGENT_REQUIRED)
       ++ E_kickoff_blast_radius_agent query project_id node_ids user_id (mini_llm self)
            (Raise e)
       :: failure_effects who e)%list
| format_failed h p l hc tool e :
    llm self = Some l ->
    contents (last_n 5 (validate_history h)) = Return hc ->
    after_chain (Return tt)
      (classify_effects h p l hc (Return (classification_of tool))
       ++ kickoff_effects tool
       ++ E_logger_debug (LogInputs (inputs_of query h tool))
       :: E_format_citations (raw_citations tool) (Raise e)
       :: failure_effects who e)%list
| streamed h p l hc tool formatted c done en fl :
    llm self = Some l ->
    contents (last_n 5 (validate_history h)) = Return hc ->
    chain self = Some c ->
    after_chain (Return tt)
      (classify_effects h p l hc (Return (classification_of tool))
       ++ kickoff_effects tool
       ++ E_logger_debug (LogInputs (inputs_of query h tool))
       :: E_format_citations (raw_citations tool) (Return formatted)
       :: E_astream c (inputs_of query h tool)
       :: flat_map (chunk_effects conversation_id (chunk_citations tool formatted)
                      (event (event_citations_of tool formatted))) done
          ++ closing who conversation_id (chunk_citations tool formatted) done en fl)%list.
End Run.

End CodeChangesShape.

(* ================================================================= *)
(** ** Runs of either agent, and successive runs of one instance *)

Inductive Agent :=
| CodeChanges (self : CodeChangesChatAgent.Self)
| Custom (self : CustomAgent.Self).

Record Call := {
  call_query : string;
  call_project_id : string;
  call_user_id : string;
  call_conversation_id : string;
  call_node_ids : list NodeContext
}.

(** The result of [run] on an agent, and its trace. *)
Definition run_result (a : Agent) (c : Call) (w : World) (t : Trace) : Result unit :=
  match a with
  | CodeChanges s =>
      fst (fst (CodeChangesChatAgent.run (call_query c) (call_project_id c) (call_user_id c)
                  (call_conversation_id c) (call_node_ids c) w t s))
  | Custom s =>
      fst (fst (CustomAgent.run (call_query c) (call_project_id c) (call_user_id c)
                  (call_conversation_id c) (call_node_ids c) w t s))
  end.

Definition run_trace (a : Agent) (c : Call) (w : World) (t : Trace) : Trace :=
  match a with
  | CodeChanges s =>
      snd (CodeChangesChatAgent.run (call_query c) (call_project_id c) (call_user_id c)
             (call_conversation_id c) (call_node_ids c) w t s)
  | Custom s =>
      snd (CustomAgent.run (call_query c) (call_project_id c) (call_user_id c)
             (call_conversation_id c) (call_node_ids c) w t s)
  end.

(** The traces of successive runs of one [CodeChangesChatAgent]. *)
Fixpoint CodeChanges_session (calls : list Call) (w : World) (t : Trace)
    (s : CodeChangesChatAgent.Self) : list Trace :=
  match calls with
  | [] => []
  | c :: calls' =>
      let '(_, s', t') :=
        CodeChangesChatAgent.run (call_query c) (call_project_id c) (call_user_id c)
          (call_conversation_id c) (call_node_ids c) w t s in
      t' :: CodeChanges_session calls' w (t ++ t')%list s'
  end.

(* ================================================================= *)
(** ** Sample worlds and calls *)

(** Every collaborator answers; the classifier asks for the agent; the tool
    gives one citation; the model streams two chunks. *)
Definition sample_world : World := {|
  w_wait_for_acquire := fun _ _ => Return tt;
  w_handle_quota_exceeded := fun _ => Return tt;
  w_get_small_llm := fun _ _ => Return {| llm_name := "small" |};
  w_get_prompts_by_agent_id_and_types := fun _ _ _ =>
    Return [ {| type := PromptType.SYSTEM; text := "You review code changes." |};
             {| type := PromptType.HUMAN; text := "{input}" |} ];
  w_get_system_prompt := Some (fun _ => Return (Some "You are a custom agent."));
  w_get_session_history := fun _ _ _ =>
    Return [Prim_str "hi"; Prim_int 42; Msg (AIMessage "hello")];
  w_add_message_chunk := fun _ _ _ _ _ => Return tt;
  w_flush_message_buffer := fun _ _ _ => Return tt;
  w_get_classification_prompt := fun _ _ => Return "classify";
  w_classification_ainvoke := fun _ _ _ _ _ => Return ClassificationResult.AGENT_REQUIRED;
  w_kickoff_blast_radius_agent := fun _ _ _ _ _ _ =>
    Return {| pydantic := Some {| response := "3 call sites affected";
                                  citations := ["fileA.py:10"] |};
              raw := "3 call sites affected" |};
  w_format_citations := fun _ cits => Return cits;
  w_run_agent := fun _ _ _ _ _ _ => Return (JObj [("ok", JBool true)]);
  w_astream := fun _ _ _ => ([ContentChunk "Hel"; OtherChunk "lo"], None)
|}.

(** As [sample_world], the rate limiter timing out. *)
Definition overloaded_world : World := {|
  w_wait_for_acquire := fun _ _ => Raise (mkExc TimeoutError EmptyString);
  w_handle_quota_exceeded := w_handle_quota_exceeded sample_world;
  w_get_small_llm := w_get_small_llm sample_world;
  w_get_prompts_by_agent_id_and_types := w_get_prompts_by_agent_id_and_types sample_world;
  w_get_system_prompt := w_get_system_prompt sample_world;
  w_get_session_history := w_get_session_history sample_world;
  w_add_message_chunk := w_add_message_chunk sample_world;
  w_flush_message_buffer := w_flush_message_buffer sample_world;
  w_get_classification_prompt := w_get_classification_prompt sample_world;
  w_classification_ainvoke := w_classification_ainvoke sample_world;
  w_kickoff_blast_radius_agent := w_kickoff_blast_radius_agent sample_world;
  w_format_citations := w_format_citations sample_world;
  w_run_agent := w_run_agent sample_world;
  w_astream := w_astream sample_world
|}.

(** As [sample_world], the prompt service knowing no HUMAN prompt. *)
Definition no_human_prompt_world : World := {|
  w_wait_for_acquire := w_wait_for_acquire sample_world;
  w_handle_quota_exceeded := w_handle_quota_exceeded sample_world;
  w_get_small_llm := w_get_small_llm sample_world;
  w_get_prompts_by_agent_id_and_types := fun _ _ _ =>
    Return [ {| type := PromptType.SYSTEM; text := "You review code changes." |} ];
  w_get_system_prompt := w_get_system_prompt sample_world;
  w_get_session_history := w_get_session_history sample_world;
  w_add_message_chunk := w_add_message_chunk sample_world;
  w_flush_message_buffer := w_flush_message_buffer sample_world;
  w_get_classification_prompt := w_get_classification_prompt sample_world;
  w_classification_ainvoke := w_classification_ainvoke sample_world;
  w_kickoff_blast_radius_agent := w_kickoff_blast_radius_agent sample_world;
  w_format_citations := w_format_citations sample_world;
  w_run_agent := w_run_agent sample_world;
  w_astream := w_astream sample_world
|}.

(** As [sample_world], the second write to the history failing. *)
Definition failing_write_world : World := {|
  w_wait_for_acquire := w_wait_for_acquire sample_world;
  w_handle_quota_exceeded := w_handle_quota_exceeded sample_world;
  w_get_small_llm := w_get_small_llm sample_world;
  w_get_prompts_by_agent_id_and_types := w_get_prompts_by_agent_id_and_types sample_world;
  w_get_system_prompt := w_get_system_prompt sample_world;
  w_get_session_history := w_get_session_history sample_world;
  w_add_message_chunk := fun _ _ chunk _ _ =>
    if String.eqb chunk "lo"
    then Raise (mkExc (OtherException "sqlalchemy.exc.OperationalError") "database is locked")
    else Return tt;
  w_flush_message_buffer := w_flush_message_buffer sample_world;
  w_get_classification_prompt := w_get_classification_prompt sample_world;
  w_classification_ainvoke := w_classification_ainvoke sample_world;
  w_kickoff_blast_radius_agent := w_kickoff_blast_radius_agent sample_world;
  w_format_citations := w_format_citations sample_world;
  w_run_agent := w_run_agent sample_world;
  w_astream := w_astream sample_world
|}.

Definition sample_call : Call := {|
  call_query := "what breaks if I change function foo?";
  call_project_id := "project-1";
  call_user_id := "user-1";
  call_conversation_id := "conv-1";
  call_node_ids := []
|}.

(** A [CodeChangesChatAgent] as its constructor leaves it, and one on which
    the attribute [llm] has been set from outside. *)
Definition fresh_code_changes_agent : CodeChangesChatAgent.Self :=
  CodeChangesChatAgent.__init__ {| llm_name := "mini" |} {| llm_name := "large" |}.

Definition patched_code_changes_agent : CodeChangesChatAgent.Self :=
  {| CodeChangesChatAgent.mini_llm := {| llm_name := "mini" |};
     CodeChangesChatAgent._llm := None;
     CodeChangesChatAgent.chain := None;
     CodeChangesChatAgent.llm := Some {| llm_name := "large" |};
     CodeChangesChatAgent._get_prompts_cached := false |}.

Definition fresh_custom_agent : CustomAgent.Self :=
  CustomAgent.__init__ "agent-1" "user-1".

(* ================================================================= *)
(** ** The common shape of a run *)

(** What a run does before its loop: no yield, no write to the history,
    no chunk, no log of the full response. *)
Definition setup_effect (e : Effect) : bool :=
  match e with
  | E_yield _ | E_add_message_chunk _ _ _ _ _ | E_flush_message_buffer _ _ _
  | E_anext _ => false
  | E_logger_debug (LogText msg) => negb (String.prefix "Full LLM response: " msg)
  | _ => true
  end.

(** A run either fails before its loop, or goes through some iterations
    and closes. *)
Inductive run_shape (who conversation_id : string) (cits : option (list string))
    (ev : string -> string) : Trace -> Prop :=
| shape_failed setup e :
    forallb setup_effect setup = true ->
    run_shape who conversation_id cits ev (setup ++ failure_effects who e)%list
| shape_streamed setup done en fl :
    forallb setup_effect setup = true ->
    existsb raised setup = false ->
    run_shape who conversation_id cits ev
      (setup ++ flat_map (chunk_effects conversation_id cits ev) done
             ++ closing who conversation_id cits done en fl)%list.

(** The exceptions the two files raise themselves. *)
Definition ValueError_prompts : Exc :=
  mkExc ValueError "Required prompts not found for CODE_CHANGES_AGENT".

Definition overloaded : Exc :=
  mkExc Exception "Service is currently overloaded. Please try again later.".

Definition AttributeError_get_system_prompt : Exc :=
  mkExc AttributeError "'CustomAgent' object has no attribute '_get_system_prompt'".

(** [l1] is a prefix of [l2]. *)
Definition is_prefix {A} (l1 l2 : list A) : Prop := exists extra, l2 = (l1 ++ extra)%list.

(** What a trace has yielded as events, persisted and received, at a point. *)
Definition yielded (t : Trace) : list string := fragments (yields t).

(* ================================================================= *)
(** ** Further readings of a trace *)

Local Open Scope list_scope.

(** At every point of [l], what has been yielded is a prefix of what has
    been persisted, itself a prefix of what has arrived. *)
Definition ordered (l : Trace) : Prop :=
  forall k, is_prefix (yielded (firstn k l)) (persisted (firstn k l))
            /\ is_prefix (persisted (firstn k l)) (arrived (firstn k l)).

(** The calls made while building the chain. *)
Definition chain_call (e : Effect) : bool :=
  match e with
  | E_wait_for_acquire _ _ | E_handle_quota_exceeded _ | E_get_small_llm _ _
  | E_get_prompts_by_agent_id_and_types _ _ _ | E_get_system_prompt _ => true
  | _ => false
  end.

(** The effects of the loop and of what closes a run. *)
Definition loop_effect (e : Effect) : bool :=
  match e with
  | E_yield _ | E_add_message_chunk _ _ _ _ _ | E_flush_message_buffer _ _ _
  | E_anext _ | E_logger_debug (LogText _) | E_logger_error _ => true
  | _ => false
  end.

Definition is_classifier_call (e : Effect) : bool :=
  match e with E_classification_ainvoke _ _ _ _ _ => true | _ => false end.

(** What holds of a run that cannot classify. *)
Definition fails_at_classification (tr : Trace) : Prop :=
  (exists e, yields tr = [error_text e])
  /\ forallb (fun x => negb (is_history_write x || is_stream_effect x)) tr = true
  /\ forallb (fun x => negb (is_classifier_call x)) tr = true
  /\ (forall agent_type r, In (E_get_classification_prompt agent_type r) tr ->
        yields tr = [error_text match r with
                                | Return _ => CodeChangesShape.AttributeError_llm
                                | Raise e => e
                                end]).

(* ================================================================= *)
(** ** Sample runs *)

Definition custom_sample_trace : Trace :=
  run_trace (Custom fresh_custom_agent) sample_call sample_world [].

Definition code_changes_sample_trace : Trace :=
  run_trace (CodeChanges patched_code_changes_agent) sample_call sample_world [].

Definition failing_write_trace : Trace :=
  run_trace (Custom fresh_custom_agent) sample_call failing_write_world [].

Definition fresh_session : list Trace :=
  CodeChanges_session [sample_call; sample_call] sample_world [] fresh_code_changes_agent.

Definition no_human_prompt_trace : Trace :=
  run_trace (CodeChanges fresh_code_changes_agent) sample_call no_human_prompt_world [].

Definition overloaded_trace : Trace :=
  run_trace (CodeChanges fresh_code_changes_agent) sample_call overloaded_world [].

(* ================================================================= *)
(** ** Successive runs of one instance of either class *)

(** The attributes of an agent as a run leaves them. *)
Definition run_self (a : Agent) (c : Call) (w : World) (t : Trace) : Agent :=
  match a with
  | CodeChanges s =>
      CodeChanges
        (snd (fst (CodeChangesChatAgent.run (call_query c) (call_project_id c) (call_user_id c)
                     (call_conversation_id c) (call_node_ids c) w t s)))
  | Custom s =>
      Custom
        (snd (fst (CustomAgent.run (call_query c) (call_project_id c) (call_user_id c)
                     (call_conversation_id c) (call_node_ids c) w t s)))
  end.

(** The traces of successive runs of one instance, each run after the
    interaction of the earlier ones. *)
Fixpoint session (calls : list Call) (w : World) (t : Trace) (a : Agent) : list Trace :=
  match calls with
  | [] => []
  | c :: calls' =>
      run_trace a c w t :: session calls' w (t ++ run_trace a c w t) (run_self a c w t)
  end.

(** [self.chain]. *)
Definition agent_chain (a : Agent) : option Chain :=
  match a with
  | CodeChanges s => CodeChangesChatAgent.chain s
  | Custom s => CustomAgent.chain s
  end.

(* ================================================================= *)
(** ** Further readers and exceptions *)

(** The test of [_get_llm] on the text of an exception:
    ["429" in str(e) or "quota exceeded" in str(e).lower()]. *)
Definition quota_text (s : string) : bool :=
  contains "429" s || contains "quota exceeded" (lower s).

Definition is_quota_handling (e : Effect) : bool :=
  match e with E_handle_quota_exceeded _ => true | _ => false end.

Definition is_prompt_fetch (e : Effect) : bool :=
  match e with E_get_prompts_by_agent_id_and_types _ _ _ => true | _ => false end.

Definition is_flush (e : Effect) : bool :=
  match e with E_flush_message_buffer _ _ _ => true | _ => false end.

Definition is_astream (e : Effect) : bool :=
  match e with E_astream _ _ => true | _ => false end.

(** The provider handing out a model handle. *)
Definition is_provider_answer (e : Effect) : bool :=
  match e with E_get_small_llm _ (Return _) => true | _ => false end.

Definition is_kickoff (e : Effect) : bool :=
  match e with E_kickoff_blast_radius_agent _ _ _ _ _ _ => true | _ => false end.

(** What a trace holds after the first call that raised. *)
Fixpoint after_first_raise (t : Trace) : Trace :=
  match t with
  | [] => []
  | x :: t' => if raised x then t' else after_first_raise t'
  end.

(** Logging an error, handling an exhausted quota, yielding an item. *)
Definition is_report (e : Effect) : bool :=
  match e with
  | E_logger_error _ | E_handle_quota_exceeded _ | E_yield _ => true
  | _ => false
  end.

(** Every character of [s] is a printable ASCII character (32 to 126). *)
Fixpoint printable (s : string) : bool :=
  match s with
  | EmptyString => true
  | String c s' =>
      let n := N_of_ascii c in ((32 <=? n) && (n <=? 126))%N && printable s'
  end.

(** What awaiting the cached coroutine of [_get_prompts] again raises. *)
Definition stale_coroutine : Exc :=
  mkExc RuntimeError "cannot reuse already awaited coroutine".

(** The [ValueError] of [CustomAgent._create_chain]. *)
Definition ValueError_system_prompt (agent_id : string) : Exc :=
  mkExc ValueError ("System prompt not found for agent " ++ agent_id)%string.

(* ================================================================= *)
(** ** Further sample worlds *)

(** As [sample_world], the provider refusing for an exhausted quota. *)
Definition quota_world : World := {|
  w_wait_for_acquire := w_wait_for_acquire sample_world;
  w_handle_quota_exceeded := w_handle_quota_exceeded sample_world;
  w_get_small_llm := fun _ _ =>
    Raise (mkExc (OtherException "openai.RateLimitError")
             "Error code: 429 - You exceeded your current quota");
  w_get_prompts_by_agent_id_and_types := w_get_prompts_by_agent_id_and_types sample_world;
  w_get_system_prompt := w_get_system_prompt sample_world;
  w_get_session_history := w_get_session_history sample_world;
  w_add_message_chunk := w_add_message_chunk sample_world;
  w_flush_message_buffer := w_flush_message_buffer sample_world;
  w_get_classification_prompt := w_get_classification_prompt sample_world;
  w_classification_ainvoke := w_classification_ainvoke sample_world;
  w_kickoff_blast_radius_agent := w_kickoff_blast_radius_agent sample_world;
  w_format_citations := w_format_citations sample_world;
  w_run_agent := w_run_agent sample_world;
  w_astream := w_astream sample_world
|}.

(** As [sample_world], the provider timing out. *)
Definition provider_timeout_world : World := {|
  w_wait_for_acquire := w_wait_for_acquire sample_world;
  w_handle_quota_exceeded := w_handle_quota_exceeded sample_world;
  w_get_small_llm := fun _ _ => Raise (mkExc TimeoutError "429 upstream timed out");
  w_get_prompts_by_agent_id_and_types := w_get_prompts_by_agent_id_and_types sample_world;
  w_get_system_prompt := w_get_system_prompt sample_world;
  w_get_session_history := w_get_session_history sample_world;
  w_add_message_chunk := w_add_message_chunk sample_world;
  w_flush_message_buffer := w_flush_message_buffer sample_world;
  w_get_classification_prompt := w_get_classification_prompt sample_world;
  w_classification_ainvoke := w_classification_ainvoke sample_world;
  w_kickoff_blast_radius_agent := w_kickoff_blast_radius_agent sample_world;
  w_format_citations := w_format_citations sample_world;
  w_run_agent := w_run_agent sample_world;
  w_astream := w_astream sample_world
|}.

(** As [sample_world], the method [_get_system_prompt] finding no prompt. *)
Definition no_system_prompt_world : World := {|
  w_wait_for_acquire := w_wait_for_acquire sample_world;
  w_handle_quota_exceeded := w_handle_quota_exceeded sample_world;
  w_get_small_llm := w_get_small_llm sample_world;
  w_get_prompts_by_agent_id_and_types := w_get_prompts_by_agent_id_and_types sample_world;
  w_get_system_prompt := Some (fun _ => Return None);
  w_get_session_history := w_get_session_history sample_world;
  w_add_message_chunk := w_add_message_chunk sample_world;
  w_flush_message_buffer := w_flush_message_buffer sample_world;
  w_get_classification_prompt := w_get_classification_prompt sample_world;
  w_classification_ainvoke := w_classification_ainvoke sample_world;
  w_kickoff_blast_radius_agent := w_kickoff_blast_radius_agent sample_world;
  w_format_citations := w_format_citations sample_world;
  w_run_agent := w_run_agent sample_world;
  w_astream := w_astream sample_world
|}.

(** As [sample_world], the classifier asking for no agent. *)
Definition no_agent_world : World := {|
  w_wait_for_acquire := w_wait_for_acquire sample_world;
  w_handle_quota_exceeded := w_handle_quota_exceeded sample_world;
  w_get_small_llm := w_get_small_llm sample_world;
  w_get_prompts_by_agent_id_and_types := w_get_prompts_by_agent_id_and_types sample_world;
  w_get_system_prompt := w_get_system_prompt sample_world;
  w_get_session_history := w_get_session_history sample_world;
  w_add_message_chunk := w_add_message_chunk sample_world;
  w_flush_message_buffer := w_flush_message_buffer sample_world;
  w_get_classification_prompt := w_get_classification_prompt sample_world;
  w_classification_ainvoke := fun _ _ _ _ _ => Return ClassificationResult.NO_AGENT_REQUIRED;
  w_kickoff_blast_radius_agent := w_kickoff_blast_radius_agent sample_world;
  w_format_citations := w_format_citations sample_world;
  w_run_agent := w_run_agent sample_world;
  w_astream := w_astream sample_world
|}.

(** As [sample_world], the rate limiter timing out at the first wait only. *)
Definition busy_once_world : World := {|
  w_wait_for_acquire := fun t _ =>
    if existsb is_acquire t then Return tt else Raise (mkExc TimeoutError EmptyString);
  w_handle_quota_exceeded := w_handle_quota_exceeded sample_world;
  w_get_small_llm := w_get_small_llm sample_world;
  w_get_prompts_by_agent_id_and_types := w_get_prompts_by_agent_id_and_types sample_world;
  w_get_system_prompt := w_get_system_prompt sample_world;
  w_get_session_history := w_get_session_history sample_world;
  w_add_message_chunk := w_add_message_chunk sample_world;
  w_flush_message_buffer := w_flush_message_buffer sample_world;
  w_get_classification_prompt := w_get_classification_prompt sample_world;
  w_classification_ainvoke := w_classification_ainvoke sample_world;
  w_kickoff_blast_radius_agent := w_kickoff_blast_radius_agent sample_world;
  w_format_citations := w_format_citations sample_world;
  w_run_agent := w_run_agent sample_world;
  w_astream := w_astream sample_world
|}.

(** Further sample runs. *)
Definition quota_trace : Trace :=
  run_trace (CodeChanges fresh_code_changes_agent) sample_call quota_world [].

Definition provider_timeout_trace : Trace :=
  run_trace (CodeChanges fresh_code_changes_agent) sample_call provider_timeout_world [].

Definition no_system_prompt_trace : Trace :=
  run_trace (Custom fresh_custom_agent) sample_call no_system_prompt_world [].

Definition no_agent_trace : Trace :=
  run_trace (CodeChanges patched_code_changes_agent) sample_call no_agent_world [].

(** The first run of an instance whose attribute [llm] was set from
    outside, the rate limiter being busy that once. *)
Definition busy_once_first_run : Result unit * CodeChangesChatAgent.Self * Trace :=
  CodeChangesChatAgent.run (call_query sample_call) (call_project_id sample_call)
    (call_user_id sample_call) (call_conversation_id sample_call) (call_node_ids sample_call)
    busy_once_world [] patched_code_changes_agent.

(** The runs that follow it. *)
Definition busy_once_later_runs : list Trace :=
  CodeChanges_session [sample_call; sample_call] busy_once_world (snd busy_once_first_run)
    (snd (fst busy_once_first_run)).

(** The chain and the inputs of the sample run of [CustomAgent]. *)
Definition custom_sample_chain : Chain :=
  {| chain_prompt := [ SystemMessagePromptTemplate "You are a custom agent.";
                       MessagesPlaceholder "history";
                       MessagesPlaceholder "tool_results" ];
     chain_llm := {| llm_name := "small" |} |}.

Definition custom_sample_inputs : Inputs :=
  {| inputs_history :=
       [Msg (HumanMessage "hi"); Msg (HumanMessage "42"); Msg (AIMessage "hello")];
     inputs_tool_results :=
       [SystemMessage ("Custom Agent result: " ++ dumps (JObj [("ok", JBool true)]))%string];
     inputs_input := call_query sample_call |}.

(** The chain and the inputs of the sample run of [CodeChangesChatAgent]. *)
Definition code_changes_sample_chain : Chain :=
  {| chain_prompt := [ SystemMessagePromptTemplate "You review code changes.";
                       MessagesPlaceholder "history";
                       MessagesPlaceholder "tool_results";
                       HumanMessagePromptTemplate "{input}" ];
     chain_llm := {| llm_name := "small" |} |}.

Definition code_changes_sample_inputs : Inputs :=
  {| inputs_history :=
       [Msg (HumanMessage "hi"); Msg (HumanMessage "42"); Msg (AIMessage "hello")];
     inputs_tool_results :=
       [SystemMessage "Blast Radius Agent result: 3 call sites affected"];
     inputs_input := call_query sample_call |}.

(** The instance of [CustomAgent] after its sample run, and two further
    runs of it. *)
Definition warm_custom_agent : Agent :=
  run_self (Custom fresh_custom_agent) sample_call sample_world [].

Definition warm_custom_runs : list Trace :=
  session [sample_call; sample_call] sample_world custom_sample_trace warm_custom_agent.

(* ================================================================= *)
(** * Reading events back *)

Local Open Scope list_scope.
Local Open Scope string_scope.

Lemma str_append_assoc (a b c : string) : (a ++ b) ++ c = a ++ (b ++ c).
Proof. induction a as [|x a IH]; simpl; [reflexivity | now rewrite IH]. Qed.

Lemma str_length_append (a b : string) :
  String.length (a ++ b) = String.length a + String.length b.
Proof. induction a as [|x a IH]; simpl; [reflexivity | now rewrite IH]. Qed.

Lemma parse_chars_escape_char c tail :
  parse_chars (escape_char c ++ tail) = cons_char c (parse_chars tail).
Proof.
  destruct c as [[] [] [] [] [] [] [] []]; reflexivity.
Qed.

Lemma parse_chars_escape s rest :
  parse_chars (escape s ++ String dquote rest) = Some (s, rest).
Proof.
  induction s as [|c s IH]; simpl.
  - reflexivity.
  - rewrite str_append_assoc, parse_chars_escape_char, IH. reflexivity.
Qed.

Lemma dumps_str_append s rest :
  dumps_str s ++ rest = String dquote (escape s ++ String dquote rest).
Proof.
  unfold dumps_str. simpl. now rewrite str_append_assoc.
Qed.

Lemma parse_value_str fuel s rest :
  parse_value (S fuel) (dumps_str s ++ rest) = Some (JStr s, rest).
Proof.
  rewrite dumps_str_append. cbn -[parse_chars]. 
  now rewrite parse_chars_escape.
Qed.

Lemma parse_value_space fuel s : parse_value fuel (String " " s) = parse_value fuel s.
Proof. destruct fuel; reflexivity. Qed.

Lemma parse_elems_space fuel s : parse_elems fuel (String " " s) = parse_elems fuel s.
Proof. destruct fuel; [reflexivity|]. simpl. now rewrite parse_value_space. Qed.

Lemma parse_members_space fuel s : parse_members fuel (String " " s) = parse_members fuel s.
Proof. destruct fuel; reflexivity. Qed.

Lemma parse_elems_S fuel s :
  parse_elems (S fuel) s =
  match parse_value fuel s with
  | Some (v, rest) =>
      match skip_ws rest with
      | String c rest' =>
          if Ascii.eqb c "," then
            match parse_elems fuel rest' with
            | Some (l, r) => Some (v :: l, r)
            | None => None
            end
          else if Ascii.eqb c "]" then Some ([v], rest')
          else None
      | EmptyString => None
      end
  | None => None
  end.
Proof. reflexivity. Qed.

Lemma join_items_cons (x y : string) l :
  join_items (x :: y :: l) = x ++ ", " ++ join_items (y :: l).
Proof. reflexivity. Qed.

Lemma parse_elems_strs l : forall fuel rest,
  l <> [] -> length l < fuel ->
  parse_elems fuel (join_items (map dumps_str l) ++ String "]" rest)
  = Some (map JStr l, rest).
Proof.
  induction l as [|x l IH]; intros fuel rest Hne Hf; [congruence|].
  destruct fuel as [|fuel]; [simpl in Hf; lia|].
  destruct fuel as [|fuel]; [simpl in Hf; lia|].
  rewrite parse_elems_S.
  destruct l as [|y l].
  - cbn [map join_items]. rewrite parse_value_str. reflexivity.
  - change (map dumps_str (x :: y :: l)) with (dumps_str x :: dumps_str y :: map dumps_str l).
    rewrite join_items_cons, !str_append_assoc, parse_value_str.
    change (skip_ws (", " ++ join_items (dumps_str y :: map dumps_str l) ++ String "]" rest))
      with (String "," (String " " (join_items (map dumps_str (y :: l)) ++ String "]" rest))).
    cbv iota beta. change (Ascii.eqb "," ",") with true. cbv iota.
    rewrite parse_elems_space, IH; [reflexivity | congruence | simpl in *; lia].
Qed.


Lemma parse_value_arr fuel s1 :
  parse_value (S fuel) (String "[" (String dquote s1)) =
  match parse_elems fuel (String dquote s1) with
  | Some (l, rest) => Some (JArr l, rest)
  | None => None
  end.
Proof. reflexivity. Qed.

Lemma parse_value_obj fuel s1 :
  parse_value (S fuel) (String "{" (String dquote s1)) =
  match parse_members fuel (String dquote s1) with
  | Some (l, rest) => Some (JObj l, rest)
  | None => None
  end.
Proof. reflexivity. Qed.

Lemma parse_members_S fuel s1 :
  parse_members (S fuel) (String dquote s1) =
  match parse_chars s1 with
  | Some (k, rest) =>
      match skip_ws rest with
      | String c rest1 =>
          if Ascii.eqb c ":" then
            match parse_value fuel rest1 with
            | Some (v, rest2) =>
                match skip_ws rest2 with
                | String c' rest3 =>
                    if Ascii.eqb c' "," then
                      match parse_members fuel rest3 with
                      | Some (l, r) => Some ((k, v) :: l, r)
                      | None => None
                      end
                    else if Ascii.eqb c' "}" then Some ([(k, v)], rest3)
                    else None
                | EmptyString => None
                end
            | None => None
            end
          else None
      | EmptyString => None
      end
  | None => None
  end.
Proof. reflexivity. Qed.

Lemma join_items_strs_head x l r :
  join_items (map dumps_str (x :: l)) ++ r =
  String dquote (escape x ++ String dquote
                   (match l with
                    | [] => r
                    | _ :: _ => ", " ++ join_items (map dumps_str l) ++ r
                    end)).
Proof.
  destruct l as [|y l].
  - cbn [map join_items]. apply dumps_str_append.
  - change (map dumps_str (x :: y :: l)) with (dumps_str x :: map dumps_str (y :: l)).
    change (join_items (dumps_str x :: map dumps_str (y :: l)))
      with (dumps_str x ++ ", " ++ join_items (map dumps_str (y :: l))).
    now rewrite !str_append_assoc, dumps_str_append.
Qed.

Lemma dumps_citations_json l :
  dumps (citations_json l) = "[" ++ join_items (map dumps_str l) ++ "]".
Proof.
  unfold citations_json. cbn [dumps]. rewrite map_map. reflexivity.
Qed.

Lemma parse_value_strs fuel l rest :
  length l < fuel ->
  parse_value (S fuel) (dumps (citations_json l) ++ rest) = Some (citations_json l, rest).
Proof.
  intros Hf. rewrite dumps_citations_json.
  destruct l as [|x l]; [reflexivity|].
  change (("[" ++ join_items (map dumps_str (x :: l)) ++ "]") ++ rest)
    with (String "[" ((join_items (map dumps_str (x :: l)) ++ "]") ++ rest)).
  rewrite str_append_assoc. change ("]" ++ rest) with (String "]" rest).
  pose proof (parse_elems_strs (x :: l) fuel rest ltac:(congruence) Hf) as E.
  rewrite join_items_strs_head in *.
  rewrite parse_value_arr, E. reflexivity.
Qed.

Lemma length_dumps_citations l : length l <= String.length (dumps (citations_json l)).
Proof.
  rewrite dumps_citations_json. simpl. rewrite str_length_append.
  assert (H : length l <= String.length (join_items (map dumps_str l))).
  { induction l as [|x l IH]; [simpl; lia|].
    destruct l as [|y l].
    - simpl. lia.
    - change (map dumps_str (x :: y :: l)) with (dumps_str x :: dumps_str y :: map dumps_str l).
      rewrite join_items_cons, !str_length_append.
      change (dumps_str y :: map dumps_str l) with (map dumps_str (y :: l)).
      simpl in *. lia. }
  lia.
Qed.


Lemma dumps_obj2 k1 v1 k2 v2 :
  dumps (JObj [(k1, v1); (k2, v2)]) =
  "{" ++ ((dumps_str k1 ++ ": " ++ dumps v1) ++ ", " ++ (dumps_str k2 ++ ": " ++ dumps v2)) ++ "}".
Proof. reflexivity. Qed.

Lemma parse_value_obj2 fuel k1 v1 k2 v2 rest :
  (forall r, parse_value (S fuel) (dumps v1 ++ r) = Some (v1, r)) ->
  (forall r, parse_value fuel (dumps v2 ++ r) = Some (v2, r)) ->
  parse_value (S (S (S fuel))) (dumps (JObj [(k1, v1); (k2, v2)]) ++ rest)
  = Some (JObj [(k1, v1); (k2, v2)], rest).
Proof.
  intros H1 H2. rewrite dumps_obj2.
  change ("{" ++ ?a) with (String "{" a).
  rewrite !str_append_assoc.
  change (String "{" ?a ++ ?b) with (String "{" (a ++ b)).
  rewrite !str_append_assoc, dumps_str_append.
  rewrite parse_value_obj, parse_members_S, parse_chars_escape.
  change (skip_ws (": " ++ ?a)) with (String ":" (String " " a)).
  cbv iota beta. change (Ascii.eqb ":" ":") with true. cbv iota.
  rewrite parse_value_space, H1.
  change (skip_ws (", " ++ ?a)) with (String "," (String " " a)).
  cbv iota beta. change (Ascii.eqb "," ",") with true. cbv iota.
  rewrite parse_members_space, dumps_str_append, parse_members_S, parse_chars_escape.
  change (skip_ws (": " ++ ?a)) with (String ":" (String " " a)).
  cbv iota beta. change (Ascii.eqb ":" ":") with true. cbv iota.
  rewrite parse_value_space, H2.
  reflexivity.
Qed.


Lemma str_append_nil_r (s : string) : s ++ EmptyString = s.
Proof. induction s as [|c s IH]; simpl; [reflexivity | now rewrite IH]. Qed.

Lemma loads_obj2 need k1 v1 k2 v2 :
  (forall fuel r, need <= fuel -> parse_value fuel (dumps v1 ++ r) = Some (v1, r)) ->
  (forall fuel r, need <= fuel -> parse_value fuel (dumps v2 ++ r) = Some (v2, r)) ->
  need <= String.length (dumps v1) + String.length (dumps v2) ->
  loads (dumps (JObj [(k1, v1); (k2, v2)])) = Some (JObj [(k1, v1); (k2, v2)]).
Proof.
  intros H1 H2 Hn. unfold loads.
  set (s := dumps _).
  assert (Hlen : need + 2 <= String.length s).
  { subst s. rewrite dumps_obj2, !str_length_append. simpl. lia. }
  destruct (String.length s) as [|[|n]] eqn:E; try lia.
  rewrite <- (str_append_nil_r s) at 1. subst s.
  rewrite parse_value_obj2; [reflexivity | |]; intros r; [apply H1 | apply H2]; lia.
Qed.

Lemma length_dumps_str m : 2 <= String.length (dumps_str m).
Proof. unfold dumps_str. simpl. rewrite str_length_append. simpl. lia. Qed.

Lemma loads_CodeChanges_event cits m :
  loads (CodeChangesChatAgent.event cits m)
  = Some (JObj [("citations", citations_json cits); ("message", JStr m)]).
Proof.
  apply (loads_obj2 (S (S (length cits)))).
  - intros [|fuel] r Hf; [lia|]. apply parse_value_strs. lia.
  - intros [|fuel] r Hf; [lia|]. apply parse_value_str.
  - pose proof (length_dumps_citations cits).
    pose proof (length_dumps_str m).
    change (dumps (JStr m)) with (dumps_str m). lia.
Qed.

Lemma loads_Custom_event m :
  loads (CustomAgent.event m) = Some (JObj [("message", JStr m); ("citations", JArr [])]).
Proof.
  apply (loads_obj2 1).
  - intros [|fuel] r Hf; [lia|]. apply parse_value_str.
  - intros [|fuel] r Hf; [lia|]. reflexivity.
  - simpl. lia.
Qed.

Lemma strings_of_strs l : strings_of (map JStr l) = Some l.
Proof. induction l as [|x l IH]; simpl; [reflexivity | now rewrite IH]. Qed.

Lemma event_message_CodeChanges cits m :
  event_message (CodeChangesChatAgent.event cits m) = Some m.
Proof. unfold event_message. now rewrite loads_CodeChanges_event. Qed.

Lemma event_citations_CodeChanges cits m :
  event_citations (CodeChangesChatAgent.event cits m) = Some cits.
Proof.
  unfold event_citations. rewrite loads_CodeChanges_event. 
  cbn. apply strings_of_strs.
Qed.

Lemma event_message_Custom m : event_message (CustomAgent.event m) = Some m.
Proof. unfold event_message. now rewrite loads_Custom_event. Qed.

Lemma event_citations_Custom m : event_citations (CustomAgent.event m) = Some [].
Proof. unfold event_citations. now rewrite loads_Custom_event. Qed.

Lemma loads_error_text d : loads ("An error occurred: " ++ d) = None.
Proof. reflexivity. Qed.

Local Open Scope list_scope.

Lemma join_cons (x : string) (l : list string) : join (x :: l) = (x ++ join l)%string.
Proof.
  unfold join. destruct l as [|y l]; simpl.
  - now rewrite str_append_nil_r.
  - reflexivity.
Qed.

Lemma yields_app t1 t2 : yields (t1 ++ t2) = yields t1 ++ yields t2.
Proof. induction t1 as [|[] t1 IH]; simpl; rewrite ?IH; reflexivity. Qed.

Lemma persisted_app t1 t2 : persisted (t1 ++ t2) = persisted t1 ++ persisted t2.
Proof.
  induction t1 as [|e t1 IH]; simpl; [reflexivity|].
  destruct e; simpl; rewrite ?IH; try reflexivity.
  destruct r; simpl; rewrite ?IH; reflexivity.
Qed.

Lemma arrived_app t1 t2 : arrived (t1 ++ t2) = arrived t1 ++ arrived t2.
Proof.
  induction t1 as [|e t1 IH]; simpl; [reflexivity|].
  destruct e; simpl; rewrite ?IH; try reflexivity.
  destruct r as [[c|]|]; simpl; rewrite ?IH; reflexivity.
Qed.

Section Loop.
Context {S : Type} (conv : string) (cits : option (list string)) (ev : string -> string).

Lemma async_for_stream_body (chunks : list Chunk) (stop : option Exc) :
  forall (acc : string) (w : World) (t : Trace) (s : S),
  exists (done : list Chunk) (en : StreamEnd),
    async_for chunks stop (stream_body conv cits ev) acc w t s
    = (end_result (acc ++ join (map chunk_text done))%string en, s,
       flat_map (chunk_effects conv cits ev) done ++ end_effects conv cits en)
    /\ match en with
       | Exhausted => done = chunks /\ stop = None
       | Stream_raised e => done = chunks /\ stop = Some e
       | Write_raised c e => exists rest, chunks = done ++ c :: rest
       end.
Proof.
  induction chunks as [|c chunks IH]; intros acc w t s.
  - exists []. destruct stop as [e|].
    + exists (Stream_raised e). split; [|auto]. reflexivity.
    + exists Exhausted. split; [|auto].
      change (join (map chunk_text [])) with EmptyString. rewrite str_append_nil_r. reflexivity.
  - cbn [async_for]. unfold bind at 1. cbn [emit].
    unfold bind at 1. unfold stream_body at 1.
    unfold bind at 1. unfold history_manager.add_message_chunk at 1. unfold call at 1.
    destruct (w_add_message_chunk w _ conv (chunk_text c) MessageType.AI_GENERATED cits) as [[]|e] eqn:E.
    + cbn -[async_for].
      match goal with |- context [async_for chunks stop _ ?a ?w' ?t' ?s'] =>
        destruct (IH a w' t' s') as (done & en & Heq & Hen); rewrite Heq end.
      exists (c :: done), en. split.
      * cbn [map]. rewrite join_cons, str_append_assoc. reflexivity.
      * destruct en; [destruct Hen; subst; auto | destruct Hen; subst; auto |].
        destruct Hen as [rest ->]. now exists rest.
    + exists [], (Write_raised c e). split.
      * cbn. reflexivity.
      * now exists chunks.
Qed.
End Loop.

(** ** Inversion of the monad's operations *)

Lemma bind_inv {S A B} (m : M S A) (k : A -> M S B) w t s r s' t' :
  bind m k w t s = (r, s', t') ->
  (exists a s1 t1 t2,
      m w t s = (Return a, s1, t1) /\ k a w (t ++ t1) s1 = (r, s', t2) /\ t' = t1 ++ t2)
  \/ (exists e, m w t s = (Raise e, s', t') /\ r = Raise e).
Proof.
  unfold bind. destruct (m w t s) as [[[a|e] s1] t1].
  - destruct (k a w (t ++ t1) s1) as [[r2 s2] t2] eqn:E. intros [= <- <- <-].
    left. now exists a, s1, t1, t2.
  - intros [= <- <- <-]. right. now exists e.
Qed.

Lemma try_except_inv {S A} (m : M S A) (h : Exc -> M S A) w t s r s' t' :
  try_except m h w t s = (r, s', t') ->
  (exists a, m w t s = (Return a, s', t') /\ r = Return a)
  \/ (exists e s1 t1 t2,
        m w t s = (Raise e, s1, t1) /\ h e w (t ++ t1) s1 = (r, s', t2) /\ t' = t1 ++ t2).
Proof.
  unfold try_except. destruct (m w t s) as [[[a|e] s1] t1].
  - intros [= <- <- <-]. left. now exists a.
  - destruct (h e w (t ++ t1) s1) as [[r2 s2] t2] eqn:E. intros [= <- <- <-].
    right. now exists e, s1, t1, t2.
Qed.

Lemma call_inv {S A} (o : World -> Trace -> Result A) record w t (s : S) r s' t' :
  call o record w t s = (r, s', t') -> r = o w t /\ s' = s /\ t' = [record r].
Proof. unfold call. intros [= <- <- <-]. auto. Qed.

Lemma ret_inv {S A} (a : A) w t (s : S) r s' t' :
  ret a w t s = (r, s', t') -> r = Return a /\ s' = s /\ t' = [].
Proof. intros [= <- <- <-]. auto. Qed.

Lemma raise_inv {S A} e w t (s : S) (r : Result A) s' t' :
  raise e w t s = (r, s', t') -> r = Raise e /\ s' = s /\ t' = [].
Proof. intros [= <- <- <-]. auto. Qed.

Lemma emit_inv {S} x w t (s : S) r s' t' :
  emit x w t s = (r, s', t') -> r = Return tt /\ s' = s /\ t' = [x].
Proof. intros [= <- <- <-]. auto. Qed.

Lemma get_self_inv {S} w t (s : S) r s' t' :
  get_self w t s = (r, s', t') -> r = Return s /\ s' = s /\ t' = [].
Proof. intros [= <- <- <-]. auto. Qed.

Lemma set_self_inv {S} (v : S) w t (s : S) r s' t' :
  set_self v w t s = (r, s', t') -> r = Return tt /\ s' = v /\ t' = [].
Proof. intros [= <- <- <-]. auto. Qed.

Lemma lift_inv {S A} (x : Result A) w t (s : S) r s' t' :
  lift x w t s = (r, s', t') -> r = x /\ s' = s /\ t' = [].
Proof. intros [= <- <- <-]. auto. Qed.

Lemma astream_inv {S} c i w t (s : S) r s' t' :
  astream c i w t s = (r, s', t') ->
  r = Return (w_astream w t c i) /\ s' = s /\ t' = [E_astream c i].
Proof. intros [= <- <- <-]. auto. Qed.

Lemma async_for_ext {S A} chunks stop (b b' : Chunk -> A -> M S A) :
  (forall c a, b c a = b' c a) ->
  forall acc w t s, async_for chunks stop b acc w t s = async_for chunks stop b' acc w t s.
Proof.
  intros Hb. induction chunks as [|c chunks IH]; intros acc w t s; [reflexivity|].
  cbn [async_for]. unfold bind. cbn [emit]. rewrite Hb.
  destruct (b' c acc w _ s) as [[[a|e] s1] t1]; [|reflexivity].
  now rewrite IH.
Qed.

Lemma async_for_inv {S} conv cits ev chunks stop (b : Chunk -> string -> M S string)
    acc w t s r s' t' :
  async_for chunks stop b acc w t s = (r, s', t') ->
  (forall c a, b c a = stream_body conv cits ev c a) ->
  s' = s /\
  exists done en,
    r = end_result (acc ++ join (map chunk_text done))%string en
    /\ t' = flat_map (chunk_effects conv cits ev) done ++ end_effects conv cits en
    /\ match en with
       | Exhausted => done = chunks /\ stop = None
       | Stream_raised e => done = chunks /\ stop = Some e
       | Write_raised c e => exists rest, chunks = done ++ c :: rest
       end.
Proof.
  intros H Hb. rewrite (async_for_ext _ _ _ _ Hb) in H.
  destruct (async_for_stream_body conv cits ev chunks stop acc w t s)
    as (done & en & Heq & Hen).
  rewrite Heq in H. injection H as <- <- <-.
  split; [reflexivity|]. now exists done, en.
Qed.

(** One step of inversion of a hypothesis [m w t s = (r, s', t')]. *)
Ltac unfold_ops H :=
  unfold asyncio.wait_for_acquire, llm_rate_limiter.handle_quota_exceeded,
    _llm_provider.get_small_llm, prompt_service.get_prompts_by_agent_id_and_types,
    history_manager.get_session_history, history_manager.add_message_chunk,
    history_manager.flush_message_buffer, ClassificationPrompts.get_classification_prompt,
    agents_service.format_citations, custom_agents_service.run_agent,
    kickoff_blast_radius_agent, yield, logger.debug, logger.debug_inputs, logger.error in H.

Ltac inv1 H :=
  let a := fresh "a" in let s1 := fresh "s" in let t1 := fresh "ta" in
  let t2 := fresh "tb" in let e := fresh "e" in
  let H1 := fresh "Ha" in let H2 := fresh "Hb" in let H3 := fresh "Hc" in
  lazymatch type of H with
  | bind _ _ _ _ _ = _ =>
      apply bind_inv in H;
      destruct H as [(a & s1 & t1 & t2 & H1 & H2 & H3) | (e & H1 & H3)]
  | try_except _ _ _ _ _ = _ =>
      apply try_except_inv in H;
      destruct H as [(a & H1 & H3) | (e & s1 & t1 & t2 & H1 & H2 & H3)]
  | call _ _ _ _ _ = _ => apply call_inv in H; destruct H as (H1 & H2 & H3)
  | ret _ _ _ _ = _ => apply ret_inv in H; destruct H as (H1 & H2 & H3)
  | raise _ _ _ _ = _ => apply raise_inv in H; destruct H as (H1 & H2 & H3)
  | emit _ _ _ _ = _ => apply emit_inv in H; destruct H as (H1 & H2 & H3)
  | get_self _ _ _ = _ => apply get_self_inv in H; destruct H as (H1 & H2 & H3)
  | set_self _ _ _ _ = _ => apply set_self_inv in H; destruct H as (H1 & H2 & H3)
  | lift _ _ _ _ = _ => apply lift_inv in H; destruct H as (H1 & H2 & H3)
  | astream _ _ _ _ _ = _ => apply astream_inv in H; destruct H as (H1 & H2 & H3)
  | (match ?x with _ => _ end) _ _ _ = _ => destruct x eqn:?
  | (if ?x then _ else _) _ _ _ = _ => destruct x eqn:?
  | (let '(_, _) := ?x in _) _ _ _ = _ => destruct x eqn:?
  end.

Ltac cleanup :=
  repeat match goal with
  | H : Return _ = Return _ |- _ => injection H as H
  | H : Return _ = Raise _ |- _ => discriminate H
  | H : Raise _ = Return _ |- _ => discriminate H
  | H : Raise _ = Raise _ |- _ => injection H as H
  | H : (_, _) = (_, _) |- _ => injection H as ? ?
  | H : Some _ = Some _ |- _ => injection H as H
  | H : ?x = ?x |- _ => clear H
  end; subst.

Ltac inv_all :=
  repeat (cleanup;
          match goal with
          | H : bind _ _ _ _ _ = _ |- _ => inv1 H
          | H : try_except _ _ _ _ _ = _ |- _ => inv1 H
          | H : call _ _ _ _ _ = _ |- _ => inv1 H
          | H : ret _ _ _ _ = _ |- _ => inv1 H
          | H : raise _ _ _ _ = _ |- _ => inv1 H
          | H : emit _ _ _ _ = _ |- _ => inv1 H
          | H : get_self _ _ _ = _ |- _ => inv1 H
          | H : set_self _ _ _ _ = _ |- _ => inv1 H
          | H : lift _ _ _ _ = _ |- _ => inv1 H
          | H : astream _ _ _ _ _ = _ |- _ => inv1 H
          | H : (match _ with _ => _ end) _ _ _ = (_, _, _) |- _ => inv1 H
          | H : (if _ then _ else _) _ _ _ = (_, _, _) |- _ => inv1 H
          | H : (let '(_, _) := _ in _) _ _ _ = (_, _, _) |- _ => inv1 H
          | H : async_for _ _ _ _ _ _ _ = _ |- _ =>
              let Hs := fresh "Hs" in let done := fresh "done" in let en := fresh "en" in
              let Hr := fresh "Hr" in let Ht := fresh "Ht" in let Hen := fresh "Hen" in
              eapply async_for_inv in H; [ | intros; reflexivity ];
              destruct H as (Hs & done & en & Hr & Ht & Hen);
              destruct en; cbn [end_result] in Hr
          | H : ?f _ _ _ = (_, _, _) |- _ => progress unfold_ops H
          | H : ?f _ _ _ _ = (_, _, _) |- _ => progress unfold_ops H
          | H : ?f _ _ _ _ _ = (_, _, _) |- _ => progress unfold_ops H
          | H : ?f _ _ _ _ _ _ = (_, _, _) |- _ => progress unfold_ops H
          | H : ?f _ _ _ _ _ _ _ = (_, _, _) |- _ => progress unfold_ops H
          | H : ?f _ _ _ _ _ _ _ _ = (_, _, _) |- _ => progress unfold_ops H
          end); cleanup.

Ltac normalize_trace :=
  rewrite ?app_nil_r in *; rewrite <- ?app_assoc; cbn [app end_effects].

Section CustomAgentRun.
Import CustomAgent CustomAgentShape.


Lemma Custom_ensure_chain_Some w t s c :
  chain s = Some c -> ensure_chain w t s = (Return tt, s, []).
Proof. intros Hc. unfold ensure_chain, bind. cbn [get_self]. now rewrite Hc. Qed.

Lemma Custom_ensure_chain_built w t s c s0 pre :
  chain s = None -> _create_chain w t s = (Return c, s0, pre) ->
  ensure_chain w t s = (Return tt, set_chain (Some c) s0, pre).
Proof.
  intros Hc H. unfold ensure_chain. unfold bind at 1. cbn [get_self]. rewrite Hc.
  unfold bind at 1. rewrite app_nil_r, H. cbn. now rewrite app_nil_r.
Qed.

Lemma Custom_ensure_chain_raised w t s e s0 pre :
  chain s = None -> _create_chain w t s = (Raise e, s0, pre) ->
  ensure_chain w t s = (Raise e, s0, pre).
Proof.
  intros Hc H. unfold ensure_chain. unfold bind at 1. cbn [get_self]. rewrite Hc.
  unfold bind at 1. rewrite app_nil_r, H. reflexivity.
Qed.


Lemma Custom_run_inv query project_id user_id conversation_id node_ids w t s r s' t' :
  CustomAgent.run query project_id user_id conversation_id node_ids w t s = (r, s', t') ->
  r = Return tt /\
  exists r0 pre post,
    ensure_chain w t s = (r0, s', pre)
    /\ t' = pre ++ post
    /\ after_chain s' query user_id conversation_id node_ids r0 post.
Proof.
  intros H. unfold run in H.
  inv_all.
  all: cbn [chain set_chain] in *; try congruence; cleanup.
  all: normalize_trace.
  all: (split; [ try reflexivity; match goal with a : unit |- _ => now destruct a end | ]).
  all: eexists _, _, _;
    (split;
     [ first [ eapply Custom_ensure_chain_Some; eassumption
             | eapply Custom_ensure_chain_built; eassumption
             | eapply Custom_ensure_chain_raised; eassumption ]
     | split; [ reflexivity | ] ]).
  all: repeat match goal with a : unit |- _ => destruct a end.
  all: first
    [ apply chain_failed | apply history_failed | apply agent_failed
    | eapply streamed with (en := Exhausted) (fl := Return tt); first [eassumption | reflexivity]
    | eapply streamed with (en := Exhausted) (fl := Raise _); first [eassumption | reflexivity]
    | eapply streamed with (en := Stream_raised _) (fl := Return tt); first [eassumption | reflexivity]
    | eapply streamed with (en := Write_raised _ _) (fl := Return tt); first [eassumption | reflexivity] ].
Qed.

End CustomAgentRun.

Section CodeChangesRun.
Import CodeChangesChatAgent CodeChangesShape.

Lemma CodeChanges_ensure_chain_Some w t s c :
  chain s = Some c -> ensure_chain w t s = (Return tt, s, []).
Proof. intros Hc. unfold ensure_chain, bind. cbn [get_self]. now rewrite Hc. Qed.

Lemma CodeChanges_ensure_chain_built w t s c s0 pre :
  chain s = None -> _create_chain w t s = (Return c, s0, pre) ->
  ensure_chain w t s = (Return tt, set_chain (Some c) s0, pre).
Proof.
  intros Hc H. unfold ensure_chain. unfold bind at 1. cbn [get_self]. rewrite Hc.
  unfold bind at 1. rewrite app_nil_r, H. cbn. now rewrite app_nil_r.
Qed.

Lemma CodeChanges_ensure_chain_raised w t s e s0 pre :
  chain s = None -> _create_chain w t s = (Raise e, s0, pre) ->
  ensure_chain w t s = (Raise e, s0, pre).
Proof.
  intros Hc H. unfold ensure_chain. unfold bind at 1. cbn [get_self]. rewrite Hc.
  unfold bind at 1. rewrite app_nil_r, H. reflexivity.
Qed.

Lemma validate_entry_is_msg x : exists m, validate_entry x = Msg m.
Proof. destruct x; cbn; eauto. Qed.

Lemma contents_msgs l :
  (forall x, In x l -> exists m, x = Msg m) -> exists cs, contents l = Return cs.
Proof.
  induction l as [|x l IH]; intros H; [now exists []|].
  destruct (H x (or_introl eq_refl)) as [m ->].
  destruct IH as [cs Hcs]; [intros y Hy; apply H; now right|].
  exists (content m :: cs). simpl. now rewrite Hcs.
Qed.

Lemma contents_validated n h : exists cs, contents (last_n n (validate_history h)) = Return cs.
Proof.
  apply contents_msgs. intros x Hx. unfold last_n in Hx.
  assert (Hin : In x (validate_history h)).
  { rewrite <- (firstn_skipn (length (validate_history h) - n)). apply in_or_app. now right. }
  unfold validate_history in Hin. apply in_map_iff in Hin as (y & <- & _).
  apply validate_entry_is_msg.
Qed.

Lemma tool_pair r :
  match pydantic r with
  | Some p => (citations p, response p)
  | None => ([], raw r)
  end = (tool_citations r, tool_response r).
Proof. unfold tool_citations, tool_response. now destruct (pydantic r). Qed.

Lemma CodeChanges_run_inv query project_id user_id conversation_id node_ids w t s r s' t' :
  CodeChangesChatAgent.run query project_id user_id conversation_id node_ids w t s
  = (r, s', t') ->
  r = Return tt /\
  exists r0 pre post,
    ensure_chain w t s = (r0, s', pre)
    /\ t' = pre ++ post
    /\ after_chain s' query project_id user_id conversation_id node_ids r0 post.
Proof.
  intros H. unfold run, _classify_query in H.
  inv_all.
  all: cbn [chain set_chain llm] in *; try congruence; cleanup.
  all: normalize_trace.
  all: (split; [ try reflexivity; match goal with a : unit |- _ => now destruct a end | ]).
  all: eexists _, _, _;
    (split;
     [ first [ eapply CodeChanges_ensure_chain_Some; eassumption
             | eapply CodeChanges_ensure_chain_built; eassumption
             | eapply CodeChanges_ensure_chain_raised; eassumption ]
     | split; [ reflexivity | ] ]).
  all: repeat match goal with a : unit |- _ => destruct a end.
  all: repeat match goal with
       | H : ClassificationResult.eqb ?a _ = _ |- _ => destruct a; try discriminate H; clear H
       | H : match pydantic ?r with _ => _ end = _ |- _ =>
           rewrite tool_pair in H; injection H as <- <-
       | H : Raise _ = contents (last_n ?n (validate_history ?h)) |- _ =>
           let Hc := fresh in
           destruct (contents_validated n h) as [? Hc]; rewrite Hc in H; discriminate H
       end.
  all: try discriminate.
  all: let fin := (first [eassumption | symmetry; eassumption | reflexivity]) in
    first
    [ apply chain_failed | apply history_failed | apply classification_prompt_failed
    | apply llm_missing; fin
    | eapply classifier_failed; fin
    | eapply tool_failed; fin
    | eapply format_failed with (tool := Some _); fin
    | eapply format_failed with (tool := None); fin
    | eapply streamed with (tool := Some _) (en := Exhausted) (fl := Return tt); fin
    | eapply streamed with (tool := Some _) (en := Exhausted) (fl := Raise _); fin
    | eapply streamed with (tool := Some _) (en := Stream_raised _) (fl := Return tt); fin
    | eapply streamed with (tool := Some _) (en := Write_raised _ _) (fl := Return tt); fin
    | eapply streamed with (tool := None) (en := Exhausted) (fl := Return tt); fin
    | eapply streamed with (tool := None) (en := Exhausted) (fl := Raise _); fin
    | eapply streamed with (tool := None) (en := Stream_raised _) (fl := Return tt); fin
    | eapply streamed with (tool := None) (en := Write_raised _ _) (fl := Return tt); fin
    ].
Qed.

End CodeChangesRun.

Local Open Scope list_scope.
Local Open Scope string_scope.

(** ** Building the chain *)

Ltac in_cases :=
  repeat match goal with
  | H : In _ (_ :: _) |- _ => destruct H as [H|H]
  | H : In _ [] |- _ => destruct H
  | H : In _ (_ ++ _) |- _ => apply in_app_or in H; destruct H as [H|H]
  end.

Ltac leaf :=
  cbn [app] in *;
  repeat match goal with a : unit |- _ => destruct a end;
  repeat match goal with
         | H : Return _ = ?x |- _ => rewrite <- H in *
         | H : Raise _ = ?x |- _ => rewrite <- H in *
         end;
  repeat (first [ split | intro ]);
  in_cases;
  try discriminate;
  repeat match goal with
         | H : _ = _ |- _ => injection H; clear H; intros; subst
         end;
  try discriminate;
  try solve [ reflexivity | congruence | assumption | eauto
            | cbn; reflexivity | cbn in *; congruence
            | eexists _, _; split; reflexivity ].

Section CodeChangesChain.
Import CodeChangesChatAgent CodeChangesShape.

Lemma CodeChanges_get_llm_acquires w t s r s' t' :
  _get_llm w t s = (r, s', t') ->
  exists ra rest,
    t' = E_wait_for_acquire 30 ra :: rest
    /\ forallb (fun x => negb (is_acquire x)) rest = true.
Proof.
  intros H. unfold _get_llm in H. inv_all. all: leaf.
Qed.

Lemma CodeChanges_get_llm_cached w t s r s' t' l :
  _get_llm w t s = (r, s', t') -> _llm s = Some l ->
  forallb (fun x => negb (is_provider_call x)) t' = true
  /\ s' = s
  /\ (In (E_wait_for_acquire 30 (Return tt)) t' -> r = Return l).
Proof.
  intros H. unfold _get_llm in H. inv_all. all: leaf.
Qed.

Lemma CodeChanges_get_llm_fresh w t s r s' t' :
  _get_llm w t s = (r, s', t') -> _llm s = None ->
  In (E_wait_for_acquire 30 (Return tt)) t' ->
  length (filter is_provider_call t') = 1
  /\ forall l, In (E_get_small_llm AgentType.LANGCHAIN (Return l)) t' ->
               r = Return l /\ s' = set__llm (Some l) s.
Proof.
  intros H. unfold _get_llm in H. inv_all. all: leaf.
Qed.

Lemma CodeChanges_get_llm_Return w t s s' t' l :
  _get_llm w t s = (Return l, s', t') ->
  _llm s' = Some l /\ existsb raised t' = false.
Proof.
  intros H. unfold _get_llm in H. inv_all. all: leaf.
Qed.

Lemma CodeChanges_create_chain_effects w t s r s' t' :
  _create_chain w t s = (r, s', t') ->
  forallb chain_effect t' = true
  /\ llm s' = llm s /\ mini_llm s' = mini_llm s /\ chain s' = chain s.
Proof.
  intros H. unfold _create_chain, _get_prompts, _get_llm in H. inv_all. all: leaf.
Qed.

Lemma CodeChanges_create_chain_Return w t s c s' t' :
  _create_chain w t s = (Return c, s', t') -> existsb raised t' = false.
Proof.
  intros H. unfold _create_chain, _get_prompts, _get_llm in H. inv_all. all: leaf.
Qed.

Lemma CodeChanges_create_chain_prompts_missing w t s r s' t' aid tys ps :
  _create_chain w t s = (r, s', t') ->
  In (E_get_prompts_by_agent_id_and_types aid tys (Return ps)) t' ->
  dict_get PromptType.SYSTEM (dict_of_prompts ps) = None
  \/ dict_get PromptType.HUMAN (dict_of_prompts ps) = None ->
  r = Raise ValueError_prompts
  /\ t' = [E_get_prompts_by_agent_id_and_types "CODE_CHANGES_AGENT"
             [PromptType.SYSTEM; PromptType.HUMAN] (Return ps)].
Proof.
  intros H Hin Hmiss. unfold _create_chain, _get_prompts, _get_llm in H. inv_all.
  all: leaf.
  all: destruct Hmiss; congruence.
Qed.

Lemma CodeChanges_create_chain_timeout w t s r s' t' tm e :
  _create_chain w t s = (r, s', t') ->
  In (E_wait_for_acquire tm (Raise e)) t' -> is_TimeoutError e = true ->
  tm = 30%Z /\ r = Raise overloaded
  /\ forallb (fun x => negb (is_provider_call x)) t' = true.
Proof.
  intros H Hin He. unfold _create_chain, _get_prompts, _get_llm in H. inv_all.
  all: leaf.
Qed.

Lemma CodeChanges_create_chain_acquire_bound w t s r s' t' tm ra :
  _create_chain w t s = (r, s', t') ->
  In (E_wait_for_acquire tm ra) t' -> tm = 30%Z.
Proof.
  intros H Hin. unfold _create_chain, _get_prompts, _get_llm in H. inv_all.
  all: leaf.
Qed.
End CodeChangesChain.

Section CustomChain.
Import CustomAgent CustomAgentShape.

Lemma Custom_get_system_prompt_inv w t s r s' t' :
  _get_system_prompt w t s = (r, s', t') ->
  s' = s /\
  ((w_get_system_prompt w = None /\ r = Raise AttributeError_get_system_prompt /\ t' = [])
   \/ (exists method, w_get_system_prompt w = Some method
                      /\ r = method t /\ t' = [E_get_system_prompt r])).
Proof.
  unfold _get_system_prompt. destruct (w_get_system_prompt w) as [m|].
  - intros [= <- <- <-]. split; [reflexivity|]. right. now exists m.
  - intros [= <- <- <-]. split; [reflexivity|]. now left.
Qed.

Ltac inv_system_prompt :=
  repeat match goal with
  | H : _get_system_prompt _ _ _ = _ |- _ =>
      apply Custom_get_system_prompt_inv in H;
      let m := fresh "method" in
      destruct H as (? & [(? & ? & ?) | (m & ? & ? & ?)])
  end; cleanup.

Lemma Custom_get_llm_spec w t s r s' t' :
  CustomAgent._get_llm w t s = (r, s', t') ->
  forallb (fun x => negb (is_acquire x)) t' = true
  /\ (forall l, _llm s = Some l -> r = Return l /\ s' = s /\ t' = [])
  /\ (_llm s = None ->
      exists rp, t' = [E_get_small_llm AgentType.LANGCHAIN rp]
                 /\ match rp with
                    | Return l => r = Return l /\ s' = set__llm (Some l) s
                    | Raise e => r = Raise e /\ s' = s
                    end)
  /\ (forall l, r = Return l -> _llm s' = Some l).
Proof.
  intros H. unfold CustomAgent._get_llm in H. inv_all. all: leaf.
  all: eexists; split; [reflexivity|]; cbn; auto.
Qed.

Lemma Custom_create_chain_effects w t s r s' t' :
  _create_chain w t s = (r, s', t') ->
  forallb chain_effect t' = true /\ chain s' = chain s /\ agent_id s' = agent_id s
  /\ (forall c, r = Return c -> existsb raised t' = false).
Proof.
  intros H. unfold _create_chain, CustomAgent._get_llm in H. inv_all.
  all: inv_system_prompt.
  all: leaf.
Qed.

Lemma Custom_create_chain_no_method w t s :
  w_get_system_prompt w = None ->
  _create_chain w t s = (Raise AttributeError_get_system_prompt, s, []).
Proof.
  intros Hw. unfold _create_chain, bind, _get_system_prompt. now rewrite Hw.
Qed.
End CustomChain.

Local Open Scope string_scope.
Local Open Scope list_scope.

(** ** Reading the parts of a run's trace *)

Lemma chain_effect_setup e : chain_effect e = true -> setup_effect e = true.
Proof.
  destruct e; cbn; try congruence. destruct rec as [msg|]; [|congruence].
  intros H. apply String.eqb_eq in H. now subst.
Qed.

Lemma forallb_chain_setup t : forallb chain_effect t = true -> forallb setup_effect t = true.
Proof.
  rewrite !forallb_forall. intros H x Hx. apply chain_effect_setup. now apply H.
Qed.

Section Setup.
Variable setup : Trace.
Hypothesis Hsetup : forallb setup_effect setup = true.

Lemma setup_yields : yields setup = [].
Proof.
  induction setup as [|x l IH]; [reflexivity|]. cbn in Hsetup.
  apply andb_prop in Hsetup as [Hx Hl]. destruct x; cbn in *; try discriminate; auto.
Qed.

Lemma setup_persisted : persisted setup = [].
Proof.
  induction setup as [|x l IH]; [reflexivity|]. cbn in Hsetup.
  apply andb_prop in Hsetup as [Hx Hl]. destruct x; cbn in *; try discriminate; auto.
Qed.

Lemma setup_arrived : arrived setup = [].
Proof.
  induction setup as [|x l IH]; [reflexivity|]. cbn in Hsetup.
  apply andb_prop in Hsetup as [Hx Hl]. destruct x; cbn in *; try discriminate; auto.
Qed.

Lemma setup_completed rest : completed (setup ++ rest) = completed rest.
Proof.
  unfold completed. rewrite existsb_app.
  replace (existsb _ setup) with false; [reflexivity|].
  symmetry. induction setup as [|x l IH]; [reflexivity|]. cbn in Hsetup.
  apply andb_prop in Hsetup as [Hx Hl]. destruct x; cbn in *; try discriminate; auto.
Qed.

Lemma setup_full_response rest : full_response_of (setup ++ rest) = full_response_of rest.
Proof.
  induction setup as [|x l IH]; [reflexivity|]. cbn in Hsetup.
  apply andb_prop in Hsetup as [Hx Hl]. destruct x; cbn in *; try discriminate; auto.
  destruct rec as [msg|]; auto.
  apply negb_true_iff in Hx. cbn in Hx. rewrite Hx. auto.
Qed.
End Setup.

Section Stream.
Variables (who conv : string) (cits : option (list string)) (ev : string -> string).
Hypothesis Hev : forall m, event_message (ev m) = Some m.

Lemma event_message_error e : event_message (error_text e) = None.
Proof. reflexivity. Qed.

Lemma fragments_app l1 l2 : fragments (l1 ++ l2) = fragments l1 ++ fragments l2.
Proof. unfold fragments. apply flat_map_app. Qed.

Lemma fragments_events (l : list string) : fragments (map ev l) = l.
Proof.
  induction l as [|m l IH]; [reflexivity|].
  change (fragments (map ev (m :: l)))
    with (match event_message (ev m) with Some x => [x] | None => [] end
          ++ fragments (map ev l)).
  now rewrite Hev, IH.
Qed.

Lemma yields_chunks done :
  yields (flat_map (chunk_effects conv cits ev) done) = map ev (map chunk_text done).
Proof. induction done as [|c done IH]; [reflexivity|]. cbn. now rewrite IH. Qed.

Lemma persisted_chunks done :
  persisted (flat_map (chunk_effects conv cits ev) done) = map chunk_text done.
Proof. induction done as [|c done IH]; [reflexivity|]. cbn. now rewrite IH. Qed.

Lemma arrived_chunks done :
  arrived (flat_map (chunk_effects conv cits ev) done) = map chunk_text done.
Proof. induction done as [|c done IH]; [reflexivity|]. cbn. now rewrite IH. Qed.

Lemma completed_chunks done rest :
  completed (flat_map (chunk_effects conv cits ev) done ++ rest) = completed rest.
Proof. induction done as [|c done IH]; [reflexivity|]. cbn. exact IH. Qed.

Lemma raised_chunks done :
  existsb raised (flat_map (chunk_effects conv cits ev) done) = false.
Proof. induction done as [|c done IH]; [reflexivity|]. cbn. exact IH. Qed.

Lemma full_response_chunks done rest :
  full_response_of (flat_map (chunk_effects conv cits ev) done ++ rest) = full_response_of rest.
Proof. induction done as [|c done IH]; [reflexivity|]. cbn. exact IH. Qed.

Lemma yields_closing done en fl :
  yields (closing who conv cits done en fl) =
  match en, fl with
  | Exhausted, Return _ => []
  | Exhausted, Raise e => [error_text e]
  | Stream_raised e, _ | Write_raised _ e, _ => [error_text e]
  end.
Proof. destruct en, fl; reflexivity. Qed.

Lemma persisted_closing done en fl : persisted (closing who conv cits done en fl) = [].
Proof. destruct en, fl; reflexivity. Qed.

Lemma completed_closing done en fl :
  completed (closing who conv cits done en fl) =
  match en, fl with Exhausted, Return _ => true | _, _ => false end.
Proof. destruct en, fl; reflexivity. Qed.

Lemma substring_all s : substring 0 (String.length s) s = s.
Proof. induction s as [|c s IH]; [reflexivity|]. cbn. now rewrite IH. Qed.

Lemma full_response_log x rest :
  full_response_of (E_logger_debug (LogText ("Full LLM response: " ++ x)%string) :: rest) = Some x.
Proof.
  cbn. replace (String.prefix EmptyString x) with true by (now destruct x).
  now rewrite Nat.sub_0_r, substring_all.
Qed.

Lemma full_response_closing done fl :
  full_response_of (closing who conv cits done Exhausted fl)
  = Some (join (map chunk_text done)).
Proof.
  unfold closing. cbn [end_effects app full_response_of]. apply full_response_log.
Qed.
End Stream.

(** ** Every run has the common shape *)

Lemma run_shape_failed_app who conv cits ev pre mid e :
  forallb setup_effect pre = true -> forallb setup_effect mid = true ->
  run_shape who conv cits ev (pre ++ mid ++ failure_effects who e).
Proof.
  intros Hp Hm. rewrite app_assoc. apply shape_failed.
  rewrite forallb_app, Hp, Hm. reflexivity.
Qed.

Lemma run_shape_streamed_app who conv cits ev pre mid done en fl :
  forallb setup_effect pre = true -> existsb raised pre = false ->
  forallb setup_effect mid = true -> existsb raised mid = false ->
  run_shape who conv cits ev
    (pre ++ mid ++ flat_map (chunk_effects conv cits ev) done
         ++ closing who conv cits done en fl).
Proof.
  intros Hp Hrp Hm Hrm. rewrite app_assoc. apply shape_streamed.
  - rewrite forallb_app, Hp, Hm. reflexivity.
  - rewrite existsb_app, Hrp, Hrm. reflexivity.
Qed.

Section CodeChangesRunShape.
Import CodeChangesChatAgent CodeChangesShape.

Lemma CodeChanges_ensure_chain_spec w t s r0 s0 pre :
  ensure_chain w t s = (r0, s0, pre) ->
  forallb chain_effect pre = true
  /\ llm s0 = llm s /\ mini_llm s0 = mini_llm s
  /\ (r0 = Return tt -> existsb raised pre = false).
Proof.
  intros H. unfold ensure_chain in H. inv_all.
  all: rewrite ?app_nil_r in *; cbn [app] in *.
  all: repeat match goal with
       | H : _create_chain _ _ _ = (Return _, _, _) |- _ =>
           pose proof (CodeChanges_create_chain_Return _ _ _ _ _ _ H);
           apply CodeChanges_create_chain_effects in H; destruct H as (? & ? & ? & ?)
       | H : _create_chain _ _ _ = (Raise _, _, _) |- _ =>
           apply CodeChanges_create_chain_effects in H; destruct H as (? & ? & ? & ?)
       end.
  all: cbn [llm mini_llm set_chain]; repeat split; auto; try discriminate.
Qed.

Lemma CodeChanges_after_chain_shape s query project_id user_id conversation_id node_ids
    r0 pre post :
  forallb chain_effect pre = true ->
  (r0 = Return tt -> existsb raised pre = false) ->
  after_chain s query project_id user_id conversation_id node_ids r0 post ->
  exists tool formatted,
    run_shape who conversation_id (chunk_citations tool formatted)
      (event (event_citations_of tool formatted)) (pre ++ post).
Proof.
  intros Hpre Hraised Hpost. apply forallb_chain_setup in Hpre.
  destruct Hpost.
  1-7: exists None, [].
  - rewrite <- (app_nil_l (failure_effects who e)). now apply run_shape_failed_app.
  - now apply (run_shape_failed_app _ _ _ _ pre [_]).
  - now apply (run_shape_failed_app _ _ _ _ pre [_; _]).
  - now apply (run_shape_failed_app _ _ _ _ pre [_; _]).
  - now apply (run_shape_failed_app _ _ _ _ pre [_; _; _]).
  - now apply (run_shape_failed_app _ _ _ _ pre [_; _; _; _]).
  - destruct tool.
    + now apply (run_shape_failed_app _ _ _ _ pre [_; _; _; _; _; _]).
    + now apply (run_shape_failed_app _ _ _ _ pre [_; _; _; _; _]).
  - exists tool, formatted. destruct tool.
    + apply (run_shape_streamed_app _ _ _ _ pre [_; _; _; _; _; _; _]); auto.
    + apply (run_shape_streamed_app _ _ _ _ pre [_; _; _; _; _; _]); auto.
Qed.

Lemma CodeChanges_run_shape query project_id user_id conversation_id node_ids w t s :
  fst (fst (run query project_id user_id conversation_id node_ids w t s)) = Return tt
  /\ exists tool formatted,
       run_shape who conversation_id (chunk_citations tool formatted)
         (event (event_citations_of tool formatted))
         (snd (run query project_id user_id conversation_id node_ids w t s)).
Proof.
  destruct (run query project_id user_id conversation_id node_ids w t s) as [[r s'] t'] eqn:H.
  apply CodeChanges_run_inv in H as (-> & r0 & pre & post & He & -> & Hpost).
  split; [reflexivity|]. cbn [snd].
  apply CodeChanges_ensure_chain_spec in He as (Hpre & _ & _ & Hr).
  eapply CodeChanges_after_chain_shape; eauto.
Qed.
End CodeChangesRunShape.

Section CustomRunShape.
Import CustomAgent CustomAgentShape.

Lemma Custom_ensure_chain_spec w t s r0 s0 pre :
  ensure_chain w t s = (r0, s0, pre) ->
  forallb chain_effect pre = true
  /\ agent_id s0 = agent_id s
  /\ (r0 = Return tt -> existsb raised pre = false).
Proof.
  intros H. unfold ensure_chain in H. inv_all.
  all: rewrite ?app_nil_r in *; cbn [app] in *.
  all: repeat match goal with
       | H : _create_chain _ _ _ = _ |- _ =>
           apply Custom_create_chain_effects in H; destruct H as (? & ? & ? & ?)
       end.
  all: cbn [agent_id set_chain]; repeat split; eauto; try discriminate.
Qed.

Lemma Custom_after_chain_shape s query user_id conversation_id node_ids r0 pre post :
  forallb chain_effect pre = true ->
  (r0 = Return tt -> existsb raised pre = false) ->
  after_chain s query user_id conversation_id node_ids r0 post ->
  run_shape who conversation_id None event (pre ++ post).
Proof.
  intros Hpre Hraised Hpost. apply forallb_chain_setup in Hpre.
  destruct Hpost.
  - rewrite <- (app_nil_l (failure_effects who e)). now apply run_shape_failed_app.
  - now apply (run_shape_failed_app _ _ _ _ pre [_]).
  - now apply (run_shape_failed_app _ _ _ _ pre [_; _]).
  - apply (run_shape_streamed_app _ _ _ _ pre [_; _; _; _]); auto.
Qed.

Lemma Custom_run_shape query project_id user_id conversation_id node_ids w t s :
  fst (fst (run query project_id user_id conversation_id node_ids w t s)) = Return tt
  /\ run_shape who conversation_id None event
       (snd (run query project_id user_id conversation_id node_ids w t s)).
Proof.
  destruct (run query project_id user_id conversation_id node_ids w t s) as [[r s'] t'] eqn:H.
  apply Custom_run_inv in H as (-> & r0 & pre & post & He & -> & Hpost).
  split; [reflexivity|]. cbn [snd].
  apply Custom_ensure_chain_spec in He as (Hpre & _ & Hr).
  eapply Custom_after_chain_shape; eauto.
Qed.
End CustomRunShape.


(** ** Consequences of the common shape *)

Lemma run_trace_shape a c w t :
  run_result a c w t = Return tt /\
  exists who cits ev,
    (forall m, event_message (ev m) = Some m)
    /\ run_shape who (call_conversation_id c) cits ev (run_trace a c w t).
Proof.
  destruct a as [s|s]; cbn [run_result run_trace].
  - destruct (CodeChanges_run_shape (call_query c) (call_project_id c) (call_user_id c)
                (call_conversation_id c) (call_node_ids c) w t s) as (Hr & tool & f & Hs).
    split; [exact Hr|]. eexists _, _, _. split; [|exact Hs].
    intros m. apply event_message_CodeChanges.
  - destruct (Custom_run_shape (call_query c) (call_project_id c) (call_user_id c)
                (call_conversation_id c) (call_node_ids c) w t s) as (Hr & Hs).
    split; [exact Hr|]. eexists _, _, _. split; [|exact Hs].
    intros m. apply event_message_Custom.
Qed.

Lemma yielded_app t1 t2 : yielded (t1 ++ t2) = yielded t1 ++ yielded t2.
Proof. unfold yielded. now rewrite yields_app, fragments_app. Qed.

Section Shape.
Variables (who conv : string) (cits : option (list string)) (ev : string -> string).
Hypothesis Hev : forall m, event_message (ev m) = Some m.
Variable tr : Trace.
Hypothesis Hshape : run_shape who conv cits ev tr.

Lemma is_event_ev m : is_event (ev m) = true.
Proof. unfold is_event. now rewrite Hev. Qed.


Lemma shape_completed :
  completed tr = true ->
  exists setup done,
    tr = setup ++ flat_map (chunk_effects conv cits ev) done
               ++ closing who conv cits done Exhausted (Return tt)
    /\ forallb setup_effect setup = true /\ existsb raised setup = false.
Proof.
  destruct Hshape as [setup e Hs | setup done en fl Hs Hr].
  - rewrite (setup_completed _ Hs). discriminate.
  - rewrite (setup_completed _ Hs), completed_chunks, completed_closing.
    destruct en; try discriminate. destruct fl as [[]|]; try discriminate.
    intros _. now exists setup, done.
Qed.



Lemma shape_full_response :
  completed tr = true ->
  full_response_of tr = Some (join (yielded tr))
  /\ persisted tr = yielded tr
  /\ arrived tr = yielded tr.
Proof.
  intros Hc. destruct (shape_completed Hc) as (setup & done & -> & Hs & Hr).
  unfold yielded.
  rewrite !yields_app, !persisted_app, !arrived_app.
  rewrite (setup_yields _ Hs), (setup_persisted _ Hs), (setup_arrived _ Hs).
  rewrite yields_chunks, persisted_chunks, arrived_chunks.
  rewrite (setup_full_response _ Hs), full_response_chunks, full_response_closing.
  cbn [app yields persisted arrived closing end_effects].
  rewrite !app_nil_r, (fragments_events _ Hev). auto.
Qed.
End Shape.

(** ** Order of arrival, persistence and emission *)

Lemma is_prefix_refl {A} (l : list A) : is_prefix l l.
Proof. exists []. now rewrite app_nil_r. Qed.

Lemma is_prefix_nil {A} (l : list A) : is_prefix [] l.
Proof. now exists l. Qed.

Lemma is_prefix_cons {A} (x : A) l1 l2 : is_prefix l1 l2 -> is_prefix (x :: l1) (x :: l2).
Proof. intros [extra ->]. now exists extra. Qed.

Lemma ordered_cons_neutral x l :
  yielded [x] = [] -> persisted [x] = [] -> arrived [x] = [] ->
  ordered l -> ordered (x :: l).
Proof.
  intros Hy Hp Ha Hl [|k]; cbn [firstn].
  - split; apply is_prefix_nil.
  - change (x :: firstn k l) with ([x] ++ firstn k l).
    rewrite yielded_app, persisted_app, arrived_app, Hy, Hp, Ha. apply Hl.
Qed.

Lemma ordered_setup setup l :
  forallb setup_effect setup = true -> ordered l -> ordered (setup ++ l).
Proof.
  induction setup as [|x setup IH]; intros Hs Hl; [exact Hl|].
  cbn in Hs. apply andb_prop in Hs as [Hx Hs]. cbn [app].
  apply ordered_cons_neutral; [ | | | now apply IH].
  - destruct x; cbn in *; try discriminate; reflexivity.
  - destruct x; cbn in *; try discriminate; reflexivity.
  - destruct x; cbn in *; try discriminate; reflexivity.
Qed.

Lemma ordered_quiet l :
  (forall k, yielded (firstn k l) = [] /\ persisted (firstn k l) = []) -> ordered l.
Proof.
  intros H k. destruct (H k) as [-> ->]. split; apply is_prefix_nil.
Qed.

Section Chunks.
Variables (who conv : string) (cits : option (list string)) (ev : string -> string).
Hypothesis Hev : forall m, event_message (ev m) = Some m.

Lemma ordered_chunk c l :
  ordered l -> ordered (chunk_effects conv cits ev c ++ l).
Proof.
  intros Hl k. unfold chunk_effects. cbn [app].
  destruct k as [|[|[|k]]]; cbn [firstn].
  - split; apply is_prefix_nil.
  - split; [apply is_prefix_nil | apply is_prefix_nil].
  - split; [apply is_prefix_nil | apply is_prefix_refl].
  - match goal with |- context [?a :: ?b :: ?c :: firstn k l] =>
      change (a :: b :: c :: firstn k l) with ([a; b; c] ++ firstn k l) end.
    rewrite yielded_app, persisted_app, arrived_app.
    unfold yielded at 1. cbn [yields persisted arrived app fragments flat_map].
    rewrite Hev. cbn [app].
    destruct (Hl k). split; now apply is_prefix_cons.
Qed.

Lemma ordered_chunks done l :
  ordered l -> ordered (flat_map (chunk_effects conv cits ev) done ++ l).
Proof.
  intros Hl. induction done as [|c done IH]; [exact Hl|].
  cbn [flat_map]. rewrite <- app_assoc. now apply ordered_chunk.
Qed.

Lemma ordered_closing done en fl : ordered (closing who conv cits done en fl).
Proof.
  apply ordered_quiet. intros k.
  destruct en as [|e|c e]; [destruct fl as [[]|e]| |];
    do 7 (try destruct k as [|k]); split; reflexivity.
Qed.

Lemma ordered_failure e : ordered (failure_effects who e).
Proof.
  apply ordered_quiet. intros k. do 3 (try destruct k as [|k]); split; reflexivity.
Qed.

Lemma shape_ordered tr : run_shape who conv cits ev tr -> ordered tr.
Proof.
  intros [setup e Hs | setup done en fl Hs Hr].
  - apply ordered_setup; [exact Hs | apply ordered_failure].
  - apply ordered_setup; [exact Hs|]. apply ordered_chunks, ordered_closing.
Qed.
End Chunks.


(** ** The events of a trace *)

Lemma events_app t1 t2 : events (t1 ++ t2) = events t1 ++ events t2.
Proof. unfold events. now rewrite yields_app, filter_app. Qed.

Lemma events_setup setup : forallb setup_effect setup = true -> events setup = [].
Proof. intros H. unfold events. now rewrite (setup_yields _ H). Qed.

Lemma events_failure who e : events (failure_effects who e) = [].
Proof. reflexivity. Qed.

Section Events.
Variables (who conv : string) (cits : option (list string)) (ev : string -> string).
Hypothesis Hev : forall m, event_message (ev m) = Some m.

Lemma events_chunks done :
  events (flat_map (chunk_effects conv cits ev) done) = map ev (map chunk_text done).
Proof.
  unfold events. rewrite yields_chunks.
  induction (map chunk_text done) as [|m l IH]; [reflexivity|].
  cbn [map filter]. rewrite (is_event_ev _ Hev), IH. reflexivity.
Qed.

Lemma events_closing done en fl : events (closing who conv cits done en fl) = [].
Proof. destruct en, fl; reflexivity. Qed.

Lemma loop_effects_chunks done :
  forallb loop_effect (flat_map (chunk_effects conv cits ev) done) = true.
Proof. induction done as [|c done IH]; [reflexivity|]. exact IH. Qed.

Lemma loop_effects_closing done en fl :
  forallb loop_effect (closing who conv cits done en fl) = true.
Proof. destruct en, fl; reflexivity. Qed.

Lemma loop_effects_stream done en fl :
  forallb loop_effect
    (flat_map (chunk_effects conv cits ev) done ++ closing who conv cits done en fl) = true.
Proof. now rewrite forallb_app, loop_effects_chunks, loop_effects_closing. Qed.

Lemma events_stream done en fl :
  events (flat_map (chunk_effects conv cits ev) done ++ closing who conv cits done en fl)
  = map ev (map chunk_text done).
Proof. now rewrite events_app, events_chunks, events_closing, app_nil_r. Qed.

Lemma shape_events tr :
  run_shape who conv cits ev tr -> exists l, events tr = map ev l.
Proof.
  intros [setup e Hs | setup done en fl Hs Hr].
  - exists []. now rewrite events_app, (events_setup _ Hs).
  - exists (map chunk_text done). now rewrite events_app, (events_setup _ Hs), events_stream.
Qed.
End Events.

Lemma In_forallb {A} (f : A -> bool) l x : forallb f l = true -> In x l -> f x = true.
Proof. intros H Hx. rewrite forallb_forall in H. now apply H. Qed.

(** ** The first statement of [run], inverted *)

Section CodeChangesEnsure.
Import CodeChangesChatAgent CodeChangesShape.

Lemma CodeChanges_ensure_chain_inv w t s r0 s0 pre :
  ensure_chain w t s = (r0, s0, pre) ->
  (exists c, chain s = Some c /\ r0 = Return tt /\ s0 = s /\ pre = [])
  \/ (chain s = None /\
      exists rc sc, _create_chain w t s = (rc, sc, pre)
                    /\ match rc with
                       | Return c => r0 = Return tt /\ s0 = set_chain (Some c) sc
                       | Raise e => r0 = Raise e /\ s0 = sc
                       end).
Proof.
  intros H. destruct (chain s) as [c|] eqn:Hc.
  - rewrite (CodeChanges_ensure_chain_Some _ _ _ _ Hc) in H. injection H as <- <- <-.
    left. now exists c.
  - right. split; [reflexivity|].
    destruct (_create_chain w t s) as [[[c|e] sc] pre'] eqn:Hcc.
    + rewrite (CodeChanges_ensure_chain_built _ _ _ _ _ _ Hc Hcc) in H.
      injection H as <- <- <-. now exists (Return c), sc.
    + rewrite (CodeChanges_ensure_chain_raised _ _ _ _ _ _ Hc Hcc) in H.
      injection H as <- <- <-. now exists (Raise e), sc.
Qed.

Lemma CodeChanges_after_chain_effects s query project_id user_id conversation_id node_ids
    r0 post :
  after_chain s query project_id user_id conversation_id node_ids r0 post ->
  forallb (fun x => negb (chain_call x)) post = true.
Proof.
  intros []; try reflexivity.
  - destruct tool; reflexivity.
  - destruct tool; cbn [classify_effects kickoff_effects app forallb chain_call negb andb].
    all: rewrite forallb_forall; intros x Hx.
    all: pose proof (In_forallb _ _ _ (loop_effects_stream _ _ _ _ _ _ _) Hx) as Hl.
    all: destruct x; try discriminate; reflexivity.
Qed.
End CodeChangesEnsure.


(* ================================================================= *)
(** * The claims *)

(** ** History validation *)

Lemma validate_entry_message m : validate_entry (Msg m) = Msg m.
Proof. reflexivity. Qed.

Lemma validate_entry_primitive e s :
  primitive_str e = Some s -> validate_entry e = Msg (HumanMessage s).
Proof. unfold validate_entry. now intros ->. Qed.



Example validate_history_sample :
  validate_history [Prim_str "hi"; Prim_int (-42); Msg (AIMessage "hello"); Prim_bool true]
  = [Msg (HumanMessage "hi"); Msg (HumanMessage "-42"); Msg (AIMessage "hello");
     Msg (HumanMessage "True")].
Proof. reflexivity. Qed.

(** ** The model-client getter *)

Section GetLLM.
Import CodeChangesChatAgent.

(** C4, as the claim states it, fails: a second call on an instance whose
    handle is cached acquires the rate limiter again. *)
Lemma cached_get_llm_acquires_again :
  exists l s1 t1,
    _get_llm sample_world [] fresh_code_changes_agent = (Return l, s1, t1)
    /\ _llm s1 = Some l
    /\ fst (fst (_get_llm sample_world t1 s1)) = Return l
    /\ existsb is_acquire (snd (_get_llm sample_world t1 s1)) = true.
Proof. eexists _, _, _. split; [reflexivity|]. repeat split. Qed.

(** C4, amended.  Every call of the getter of [CodeChangesChatAgent] begins
    by acquiring the rate limiter, with timeout 30, and acquires it once;
    the provider is called only when no handle is cached; with a handle
    cached, a call that gets the limiter returns that handle and leaves the
    instance as it was; a call that returns leaves its handle cached.  The
    getter of [CustomAgent] never acquires a limiter: with a handle cached
    it returns it with no effect, and otherwise it calls the provider once. *)
Theorem get_llm_acquires_on_every_call (w : World) (t : Trace) :
  (forall s,
      let '(r, s', t') := _get_llm w t s in
      (exists ra rest, t' = E_wait_for_acquire 30 ra :: rest
                       /\ forallb (fun x => negb (is_acquire x)) rest = true)
      /\ (forall l, _llm s = Some l ->
            forallb (fun x => negb (is_provider_call x)) t' = true
            /\ s' = s
            /\ (In (E_wait_for_acquire 30 (Return tt)) t' -> r = Return l))
      /\ (_llm s = None -> In (E_wait_for_acquire 30 (Return tt)) t' ->
            length (filter is_provider_call t') = 1)
      /\ (forall l, r = Return l -> _llm s' = Some l))
  /\ (forall s,
      let '(r, s', t') := CustomAgent._get_llm w t s in
      forallb (fun x => negb (is_acquire x)) t' = true
      /\ (forall l, CustomAgent._llm s = Some l -> r = Return l /\ s' = s /\ t' = [])
      /\ (CustomAgent._llm s = None ->
            exists rp, t' = [E_get_small_llm AgentType.LANGCHAIN rp])
      /\ (forall l, r = Return l -> CustomAgent._llm s' = Some l)).
Proof.
  split; intros s.
  - destruct (_get_llm w t s) as [[r s'] t'] eqn:H.
    split; [eapply CodeChanges_get_llm_acquires; eassumption|].
    split; [intros l Hl; eapply CodeChanges_get_llm_cached; eassumption|].
    split; [intros Hn Hin; eapply CodeChanges_get_llm_fresh; eassumption|].
    intros l ->. eapply CodeChanges_get_llm_Return; eassumption.
  - destruct (CustomAgent._get_llm w t s) as [[r s'] t'] eqn:H.
    apply Custom_get_llm_spec in H as (H1 & H2 & H3 & H4).
    split; [exact H1|]. split; [exact H2|]. split; [|exact H4].
    intros Hn. destruct (H3 Hn) as (rp & -> & _). now exists rp.
Qed.
End GetLLM.

(** ** Prompts *)

Lemma PromptType_eqb_eq a b : PromptType.eqb a b = true <-> a = b.
Proof. destruct a, b; cbn; split; congruence. Qed.

Lemma dict_get_set_other k k' v d :
  k <> k' -> dict_get k (dict_set k' v d) = dict_get k d.
Proof.
  intros Hk. induction d as [|[k0 v0] d IH]; unfold dict_get in *; cbn.
  - destruct (PromptType.eqb k k') eqn:E; [apply PromptType_eqb_eq in E; congruence | reflexivity].
  - destruct (PromptType.eqb k' k0) eqn:E0; cbn.
    + apply PromptType_eqb_eq in E0 as <-.
      destruct (PromptType.eqb k k') eqn:E; [apply PromptType_eqb_eq in E; congruence | reflexivity].
    + destruct (PromptType.eqb k k0); [reflexivity | exact IH].
Qed.

Lemma dict_get_absent k ps :
  (forall p, In p ps -> type p <> k) -> dict_get k (dict_of_prompts ps) = None.
Proof.
  unfold dict_of_prompts. intros H.
  assert (G : forall d, dict_get k d = None ->
                        dict_get k (fold_left (fun d p => dict_set (type p) p d) ps d) = None).
  { induction ps as [|p ps IH]; intros d Hd; [exact Hd|].
    cbn [fold_left]. apply IH.
    - intros q Hq. apply H. now right.
    - rewrite dict_get_set_other; [exact Hd|]. intros ->. now apply (H p (or_introl eq_refl)). }
  now apply G.
Qed.

Section CodeChangesClaims.
Import CodeChangesChatAgent CodeChangesShape.

(** The trace of a run, split at the end of its first statement. *)
Lemma CodeChanges_run_trace_inv s c w t :
  exists r0 s' pre post,
    ensure_chain w t s = (r0, s', pre)
    /\ run_trace (CodeChanges s) c w t = pre ++ post
    /\ after_chain s' (call_query c) (call_project_id c) (call_user_id c)
         (call_conversation_id c) (call_node_ids c) r0 post.
Proof.
  cbn [run_trace].
  destruct (run (call_query c) (call_project_id c) (call_user_id c)
              (call_conversation_id c) (call_node_ids c) w t s) as [[r s'] t'] eqn:H.
  apply CodeChanges_run_inv in H as (-> & r0 & pre & post & He & -> & Hpost).
  now exists r0, s', pre, post.
Qed.

(** C6.  When the prompt service answers without a HUMAN prompt, or
    without a SYSTEM prompt, building the chain raises the [ValueError]
    "Required prompts not found for CODE_CHANGES_AGENT", the run yields
    exactly one item, the error text of that exception, and it makes no
    call to the history manager: no read, no incremental write, no flush. *)
Theorem missing_prompt_fails_the_run s c w t agent_id types prompts :
  In (E_get_prompts_by_agent_id_and_types agent_id types (Return prompts))
     (run_trace (CodeChanges s) c w t) ->
  (forall p, In p prompts -> type p <> PromptType.HUMAN)
  \/ (forall p, In p prompts -> type p <> PromptType.SYSTEM) ->
  (exists s0 pre, _create_chain w t s = (Raise ValueError_prompts, s0, pre))
  /\ yields (run_trace (CodeChanges s) c w t) = [error_text ValueError_prompts]
  /\ forallb (fun x => negb (is_history_write x)) (run_trace (CodeChanges s) c w t) = true
  /\ run_trace (CodeChanges s) c w t
     = [ E_get_prompts_by_agent_id_and_types "CODE_CHANGES_AGENT"
           [PromptType.SYSTEM; PromptType.HUMAN] (Return prompts);
         E_logger_error (who ++ exc_str ValueError_prompts)%string;
         E_yield (error_text ValueError_prompts) ].
Proof.
  intros Hin Hmiss.
  destruct (CodeChanges_run_trace_inv s c w t) as (r0 & s' & pre & post & He & Htr & Hpost).
  rewrite Htr in *. clear Htr.
  assert (Hd : dict_get PromptType.SYSTEM (dict_of_prompts prompts) = None
               \/ dict_get PromptType.HUMAN (dict_of_prompts prompts) = None).
  { destruct Hmiss as [H|H]; [right|left]; now apply dict_get_absent. }
  apply in_app_or in Hin as [Hin|Hin].
  - apply CodeChanges_ensure_chain_inv in He
      as [(c0 & _ & _ & _ & ->) | (Hc & rc & sc & Hcc & Hrc)]; [destruct Hin|].
    destruct (CodeChanges_create_chain_prompts_missing _ _ _ _ _ _ _ _ _ Hcc Hin Hd)
      as (-> & ->).
    destruct Hrc as (-> & ->). inversion Hpost; subst.
    split; [eauto|]. repeat split.
  - apply CodeChanges_after_chain_effects in Hpost.
    pose proof (In_forallb _ _ _ Hpost Hin) as Hx. discriminate Hx.
Qed.

(** C7.  The rate limiter is awaited with timeout 30; when the wait times
    out, the run yields exactly one item, the error text of the exception
    "Service is currently overloaded. Please try again later.", and the run
    makes no call to the provider. *)
Theorem limiter_timeout_fails_the_run s c w t timeout e :
  In (E_wait_for_acquire timeout (Raise e)) (run_trace (CodeChanges s) c w t) ->
  is_TimeoutError e = true ->
  timeout = 30%Z
  /\ yields (run_trace (CodeChanges s) c w t) = [error_text overloaded]
  /\ contains "overloaded" (error_text overloaded) = true
  /\ forallb (fun x => negb (is_provider_call x)) (run_trace (CodeChanges s) c w t) = true.
Proof.
  intros Hin He.
  destruct (CodeChanges_run_trace_inv s c w t) as (r0 & s' & pre & post & Hens & Htr & Hpost).
  rewrite Htr in *. clear Htr.
  apply in_app_or in Hin as [Hin|Hin].
  - apply CodeChanges_ensure_chain_inv in Hens
      as [(c0 & _ & _ & _ & ->) | (Hc & rc & sc & Hcc & Hrc)]; [destruct Hin|].
    destruct (CodeChanges_create_chain_timeout _ _ _ _ _ _ _ _ Hcc Hin He)
      as (-> & -> & Hp).
    destruct Hrc as (-> & ->). inversion Hpost; subst.
    split; [reflexivity|]. split.
    + rewrite yields_app.
      apply CodeChanges_create_chain_effects in Hcc as (Hce & _).
      now rewrite (setup_yields _ (forallb_chain_setup _ Hce)).
    + split; [reflexivity|]. rewrite forallb_app, Hp. reflexivity.
  - apply CodeChanges_after_chain_effects in Hpost.
    pose proof (In_forallb _ _ _ Hpost Hin) as Hx. discriminate Hx.
Qed.

(** Every wait for the rate limiter in a run has timeout 30. *)
Lemma limiter_timeout_is_30 s c w t timeout r :
  In (E_wait_for_acquire timeout r) (run_trace (CodeChanges s) c w t) -> timeout = 30%Z.
Proof.
  intros Hin.
  destruct (CodeChanges_run_trace_inv s c w t) as (r0 & s' & pre & post & Hens & Htr & Hpost).
  rewrite Htr in *. clear Htr.
  apply in_app_or in Hin as [Hin|Hin].
  - apply CodeChanges_ensure_chain_inv in Hens
      as [(c0 & _ & _ & _ & ->) | (Hc & rc & sc & Hcc & Hrc)]; [destruct Hin|].
    eapply CodeChanges_create_chain_acquire_bound; eassumption.
  - apply CodeChanges_after_chain_effects in Hpost.
    pose proof (In_forallb _ _ _ Hpost Hin) as Hx. discriminate Hx.
Qed.
End CodeChangesClaims.

(** ** The attribute [llm] of [CodeChangesChatAgent] *)

Section MissingAttribute.
Import CodeChangesChatAgent CodeChangesShape.

Lemma chain_effect_facts x :
  chain_effect x = true ->
  negb (is_history_write x || is_stream_effect x) = true
  /\ negb (is_classifier_call x) = true
  /\ (forall agent_type r, x <> E_get_classification_prompt agent_type r).
Proof. destruct x; cbn; intros H; try discriminate; repeat split; congruence. Qed.

Lemma chain_effects_facts pre :
  forallb chain_effect pre = true ->
  yields pre = []
  /\ forallb (fun x => negb (is_history_write x || is_stream_effect x)) pre = true
  /\ forallb (fun x => negb (is_classifier_call x)) pre = true
  /\ (forall agent_type r, ~ In (E_get_classification_prompt agent_type r) pre).
Proof.
  intros H. split; [apply setup_yields, forallb_chain_setup, H|].
  rewrite forallb_forall in H. repeat split.
  - apply forallb_forall. intros x Hx. now apply chain_effect_facts, H.
  - apply forallb_forall. intros x Hx. now apply chain_effect_facts, H.
  - intros agent_type r Hin. apply H in Hin. discriminate Hin.
Qed.

Lemma run_without_llm query project_id user_id conversation_id node_ids w t s r s' tr :
  llm s = None ->
  run query project_id user_id conversation_id node_ids w t s = (r, s', tr) ->
  llm s' = None /\ fails_at_classification tr.
Proof.
  intros Hl H.
  apply CodeChanges_run_inv in H as (-> & r0 & pre & post & He & -> & Hpost).
  apply CodeChanges_ensure_chain_spec in He as (Hpre & Hl' & _ & _).
  rewrite Hl in Hl'. split; [exact Hl'|].
  apply chain_effects_facts in Hpre as (Hy & Hw & Hc & Hp).
  unfold fails_at_classification.
  rewrite yields_app, !forallb_app, Hy, Hw, Hc. cbn [app andb].
  inversion Hpost; subst; try congruence.
  all: cbn [yields forallb failure_effects app].
  all: split; [eexists; reflexivity|]; split; [reflexivity|]; split; [reflexivity|].
  all: intros agent_type r Hin; apply in_app_or in Hin as [Hin|Hin];
       [now apply Hp in Hin|].
  all: cbn in Hin; intuition (try discriminate).
  all: match goal with H : _ = _ |- _ => injection H as <- <- end; reflexivity.
Qed.

Lemma session_without_llm calls : forall w t s tr,
  llm s = None -> In tr (CodeChanges_session calls w t s) -> fails_at_classification tr.
Proof.
  induction calls as [|c calls IH]; intros w t s tr Hl Hin; [destruct Hin|].
  cbn [CodeChanges_session] in Hin.
  destruct (run (call_query c) (call_project_id c) (call_user_id c)
              (call_conversation_id c) (call_node_ids c) w t s) as [[r s'] t'] eqn:H.
  apply (run_without_llm _ _ _ _ _ _ _ _ _ _ _ Hl) in H as (Hl' & Hf).
  destruct Hin as [<-|Hin]; [exact Hf|]. eapply IH; eassumption.
Qed.

(** C5.  The constructor leaves the instance without an attribute [llm],
    and no method sets it; so in every run of an instance that only its
    constructor and its own methods have touched, the classifier is never
    invoked: the run yields exactly one item, an error text, receives no
    chunk and makes no incremental write and no flush; and when the run
    got as far as the classification prompt, the error is the
    [AttributeError] on [llm] (or the one the prompt lookup raised). *)
Theorem run_fails_at_classification mini_llm_arg llm_arg calls w tr :
  In tr (CodeChanges_session calls w [] (__init__ mini_llm_arg llm_arg)) ->
  (exists e, yields tr = [error_text e])
  /\ forallb (fun x => negb (is_history_write x || is_stream_effect x)) tr = true
  /\ forallb (fun x => negb (is_classifier_call x)) tr = true
  /\ (forall agent_type r, In (E_get_classification_prompt agent_type r) tr ->
        yields tr = [error_text match r with
                                | Return _ => AttributeError_llm
                                | Raise e => e
                                end]).
Proof. intros Hin. eapply session_without_llm; [|exact Hin]. reflexivity. Qed.
End MissingAttribute.

(** ** Citations *)

Section Citations.
Import CodeChangesChatAgent CodeChangesShape.




End Citations.

(** ** [CustomAgent]: no classification *)

Section CustomClaims.
Import CustomAgent CustomAgentShape.

Lemma Custom_run_trace_inv s c w t :
  exists r0 s' pre post,
    ensure_chain w t s = (r0, s', pre)
    /\ run_trace (Custom s) c w t = pre ++ post
    /\ after_chain s' (call_query c) (call_user_id c) (call_conversation_id c)
         (call_node_ids c) r0 post.
Proof.
  cbn [run_trace].
  destruct (run (call_query c) (call_project_id c) (call_user_id c)
              (call_conversation_id c) (call_node_ids c) w t s) as [[r s'] t'] eqn:H.
  apply Custom_run_inv in H as (-> & r0 & pre & post & He & -> & Hpost).
  now exists r0, s', pre, post.
Qed.


End CustomClaims.

(** ** Both agents *)

Section BothAgents.
Variables (a : Agent) (c : Call) (w : World) (t : Trace).

(** C1.  In a run that completes, the accumulated full response is the
    concatenation, in order, of the messages of the events the run
    yielded; these are also, in the same order, the fragments handed to
    [add_message_chunk] and the chunks the stream delivered. *)
Theorem full_response_is_concatenation :
  completed (run_trace a c w t) = true ->
  full_response_of (run_trace a c w t) = Some (join (yielded (run_trace a c w t)))
  /\ persisted (run_trace a c w t) = yielded (run_trace a c w t)
  /\ arrived (run_trace a c w t) = yielded (run_trace a c w t).
Proof.
  destruct (run_trace_shape a c w t) as (_ & who & cits & ev & Hev & Hshape).
  now apply (shape_full_response who (call_conversation_id c) cits ev).
Qed.


(** [run] returns in every case. *)
Lemma run_never_raises : run_result a c w t = Return tt.
Proof. apply run_trace_shape. Qed.

(** C9.  At every point of a run, the messages of the events yielded so
    far are a prefix of the fragments persisted so far by
    [add_message_chunk], which are a prefix of the chunks received so far:
    events come in arrival order, and none is yielded before its fragment
    is persisted. *)
Theorem write_before_yield (k : nat) :
  is_prefix (yielded (firstn k (run_trace a c w t)))
            (persisted (firstn k (run_trace a c w t)))
  /\ is_prefix (persisted (firstn k (run_trace a c w t)))
               (arrived (firstn k (run_trace a c w t))).
Proof.
  destruct (run_trace_shape a c w t) as (_ & who & cits & ev & Hev & Hshape).
  now apply (shape_ordered who (call_conversation_id c) cits ev Hev).
Qed.
End BothAgents.

(** ** The claims on sample runs *)

Example custom_sample_yields :
  yields custom_sample_trace = [CustomAgent.event "Hel"; CustomAgent.event "lo"]
  /\ full_response_of custom_sample_trace = Some "Hello".
Proof. split; reflexivity. Qed.

Example code_changes_sample_yields :
  yields code_changes_sample_trace
  = [CodeChangesChatAgent.event ["fileA.py:10"] "Hel";
     CodeChangesChatAgent.event ["fileA.py:10"] "lo"]
  /\ map event_citations (yields code_changes_sample_trace)
     = [Some ["fileA.py:10"]; Some ["fileA.py:10"]].
Proof. split; reflexivity. Qed.

Lemma full_response_is_concatenation_witness :
  (completed custom_sample_trace = true
   /\ full_response_of custom_sample_trace = Some (join (yielded custom_sample_trace))
   /\ persisted custom_sample_trace = yielded custom_sample_trace
   /\ arrived custom_sample_trace = yielded custom_sample_trace)
  /\ (completed code_changes_sample_trace = true
      /\ full_response_of code_changes_sample_trace
         = Some (join (yielded code_changes_sample_trace))
      /\ persisted code_changes_sample_trace = yielded code_changes_sample_trace
      /\ arrived code_changes_sample_trace = yielded code_changes_sample_trace).
Proof.
  split; (split; [reflexivity|]).
  - apply (full_response_is_concatenation (Custom fresh_custom_agent) sample_call
             sample_world []). reflexivity.
  - apply (full_response_is_concatenation (CodeChanges patched_code_changes_agent)
             sample_call sample_world []). reflexivity.
Defined.


Example custom_sample_invokes_agent :
  In (E_run_agent "agent-1" (call_query sample_call) (call_conversation_id sample_call)
        (call_user_id sample_call) (call_node_ids sample_call)
        (Return (JObj [("ok", JBool true)])))
     custom_sample_trace
  /\ forallb (fun x => negb (is_classification x)) custom_sample_trace = true
  /\ map event_citations (yields custom_sample_trace) = [Some []; Some []].
Proof. split; [do 3 right; left; reflexivity | split; reflexivity]. Qed.

Example failing_write_yields :
  yields failing_write_trace
  = [CustomAgent.event "Hel"; "An error occurred: database is locked"].
Proof. reflexivity. Qed.


Example fresh_session_yields :
  map yields fresh_session
  = [ ["An error occurred: 'CodeChangesChatAgent' object has no attribute 'llm'"];
      ["An error occurred: 'CodeChangesChatAgent' object has no attribute 'llm'"] ].
Proof. reflexivity. Qed.

Lemma run_fails_at_classification_witness :
  In (nth 1 fresh_session []) fresh_session
  /\ (exists e, yields (nth 1 fresh_session []) = [error_text e])
  /\ forallb (fun x => negb (is_history_write x || is_stream_effect x))
       (nth 1 fresh_session []) = true
  /\ forallb (fun x => negb (is_classifier_call x)) (nth 1 fresh_session []) = true
  /\ (forall agent_type r,
        In (E_get_classification_prompt agent_type r) (nth 1 fresh_session []) ->
        yields (nth 1 fresh_session [])
        = [error_text match r with
                      | Return _ => CodeChangesShape.AttributeError_llm
                      | Raise e => e
                      end]).
Proof.
  assert (H : In (nth 1 fresh_session []) fresh_session) by (right; left; reflexivity).
  split; [exact H|].
  exact (run_fails_at_classification {| llm_name := "mini" |} {| llm_name := "large" |}
           [sample_call; sample_call] sample_world _ H).
Defined.

Lemma missing_prompt_fails_the_run_witness :
  yields no_human_prompt_trace = [error_text ValueError_prompts]
  /\ forallb (fun x => negb (is_history_write x)) no_human_prompt_trace = true.
Proof.
  assert (Hin : In (E_get_prompts_by_agent_id_and_types "CODE_CHANGES_AGENT"
                      [PromptType.SYSTEM; PromptType.HUMAN]
                      (Return [ {| type := PromptType.SYSTEM;
                                   text := "You review code changes." |} ]))
                   no_human_prompt_trace) by (left; reflexivity).
  assert (Hmiss : (forall p, In p [ {| type := PromptType.SYSTEM;
                                      text := "You review code changes." |} ] ->
                             type p <> PromptType.HUMAN)
                  \/ (forall p, In p [ {| type := PromptType.SYSTEM;
                                         text := "You review code changes." |} ] ->
                                type p <> PromptType.SYSTEM)).
  { left. intros p [<-|[]]. discriminate. }
  destruct (missing_prompt_fails_the_run fresh_code_changes_agent sample_call
              no_human_prompt_world [] _ _ _ Hin Hmiss) as (_ & Hy & Hw & _).
  split; assumption.
Defined.

Lemma limiter_timeout_fails_the_run_witness :
  yields overloaded_trace
  = ["An error occurred: Service is currently overloaded. Please try again later."]
  /\ forallb (fun x => negb (is_provider_call x)) overloaded_trace = true.
Proof.
  assert (Hin : In (E_wait_for_acquire 30 (Raise (mkExc TimeoutError EmptyString)))
                   overloaded_trace) by (right; left; reflexivity).
  destruct (limiter_timeout_fails_the_run fresh_code_changes_agent sample_call
              overloaded_world [] 30%Z _ Hin eq_refl) as (_ & Hy & _ & Hp).
  split; assumption.
Defined.

(** The class [CustomAgent] as the file defines it has no method
    [_get_system_prompt]: a run of a fresh instance fails while building the
    chain. *)
Lemma custom_agent_without_system_prompt_method agent_id user_id c w t :
  w_get_system_prompt w = None ->
  yields (run_trace (Custom (CustomAgent.__init__ agent_id user_id)) c w t)
  = [error_text AttributeError_get_system_prompt].
Proof.
  intros Hw.
  destruct (Custom_run_trace_inv (CustomAgent.__init__ agent_id user_id) c w t)
    as (r0 & s' & pre & post & Hens & -> & Hpost).
  rewrite (Custom_ensure_chain_raised w t (CustomAgent.__init__ agent_id user_id) _ _ []
             eq_refl (Custom_create_chain_no_method w t _ Hw)) in Hens.
  injection Hens as <- <- <-. inversion Hpost. reflexivity.
Qed.

(* ================================================================= *)
(** * Further properties of the two agents *)

(** ** Failures of the model-client getter *)

Lemma filter_none {A} (f : A -> bool) l :
  (forall x, In x l -> f x = false) -> filter f l = [].
Proof.
  induction l as [|x l IH]; intros H; [reflexivity|]. cbn.
  rewrite (H x (or_introl eq_refl)). apply IH. intros y Hy. apply H. now right.
Qed.

Lemma filter_none_forallb {A} (f g : A -> bool) l :
  forallb g l = true -> (forall x, g x = true -> f x = false) -> filter f l = [].
Proof.
  intros Hg Hfg. apply filter_none. intros x Hx. apply Hfg. eapply In_forallb; eassumption.
Qed.

Ltac tidy :=
  cbn [app] in *;
  repeat match goal with a : unit |- _ => destruct a end;
  repeat match goal with
         | H : Return _ = ?x |- _ => rewrite <- H in *
         | H : Raise _ = ?x |- _ => rewrite <- H in *
         end.

Ltac inj_effects :=
  repeat match goal with
         | H : _ = _ :> Effect |- _ => injection H; clear H; intros; subst
         end.

Section GetLLMFailures.
Import CodeChangesChatAgent CodeChangesShape.

(** X1.  When the wait for the rate limiter or the call to the provider
    raises an exception that is not a [TimeoutError], the getter of
    [CodeChangesChatAgent] leaves the instance as it was; it calls
    [handle_quota_exceeded], once, exactly when the text of the exception
    contains "429" or, in any letter case, "quota exceeded"; and it raises
    the exception it caught (or the one [handle_quota_exceeded] raised). *)
Theorem get_llm_quota_handling w t s r s' t' e :
  _get_llm w t s = (r, s', t') ->
  In (E_wait_for_acquire 30 (Raise e)) t'
  \/ In (E_get_small_llm AgentType.LANGCHAIN (Raise e)) t' ->
  is_TimeoutError e = false ->
  s' = s
  /\ if quota_text (exc_str e)
     then exists rq,
            filter is_quota_handling t' = [E_handle_quota_exceeded rq]
            /\ r = Raise match rq with Return _ => e | Raise e' => e' end
     else filter is_quota_handling t' = [] /\ r = Raise e.
Proof.
  intros H Hin He. unfold _get_llm in H. inv_all.
  all: tidy.
  all: destruct Hin as [Hin|Hin]; in_cases; try discriminate.
  all: inj_effects.
  all: try congruence.
  all: unfold quota_text.
  all: repeat match goal with H : _ || _ = _ |- _ => rewrite H end.
  all: cbn.
  all: split; [reflexivity|].
  all: first [ eexists; split; reflexivity | split; reflexivity ].
Qed.

Lemma CodeChanges_create_chain_provider_timeout w t s r s' t' agent_type e :
  _create_chain w t s = (r, s', t') ->
  In (E_get_small_llm agent_type (Raise e)) t' -> is_TimeoutError e = true ->
  r = Raise overloaded
  /\ forallb (fun x => negb (is_quota_handling x)) t' = true
  /\ In (E_wait_for_acquire 30 (Return tt)) t'.
Proof.
  intros H Hin He. unfold _create_chain, _get_prompts, _get_llm in H. inv_all.
  all: leaf.
  all: cbn; auto 10.
Qed.

(** A call made while building the chain is in the trace of the method
    that builds it, and the run ends as that method did. *)
Lemma CodeChanges_chain_call_in_run s c w t x :
  chain_call x = true -> In x (run_trace (CodeChanges s) c w t) ->
  exists rc sc pre post,
    _create_chain w t s = (rc, sc, pre) /\ In x pre
    /\ run_trace (CodeChanges s) c w t = pre ++ post
    /\ forall e, rc = Raise e -> post = failure_effects who e.
Proof.
  intros Hx Hin.
  destruct (CodeChanges_run_trace_inv s c w t) as (r0 & s' & pre & post & Hens & Htr & Hpost).
  rewrite Htr in *.
  apply in_app_or in Hin as [Hin|Hin].
  - apply CodeChanges_ensure_chain_inv in Hens
      as [(c0 & _ & _ & _ & ->) | (Hc & rc & sc & Hcc & Hrc)]; [destruct Hin|].
    exists rc, sc, pre, post. repeat split; auto.
    intros e ->. destruct Hrc as (-> & ->). now inversion Hpost.
  - apply CodeChanges_after_chain_effects in Hpost.
    pose proof (In_forallb _ _ _ Hpost Hin) as Hn. cbn beta in Hn.
    rewrite Hx in Hn. discriminate Hn.
Qed.

(** X2.  A [TimeoutError] raised by the provider, after the rate limiter
    was obtained, is reported like a timeout of the limiter: the run
    yields exactly one item, the error text "Service is currently
    overloaded. Please try again later.", and [handle_quota_exceeded] is
    not called, whatever the text of the exception. *)
Theorem provider_timeout_reads_as_overload s c w t agent_type e :
  In (E_get_small_llm agent_type (Raise e)) (run_trace (CodeChanges s) c w t) ->
  is_TimeoutError e = true ->
  yields (run_trace (CodeChanges s) c w t) = [error_text overloaded]
  /\ In (E_wait_for_acquire 30 (Return tt)) (run_trace (CodeChanges s) c w t)
  /\ forallb (fun x => negb (is_quota_handling x)) (run_trace (CodeChanges s) c w t) = true.
Proof.
  intros Hin He.
  destruct (CodeChanges_chain_call_in_run s c w t (E_get_small_llm agent_type (Raise e))
              eq_refl Hin)
    as (rc & sc & pre & post & Hcc & Hpre & -> & Hpost).
  destruct (CodeChanges_create_chain_provider_timeout _ _ _ _ _ _ _ _ Hcc Hpre He)
    as (-> & Hq & Ha).
  rewrite (Hpost _ eq_refl).
  apply CodeChanges_create_chain_effects in Hcc as (Hce & _).
  rewrite yields_app, (setup_yields _ (forallb_chain_setup _ Hce)), forallb_app, Hq.
  repeat split. apply in_or_app. now left.
Qed.
End GetLLMFailures.

Lemma get_llm_quota_handling_witness :
  quota_text "Error code: 429 - You exceeded your current quota" = true
  /\ exists rq,
       filter is_quota_handling
         (snd (CodeChangesChatAgent._get_llm quota_world [] fresh_code_changes_agent))
       = [E_handle_quota_exceeded rq]
       /\ fst (fst (CodeChangesChatAgent._get_llm quota_world [] fresh_code_changes_agent))
          = Raise match rq with
                  | Return _ =>
                      mkExc (OtherException "openai.RateLimitError")
                        "Error code: 429 - You exceeded your current quota"
                  | Raise e' => e'
                  end.
Proof.
  split; [reflexivity|].
  destruct (CodeChangesChatAgent._get_llm quota_world [] fresh_code_changes_agent)
    as [[r s'] t'] eqn:H.
  assert (Hin : In (E_wait_for_acquire 30
                      (Raise (mkExc (OtherException "openai.RateLimitError")
                                "Error code: 429 - You exceeded your current quota"))) t'
                \/ In (E_get_small_llm AgentType.LANGCHAIN
                         (Raise (mkExc (OtherException "openai.RateLimitError")
                                   "Error code: 429 - You exceeded your current quota"))) t').
  { right. vm_compute in H. injection H as <- <- <-. do 2 right. left. reflexivity. }
  exact (proj2 (get_llm_quota_handling _ _ _ _ _ _ _ H Hin eq_refl)).
Defined.

Example quota_text_samples :
  quota_text "Quota Exceeded for project 42" = true
  /\ quota_text "HTTP 429" = true
  /\ quota_text "connection reset by peer" = false.
Proof. repeat split. Qed.

Example quota_trace_yields :
  yields quota_trace
  = ["An error occurred: Error code: 429 - You exceeded your current quota"]
  /\ filter is_quota_handling quota_trace = [E_handle_quota_exceeded (Return tt)].
Proof. split; reflexivity. Qed.

Lemma provider_timeout_reads_as_overload_witness :
  yields provider_timeout_trace
  = ["An error occurred: Service is currently overloaded. Please try again later."]
  /\ In (E_wait_for_acquire 30 (Return tt)) provider_timeout_trace
  /\ forallb (fun x => negb (is_quota_handling x)) provider_timeout_trace = true.
Proof.
  assert (Hin : In (E_get_small_llm AgentType.LANGCHAIN
                      (Raise (mkExc TimeoutError "429 upstream timed out")))
                   provider_timeout_trace) by (do 3 right; left; reflexivity).
  exact (provider_timeout_reads_as_overload fresh_code_changes_agent sample_call
           provider_timeout_world [] _ _ Hin eq_refl).
Defined.

(** ** The cache of [_get_prompts] *)

Section PromptCache.
Import CodeChangesChatAgent CodeChangesShape.

Lemma CodeChanges_create_chain_caches w t s r s' t' :
  _create_chain w t s = (r, s', t') ->
  _get_prompts_cached s' = true
  /\ length (filter is_prompt_fetch t') <= (if _get_prompts_cached s then 0 else 1).
Proof.
  intros H. unfold _create_chain, _get_prompts, _get_llm in H. inv_all.
  all: tidy.
  all: repeat match goal with H : _get_prompts_cached _ = _ |- _ => rewrite H end.
  all: cbn; auto.
Qed.

Lemma CodeChanges_create_chain_stale w t s :
  _get_prompts_cached s = true -> _create_chain w t s = (Raise stale_coroutine, s, []).
Proof.
  intros H. unfold _create_chain, _get_prompts. unfold bind at 1. unfold bind at 1.
  cbn [get_self]. now rewrite H.
Qed.

Lemma CodeChanges_run_stale query project_id user_id conversation_id node_ids w t s :
  chain s = None -> _get_prompts_cached s = true ->
  run query project_id user_id conversation_id node_ids w t s
  = (Return tt, s, failure_effects who stale_coroutine).
Proof.
  intros Hc Hp.
  destruct (run query project_id user_id conversation_id node_ids w t s) as [[r s'] t'] eqn:H.
  apply CodeChanges_run_inv in H as (-> & r0 & pre & post & He & -> & Hpost).
  rewrite (CodeChanges_ensure_chain_raised w t s _ _ _ Hc (CodeChanges_create_chain_stale w t s Hp))
    in He.
  injection He as <- <- <-. inversion Hpost; subst. reflexivity.
Qed.

Lemma CodeChanges_session_stale calls : forall w t s tr,
  chain s = None -> _get_prompts_cached s = true ->
  In tr (CodeChanges_session calls w t s) -> tr = failure_effects who stale_coroutine.
Proof.
  induction calls as [|c calls IH]; intros w t s tr Hc Hp Hin; [destruct Hin|].
  cbn [CodeChanges_session] in Hin. rewrite (CodeChanges_run_stale _ _ _ _ _ _ _ _ Hc Hp) in Hin.
  destruct Hin as [<-|Hin]; [reflexivity|]. eapply IH; eassumption.
Qed.

Lemma CodeChanges_run_caches query project_id user_id conversation_id node_ids w t s r s' tr :
  run query project_id user_id conversation_id node_ids w t s = (r, s', tr) ->
  (chain s = None -> _get_prompts_cached s' = true)
  /\ (_get_prompts_cached s = true -> _get_prompts_cached s' = true)
  /\ (chain s' = None -> chain s = None)
  /\ length (filter is_prompt_fetch tr) <= (if _get_prompts_cached s then 0 else 1).
Proof.
  intros H.
  apply CodeChanges_run_inv in H as (-> & r0 & pre & post & He & -> & Hpost).
  assert (Hpost' : filter is_prompt_fetch post = []).
  { apply (filter_none_forallb _ _ _ (CodeChanges_after_chain_effects _ _ _ _ _ _ _ _ Hpost)).
    intros x Hx. destruct x; try reflexivity. discriminate Hx. }
  rewrite filter_app, Hpost', app_nil_r.
  apply CodeChanges_ensure_chain_inv in He
    as [(c0 & Hc & _ & -> & ->) | (Hc & rc & sc & Hcc & Hrc)].
  - repeat split; try congruence; auto. cbn. destruct (_get_prompts_cached s); lia.
  - apply CodeChanges_create_chain_caches in Hcc as (Hp & Hn).
    destruct rc as [c0|e]; destruct Hrc as (_ & ->); cbn [_get_prompts_cached set_chain];
      repeat split; auto.
Qed.

(** X3.  What [lru_cache] keeps for [_get_prompts] is the coroutine of the
    first call, so the chain cannot be built at a second attempt: when a
    run leaves the instance without a chain, every later run of that
    instance (the cache keeping its entry) does nothing but log and yield
    one item, "An error occurred: cannot reuse already awaited coroutine";
    it calls no collaborator. *)
Theorem failed_chain_build_is_permanent s c calls w t r s1 t1 tr :
  run (call_query c) (call_project_id c) (call_user_id c) (call_conversation_id c)
    (call_node_ids c) w t s = (r, s1, t1) ->
  chain s1 = None ->
  In tr (CodeChanges_session calls w (t ++ t1) s1) ->
  tr = [ E_logger_error
           "Error during CodeChangesChatAgent run: cannot reuse already awaited coroutine";
         E_yield "An error occurred: cannot reuse already awaited coroutine" ].
Proof.
  intros H Hc Hin.
  apply CodeChanges_run_caches in H as (Hp & _ & Hc' & _).
  apply (CodeChanges_session_stale calls w (t ++ t1) s1 tr Hc (Hp (Hc' Hc)) Hin).
Qed.


End PromptCache.

Example busy_once_yields :
  yields (snd busy_once_first_run)
  = ["An error occurred: Service is currently overloaded. Please try again later."]
  /\ map yields busy_once_later_runs
     = [ ["An error occurred: cannot reuse already awaited coroutine"];
         ["An error occurred: cannot reuse already awaited coroutine"] ].
Proof. split; reflexivity. Qed.

Lemma failed_chain_build_is_permanent_witness :
  CodeChangesChatAgent.chain (snd (fst busy_once_first_run)) = None
  /\ In (nth 1 busy_once_later_runs []) busy_once_later_runs
  /\ nth 1 busy_once_later_runs []
     = [ E_logger_error
           "Error during CodeChangesChatAgent run: cannot reuse already awaited coroutine";
         E_yield "An error occurred: cannot reuse already awaited coroutine" ].
Proof.
  assert (Hin : In (nth 1 busy_once_later_runs []) busy_once_later_runs)
    by (right; left; reflexivity).
  split; [reflexivity|]. split; [exact Hin|].
  exact (failed_chain_build_is_permanent patched_code_changes_agent sample_call
           [sample_call; sample_call] busy_once_world [] _ _ _ _ eq_refl eq_refl Hin).
Defined.

(** ** The effects of the loop *)

Section StreamEffects.
Variables (who conv : string) (cits : option (list string)) (ev : string -> string).

Lemma In_chunks_write conv' chunk mt cc r done :
  In (E_add_message_chunk conv' chunk mt cc r) (flat_map (chunk_effects conv cits ev) done) ->
  conv' = conv /\ mt = MessageType.AI_GENERATED /\ cc = cits /\ r = Return tt
  /\ In chunk (map chunk_text done).
Proof.
  induction done as [|c done IH]; cbn; [intros []|].
  intros [H|[H|[H|H]]]; try discriminate H.
  - destruct mt. injection H; intros; subst. auto 10.
  - destruct (IH H) as (? & ? & ? & ? & ?). auto 10.
Qed.

Lemma In_stream_write conv' chunk mt cc r done en fl :
  In (E_add_message_chunk conv' chunk mt cc r)
     (flat_map (chunk_effects conv cits ev) done ++ closing who conv cits done en fl) ->
  conv' = conv /\ mt = MessageType.AI_GENERATED /\ cc = cits.
Proof.
  intros H. apply in_app_or in H as [H|H].
  - apply In_chunks_write in H as (? & ? & ? & _). auto.
  - destruct en as [|e|c e]; [destruct fl as [[]|e]| |]; cbn in H;
      repeat (destruct H as [H|H]; [try discriminate H|]); try contradiction.
    destruct mt. injection H; intros; subst. auto.
Qed.

Lemma In_stream_flush conv' mt r done en fl :
  In (E_flush_message_buffer conv' mt r)
     (flat_map (chunk_effects conv cits ev) done ++ closing who conv cits done en fl) ->
  conv' = conv /\ mt = MessageType.AI_GENERATED /\ en = Exhausted /\ r = fl.
Proof.
  intros H. apply in_app_or in H as [H|H].
  - pose proof (In_forallb _ _ _ (loop_effects_chunks conv cits ev done) H) as Hl.
    exfalso. clear Hl. induction done as [|c done IH]; cbn in H; [destruct H|].
    destruct H as [H|[H|[H|H]]]; try discriminate H. auto.
  - destruct en as [|e|c e]; [destruct fl as [[]|e]| |]; cbn in H;
      repeat (destruct H as [H|H]; [try discriminate H|]); try contradiction.
    all: destruct mt; injection H; intros; subst; auto.
Qed.

Lemma filter_flush_chunks done :
  filter is_flush (flat_map (chunk_effects conv cits ev) done) = [].
Proof. induction done as [|c done IH]; [reflexivity|]. exact IH. Qed.

Lemma filter_stream (f : Effect -> bool) done en fl :
  (forall x, loop_effect x = true -> f x = false) ->
  filter f (flat_map (chunk_effects conv cits ev) done ++ closing who conv cits done en fl) = [].
Proof.
  intros H. apply (filter_none_forallb _ _ _ (loop_effects_stream _ _ _ _ _ _ _) H).
Qed.

Lemma not_In_stream x done en fl :
  loop_effect x = false ->
  ~ In x (flat_map (chunk_effects conv cits ev) done ++ closing who conv cits done en fl).
Proof.
  intros Hx Hin. apply (In_forallb _ _ _ (loop_effects_stream _ _ _ _ _ _ _)) in Hin.
  congruence.
Qed.
End StreamEffects.

Lemma not_In_chain_effects x pre :
  forallb chain_effect pre = true -> chain_effect x = false -> ~ In x pre.
Proof. intros H Hx Hin. apply (In_forallb _ _ _ H) in Hin. congruence. Qed.

(** ** What the chain is given *)

Section CustomStream.
Import CustomAgent CustomAgentShape.

Lemma Custom_after_chain_effects s query user_id conversation_id node_ids r0 post :
  after_chain s query user_id conversation_id node_ids r0 post ->
  forallb (fun x => negb (chain_call x)) post = true.
Proof.
  intros []; try reflexivity.
  cbn [forallb chain_call negb andb].
  rewrite forallb_forall; intros x Hx.
  pose proof (In_forallb _ _ _ (loop_effects_stream _ _ _ _ _ _ _) Hx) as Hl.
  destruct x; try discriminate; reflexivity.
Qed.

Lemma Custom_after_chain_astream s query user_id conversation_id node_ids r0 post ch i :
  after_chain s query user_id conversation_id node_ids r0 post ->
  In (E_astream ch i) post ->
  chain s = Some ch
  /\ exists h v,
       i = inputs_of query h v
       /\ In (E_get_session_history user_id conversation_id (Return h)) post
       /\ In (E_run_agent (agent_id s) query conversation_id user_id node_ids (Return v)) post
       /\ In (E_logger_debug (LogInputs i)) post
       /\ filter is_astream post = [E_astream ch i].
Proof.
  intros Hpost Hin. destruct Hpost.
  1-3: cbn in Hin; intuition discriminate.
  repeat (destruct Hin as [Hin|Hin]; [try discriminate Hin|]).
  - injection Hin as <- <-. split; [assumption|]. exists h, v. cbn [In]. repeat split; auto.
    cbn [filter is_astream]. now rewrite filter_stream by (now intros []).
  - now apply not_In_stream in Hin.
Qed.

(** X5.  What [CustomAgent.run] hands to the chain: the whole validated
    history, the query, and as only tool result one system message whose
    content is "Custom Agent result: " followed by the JSON text of what
    [run_agent] returned.  The history is read for the [user_id] and the
    [conversation_id] of the call, the auxiliary agent is run under the
    [agent_id] of the instance, the inputs are logged as they are handed
    over, and a run opens the stream once. *)
Theorem custom_chain_inputs s c w t ch inputs :
  In (E_astream ch inputs) (run_trace (Custom s) c w t) ->
  exists h v,
    In (E_get_session_history (call_user_id c) (call_conversation_id c) (Return h))
       (run_trace (Custom s) c w t)
    /\ In (E_run_agent (agent_id s) (call_query c) (call_conversation_id c) (call_user_id c)
             (call_node_ids c) (Return v))
          (run_trace (Custom s) c w t)
    /\ inputs = {| inputs_history := validate_history h;
                   inputs_tool_results :=
                     [SystemMessage ("Custom Agent result: " ++ dumps v)%string];
                   inputs_input := call_query c |}
    /\ In (E_logger_debug (LogInputs inputs)) (run_trace (Custom s) c w t)
    /\ filter is_astream (run_trace (Custom s) c w t) = [E_astream ch inputs].
Proof.
  intros Hin.
  destruct (Custom_run_trace_inv s c w t) as (r0 & s' & pre & post & Hens & Htr & Hpost).
  rewrite Htr in *. clear Htr.
  apply Custom_ensure_chain_spec in Hens as (Hpre & Hid & _).
  apply in_app_or in Hin as [Hin|Hin]; [now apply (not_In_chain_effects _ _ Hpre) in Hin|].
  destruct (Custom_after_chain_astream _ _ _ _ _ _ _ _ _ Hpost Hin)
    as (_ & h & v & -> & Hh & Hv & Hlog & Hf).
  exists h, v. rewrite <- Hid, filter_app, Hf.
  rewrite (filter_none_forallb _ _ _ Hpre) by (now intros []).
  repeat split; auto using in_or_app.
Qed.
End CustomStream.

Section CodeChangesStream.
Import CodeChangesChatAgent CodeChangesShape.

Lemma CodeChanges_after_chain_astream s query project_id user_id conversation_id node_ids
    r0 post ch i :
  after_chain s query project_id user_id conversation_id node_ids r0 post ->
  In (E_astream ch i) post ->
  chain s = Some ch
  /\ exists h tool,
       i = inputs_of query h tool
       /\ In (E_get_session_history user_id conversation_id (Return h)) post
       /\ (exists l p hc,
             In (E_classification_ainvoke l p query hc (Return (classification_of tool))) post)
       /\ match tool with
          | Some result =>
              In (E_kickoff_blast_radius_agent query project_id node_ids user_id (mini_llm s)
                    (Return result)) post
          | None => filter is_kickoff post = []
          end
       /\ In (E_logger_debug (LogInputs i)) post
       /\ filter is_astream post = [E_astream ch i].
Proof.
  intros Hpost Hin. destruct Hpost.
  1-6: cbn in Hin; intuition discriminate.
  - destruct tool; cbn in Hin; intuition discriminate.
  - destruct tool as [result|];
      cbn [classify_effects kickoff_effects app] in *;
      repeat (destruct Hin as [Hin|Hin]; [try discriminate Hin|]);
      try (now apply not_In_stream in Hin).
    + injection Hin as <- <-. split; [assumption|]. exists h, (Some result).
      cbn [In filter is_astream is_kickoff].
      rewrite filter_stream by (now intros []).
      repeat split; eauto 10.
    + injection Hin as <- <-. split; [assumption|]. exists h, None.
      cbn [In filter is_astream is_kickoff].
      rewrite !filter_stream by (now intros []).
      repeat split; eauto 10.
Qed.

(** X6.  What [CodeChangesChatAgent.run] hands to the chain: the whole
    validated history and the query; and as tool results, nothing when the
    classifier asked for no agent (no auxiliary agent is then run), and
    otherwise one system message "Blast Radius Agent result: " followed by
    the [response] of the structured result of the auxiliary agent, or by
    its raw text when it has no structured result.  The inputs are logged
    as they are handed over, and a run opens the stream once. *)
Theorem code_changes_chain_inputs s c w t ch inputs :
  In (E_astream ch inputs) (run_trace (CodeChanges s) c w t) ->
  exists h,
    In (E_get_session_history (call_user_id c) (call_conversation_id c) (Return h))
       (run_trace (CodeChanges s) c w t)
    /\ inputs_history inputs = validate_history h
    /\ inputs_input inputs = call_query c
    /\ ((inputs_tool_results inputs = []
         /\ filter is_kickoff (run_trace (CodeChanges s) c w t) = []
         /\ exists l p hc,
              In (E_classification_ainvoke l p (call_query c) hc
                    (Return ClassificationResult.NO_AGENT_REQUIRED))
                 (run_trace (CodeChanges s) c w t))
        \/ exists result,
             In (E_kickoff_blast_radius_agent (call_query c) (call_project_id c)
                   (call_node_ids c) (call_user_id c) (mini_llm s) (Return result))
                (run_trace (CodeChanges s) c w t)
             /\ inputs_tool_results inputs
                = [SystemMessage
                     ("Blast Radius Agent result: "
                      ++ match pydantic result with
                         | Some p => response p
                         | None => raw result
                         end)%string])
    /\ In (E_logger_debug (LogInputs inputs)) (run_trace (CodeChanges s) c w t)
    /\ filter is_astream (run_trace (CodeChanges s) c w t) = [E_astream ch inputs].
Proof.
  intros Hin.
  destruct (CodeChanges_run_trace_inv s c w t) as (r0 & s' & pre & post & Hens & Htr & Hpost).
  rewrite Htr in *. clear Htr.
  apply CodeChanges_ensure_chain_spec in Hens as (Hpre & _ & Hmini & _).
  apply in_app_or in Hin as [Hin|Hin]; [now apply (not_In_chain_effects _ _ Hpre) in Hin|].
  destruct (CodeChanges_after_chain_astream _ _ _ _ _ _ _ _ _ _ Hpost Hin)
    as (_ & h & tool & -> & Hh & (l & p & hc & Hc) & Htool & Hlog & Hf).
  exists h. rewrite <- Hmini, !filter_app, Hf.
  rewrite !(filter_none_forallb _ _ _ Hpre) by (now intros []).
  split; [auto using in_or_app|]. split; [reflexivity|]. split; [reflexivity|].
  split; [|split; [auto using in_or_app | reflexivity]].
  destruct tool as [result|].
  - right. exists result. split; [auto using in_or_app | reflexivity].
  - left. split; [reflexivity|]. split; [exact Htool|].
    exists l, p, hc. auto using in_or_app.
Qed.
End CodeChangesStream.

Lemma custom_chain_inputs_witness :
  In (E_astream custom_sample_chain custom_sample_inputs) custom_sample_trace
  /\ exists h v,
       In (E_get_session_history (call_user_id sample_call) (call_conversation_id sample_call)
             (Return h)) custom_sample_trace
       /\ In (E_run_agent (CustomAgent.agent_id fresh_custom_agent) (call_query sample_call)
                (call_conversation_id sample_call) (call_user_id sample_call)
                (call_node_ids sample_call) (Return v))
             custom_sample_trace
       /\ custom_sample_inputs
          = {| inputs_history := validate_history h;
               inputs_tool_results :=
                 [SystemMessage ("Custom Agent result: " ++ dumps v)%string];
               inputs_input := call_query sample_call |}
       /\ In (E_logger_debug (LogInputs custom_sample_inputs)) custom_sample_trace
       /\ filter is_astream custom_sample_trace
          = [E_astream custom_sample_chain custom_sample_inputs].
Proof.
  assert (Hin : In (E_astream custom_sample_chain custom_sample_inputs) custom_sample_trace)
    by (do 5 right; left; reflexivity).
  split; [exact Hin|].
  exact (custom_chain_inputs fresh_custom_agent sample_call sample_world [] _ _ Hin).
Defined.

Lemma code_changes_chain_inputs_witness :
  In (E_astream code_changes_sample_chain code_changes_sample_inputs)
     code_changes_sample_trace
  /\ exists h,
       In (E_get_session_history (call_user_id sample_call) (call_conversation_id sample_call)
             (Return h)) code_changes_sample_trace
       /\ inputs_history code_changes_sample_inputs = validate_history h
       /\ inputs_input code_changes_sample_inputs = call_query sample_call
       /\ ((inputs_tool_results code_changes_sample_inputs = []
            /\ filter is_kickoff code_changes_sample_trace = []
            /\ exists l p hc,
                 In (E_classification_ainvoke l p (call_query sample_call) hc
                       (Return ClassificationResult.NO_AGENT_REQUIRED))
                    code_changes_sample_trace)
           \/ exists result,
                In (E_kickoff_blast_radius_agent (call_query sample_call)
                      (call_project_id sample_call) (call_node_ids sample_call)
                      (call_user_id sample_call)
                      (CodeChangesChatAgent.mini_llm patched_code_changes_agent)
                      (Return result))
                   code_changes_sample_trace
                /\ inputs_tool_results code_changes_sample_inputs
                   = [SystemMessage
                        ("Blast Radius Agent result: "
                         ++ match pydantic result with
                            | Some p => response p
                            | None => raw result
                            end)%string])
       /\ In (E_logger_debug (LogInputs code_changes_sample_inputs)) code_changes_sample_trace
       /\ filter is_astream code_changes_sample_trace
          = [E_astream code_changes_sample_chain code_changes_sample_inputs].
Proof.
  assert (Hin : In (E_astream code_changes_sample_chain code_changes_sample_inputs)
                   code_changes_sample_trace) by (do 10 right; left; reflexivity).
  split; [exact Hin|].
  exact (code_changes_chain_inputs patched_code_changes_agent sample_call sample_world []
           _ _ Hin).
Defined.

Example no_agent_trace_inputs :
  filter is_astream no_agent_trace
  = [E_astream code_changes_sample_chain
       {| inputs_history := inputs_history code_changes_sample_inputs;
          inputs_tool_results := [];
          inputs_input := call_query sample_call |}]
  /\ filter is_kickoff no_agent_trace = [].
Proof. split; reflexivity. Qed.

(** ** A chain, once built, is kept *)

Section ChainReuse.

Lemma run_with_chain a c w t ch :
  agent_chain a = Some ch ->
  run_self a c w t = a
  /\ forallb (fun x => negb (chain_call x)) (run_trace a c w t) = true
  /\ forall c' i, In (E_astream c' i) (run_trace a c w t) -> c' = ch.
Proof.
  destruct a as [s|s]; cbn [agent_chain run_self run_trace]; intros Hc.
  - destruct (CodeChangesChatAgent.run (call_query c) (call_project_id c) (call_user_id c)
                (call_conversation_id c) (call_node_ids c) w t s) as [[r s'] t'] eqn:H.
    apply CodeChanges_run_inv in H as (-> & r0 & pre & post & He & -> & Hpost).
    rewrite (CodeChanges_ensure_chain_Some _ _ _ _ Hc) in He. injection He as <- <- <-.
    cbn [fst snd app]. split; [reflexivity|].
    split; [eapply CodeChanges_after_chain_effects; eassumption|].
    intros c' i Hin.
    apply (CodeChanges_after_chain_astream _ _ _ _ _ _ _ _ _ _ Hpost) in Hin as (Hc' & _).
    congruence.
  - destruct (CustomAgent.run (call_query c) (call_project_id c) (call_user_id c)
                (call_conversation_id c) (call_node_ids c) w t s) as [[r s'] t'] eqn:H.
    apply Custom_run_inv in H as (-> & r0 & pre & post & He & -> & Hpost).
    rewrite (Custom_ensure_chain_Some _ _ _ _ Hc) in He. injection He as <- <- <-.
    cbn [fst snd app]. split; [reflexivity|].
    split; [eapply Custom_after_chain_effects; eassumption|].
    intros c' i Hin.
    apply (Custom_after_chain_astream _ _ _ _ _ _ _ _ _ Hpost) in Hin as (Hc' & _).
    congruence.
Qed.

(** X7.  Once an instance of either class holds a chain, every later run
    of the instance streams from that same chain and builds nothing: it
    does not wait for the rate limiter, does not ask for prompts and does
    not call the provider. *)
Theorem built_chain_is_reused a calls w t ch tr :
  agent_chain a = Some ch ->
  In tr (session calls w t a) ->
  forallb (fun x => negb (chain_call x)) tr = true
  /\ forall c' i, In (E_astream c' i) tr -> c' = ch.
Proof.
  intros Hc. revert t. induction calls as [|c calls IH]; intros t Hin; [destruct Hin|].
  cbn [session] in Hin.
  destruct (run_with_chain a c w t ch Hc) as (Hs & Hn & Ha).
  destruct Hin as [<-|Hin]; [split; assumption|].
  rewrite Hs in Hin. eapply IH; eassumption.
Qed.

(** A run that opened the stream leaves the instance with the chain it
    streamed from. *)
Lemma streaming_run_keeps_its_chain a c w t ch i :
  In (E_astream ch i) (run_trace a c w t) -> agent_chain (run_self a c w t) = Some ch.
Proof.
  destruct a as [s|s]; cbn [agent_chain run_self run_trace]; intros Hin.
  - destruct (CodeChangesChatAgent.run (call_query c) (call_project_id c) (call_user_id c)
                (call_conversation_id c) (call_node_ids c) w t s) as [[r s'] t'] eqn:H.
    apply CodeChanges_run_inv in H as (-> & r0 & pre & post & He & -> & Hpost).
    cbn [fst snd] in *.
    apply CodeChanges_ensure_chain_spec in He as (Hpre & _).
    apply in_app_or in Hin as [Hin|Hin]; [now apply (not_In_chain_effects _ _ Hpre) in Hin|].
    now apply (CodeChanges_after_chain_astream _ _ _ _ _ _ _ _ _ _ Hpost) in Hin as (Hc' & _).
  - destruct (CustomAgent.run (call_query c) (call_project_id c) (call_user_id c)
                (call_conversation_id c) (call_node_ids c) w t s) as [[r s'] t'] eqn:H.
    apply Custom_run_inv in H as (-> & r0 & pre & post & He & -> & Hpost).
    cbn [fst snd] in *.
    apply Custom_ensure_chain_spec in He as (Hpre & _).
    apply in_app_or in Hin as [Hin|Hin]; [now apply (not_In_chain_effects _ _ Hpre) in Hin|].
    now apply (Custom_after_chain_astream _ _ _ _ _ _ _ _ _ Hpost) in Hin as (Hc' & _).
Qed.
End ChainReuse.

Lemma built_chain_is_reused_witness :
  agent_chain warm_custom_agent = Some custom_sample_chain
  /\ In (nth 1 warm_custom_runs []) warm_custom_runs
  /\ forallb (fun x => negb (chain_call x)) (nth 1 warm_custom_runs []) = true
  /\ forall c' i, In (E_astream c' i) (nth 1 warm_custom_runs []) -> c' = custom_sample_chain.
Proof.
  assert (Hc : agent_chain warm_custom_agent = Some custom_sample_chain) by reflexivity.
  assert (Hin : In (nth 1 warm_custom_runs []) warm_custom_runs)
    by (right; left; reflexivity).
  split; [exact Hc|]. split; [exact Hin|].
  exact (built_chain_is_reused warm_custom_agent [sample_call; sample_call] sample_world
           custom_sample_trace _ _ Hc Hin).
Defined.

Example warm_custom_runs_build_nothing :
  map (filter chain_call) (custom_sample_trace :: warm_custom_runs)
  = [ [ E_get_system_prompt (Return (Some "You are a custom agent."));
        E_get_small_llm AgentType.LANGCHAIN (Return {| llm_name := "small" |}) ];
      []; [] ].
Proof. reflexivity. Qed.

(** ** Classification and the auxiliary agent *)

Lemma contents_map_Msg ms : contents (map Msg ms) = Return (map content ms).
Proof. induction ms as [|m ms IH]; [reflexivity|]. cbn. now rewrite IH. Qed.

Lemma validate_history_is_messages h : exists ms, validate_history h = map Msg ms.
Proof.
  induction h as [|x h [ms IH]]; [now exists []|].
  destruct (validate_entry_is_msg x) as [m Hm].
  exists (m :: ms). cbn. now rewrite Hm, <- IH.
Qed.

Lemma last_n_map {A B} (f : A -> B) n l : last_n n (map f l) = map f (last_n n l).
Proof. unfold last_n. now rewrite length_map, skipn_map. Qed.

Lemma length_last_n {A} n (l : list A) : length (last_n n l) = Nat.min n (length l).
Proof. unfold last_n. rewrite length_skipn. lia. Qed.

Ltac split_in H :=
  repeat (destruct H as [H|H]; [try discriminate H|]); try contradiction;
  try (now apply not_In_stream in H).

Section Classification.
Import CodeChangesChatAgent CodeChangesShape.

Lemma CodeChanges_after_chain_classifier s query project_id user_id conversation_id node_ids
    r0 post l p q hc rc :
  after_chain s query project_id user_id conversation_id node_ids r0 post ->
  In (E_classification_ainvoke l p q hc rc) post ->
  llm s = Some l /\ q = query
  /\ In (E_get_classification_prompt AgentType.CODE_CHANGES (Return p)) post
  /\ filter is_classifier_call post = [E_classification_ainvoke l p q hc rc]
  /\ exists h,
       In (E_get_session_history user_id conversation_id (Return h)) post
       /\ contents (last_n 5 (validate_history h)) = Return hc.
Proof.
  intros Hpost Hin. destruct Hpost.
  1-4: cbn in Hin; intuition discriminate.
  all: try destruct tool as [result|].
  all: cbn [classify_effects kickoff_effects failure_effects app] in *.
  all: split_in Hin.
  all: injection Hin; intros; subst.
  all: cbn [In filter is_classifier_call].
  all: rewrite ?filter_stream by (now intros []).
  all: repeat split; eauto 10.
Qed.

(** X8.  The classifier is invoked at most once in a run, with the query
    of the call, under the attribute [llm] of the instance and with the
    prompt obtained for [AgentType.CODE_CHANGES]; of the history it is
    given the contents of the last five validated entries only (of all of
    them when there are fewer), in order. *)
Theorem classifier_reads_the_last_five s c w t l p q hc rc :
  In (E_classification_ainvoke l p q hc rc) (run_trace (CodeChanges s) c w t) ->
  llm s = Some l /\ q = call_query c
  /\ In (E_get_classification_prompt AgentType.CODE_CHANGES (Return p))
        (run_trace (CodeChanges s) c w t)
  /\ filter is_classifier_call (run_trace (CodeChanges s) c w t)
     = [E_classification_ainvoke l p q hc rc]
  /\ exists h ms,
       In (E_get_session_history (call_user_id c) (call_conversation_id c) (Return h))
          (run_trace (CodeChanges s) c w t)
       /\ validate_history h = map Msg ms
       /\ hc = map content (last_n 5 ms)
       /\ length hc = Nat.min 5 (length h).
Proof.
  intros Hin.
  destruct (CodeChanges_run_trace_inv s c w t) as (r0 & s' & pre & post & Hens & Htr & Hpost).
  rewrite Htr in *. clear Htr.
  apply CodeChanges_ensure_chain_spec in Hens as (Hpre & Hllm & _ & _).
  apply in_app_or in Hin as [Hin|Hin]; [now apply (not_In_chain_effects _ _ Hpre) in Hin|].
  destruct (CodeChanges_after_chain_classifier _ _ _ _ _ _ _ _ _ _ _ _ _ Hpost Hin)
    as (Hl & -> & Hp & Hf & h & Hh & Hc).
  rewrite <- Hllm, filter_app, Hf.
  rewrite (filter_none_forallb _ _ _ Hpre) by (now intros []).
  split; [exact Hl|]. split; [reflexivity|]. split; [auto using in_or_app|].
  split; [reflexivity|].
  destruct (validate_history_is_messages h) as [ms Hms].
  exists h, ms. split; [auto using in_or_app|]. split; [exact Hms|].
  rewrite Hms, last_n_map, contents_map_Msg in Hc. injection Hc as <-.
  split; [reflexivity|].
  rewrite length_map, length_last_n.
  replace (length ms) with (length h); [reflexivity|].
  rewrite <- (length_map Msg ms), <- Hms. unfold validate_history. now rewrite length_map.
Qed.

Lemma CodeChanges_after_chain_kickoff s query project_id user_id conversation_id node_ids
    r0 post :
  after_chain s query project_id user_id conversation_id node_ids r0 post ->
  (forall q pid nodes uid l r,
      In (E_kickoff_blast_radius_agent q pid nodes uid l r) post ->
      q = query /\ pid = project_id /\ nodes = node_ids /\ uid = user_id /\ l = mini_llm s
      /\ (exists lc p hc,
            In (E_classification_ainvoke lc p query hc
                  (Return ClassificationResult.AGENT_REQUIRED)) post)
      /\ filter is_kickoff post = [E_kickoff_blast_radius_agent q pid nodes uid l r])
  /\ (forall lc p q hc,
        In (E_classification_ainvoke lc p q hc (Return ClassificationResult.AGENT_REQUIRED))
           post ->
        exists r,
          In (E_kickoff_blast_radius_agent query project_id node_ids user_id (mini_llm s) r)
             post)
  /\ (forall lc p q hc,
        In (E_classification_ainvoke lc p q hc
              (Return ClassificationResult.NO_AGENT_REQUIRED)) post ->
        filter is_kickoff post = []).
Proof.
  intros Hpost. destruct Hpost.
  all: try destruct tool as [result|].
  all: cbn [classify_effects kickoff_effects failure_effects classification_of app].
  all: split; [|split].
  all: intros;
       cbn [classify_effects kickoff_effects failure_effects classification_of app
            In filter is_kickoff] in *.
  all: rewrite ?filter_stream by (now intros []).
  all: match goal with H : _ \/ _ |- _ => split_in H | _ => idtac end.
  all: try match goal with H : _ = _ :> Effect |- _ => injection H; intros; subst end.
  all: try discriminate.
  all: try reflexivity.
  all: try solve [ eexists; cbn [In]; eauto 10 ].
  all: repeat split; try reflexivity; do 3 eexists; cbn [In]; eauto 12.
Qed.

(** X9.  The auxiliary agent is kicked off exactly when the classifier
    answers AGENT_REQUIRED: then it is started once, with the query, the
    project, the nodes and the user of the call and the attribute
    [mini_llm] of the instance; on the answer NO_AGENT_REQUIRED it is not
    started at all. *)
Theorem auxiliary_agent_runs_only_when_required s c w t :
  (forall q pid nodes uid l r,
      In (E_kickoff_blast_radius_agent q pid nodes uid l r) (run_trace (CodeChanges s) c w t) ->
      q = call_query c /\ pid = call_project_id c /\ nodes = call_node_ids c
      /\ uid = call_user_id c /\ l = mini_llm s
      /\ (exists lc p hc,
            In (E_classification_ainvoke lc p (call_query c) hc
                  (Return ClassificationResult.AGENT_REQUIRED))
               (run_trace (CodeChanges s) c w t))
      /\ filter is_kickoff (run_trace (CodeChanges s) c w t)
         = [E_kickoff_blast_radius_agent q pid nodes uid l r])
  /\ (forall lc p q hc,
        In (E_classification_ainvoke lc p q hc (Return ClassificationResult.AGENT_REQUIRED))
           (run_trace (CodeChanges s) c w t) ->
        exists r,
          In (E_kickoff_blast_radius_agent (call_query c) (call_project_id c)
                (call_node_ids c) (call_user_id c) (mini_llm s) r)
             (run_trace (CodeChanges s) c w t))
  /\ (forall lc p q hc,
        In (E_classification_ainvoke lc p q hc
              (Return ClassificationResult.NO_AGENT_REQUIRED))
           (run_trace (CodeChanges s) c w t) ->
        filter is_kickoff (run_trace (CodeChanges s) c w t) = []).
Proof.
  destruct (CodeChanges_run_trace_inv s c w t) as (r0 & s' & pre & post & Hens & Htr & Hpost).
  rewrite Htr in *. clear Htr.
  apply CodeChanges_ensure_chain_spec in Hens as (Hpre & _ & Hmini & _).
  apply CodeChanges_after_chain_kickoff in Hpost as (H1 & H2 & H3).
  rewrite <- Hmini, filter_app.
  rewrite (filter_none_forallb _ _ _ Hpre) by (now intros []).
  cbn [app]. split; [|split].
  - intros q pid nodes uid l r Hin.
    apply in_app_or in Hin as [Hin|Hin]; [now apply (not_In_chain_effects _ _ Hpre) in Hin|].
    destruct (H1 _ _ _ _ _ _ Hin) as (? & ? & ? & ? & ? & (lc & p & hc & Hc) & Hf).
    repeat split; auto. exists lc, p, hc. auto using in_or_app.
  - intros lc p q hc Hin.
    apply in_app_or in Hin as [Hin|Hin]; [now apply (not_In_chain_effects _ _ Hpre) in Hin|].
    destruct (H2 _ _ _ _ Hin) as (r & Hr). exists r. auto using in_or_app.
  - intros lc p q hc Hin.
    apply in_app_or in Hin as [Hin|Hin]; [now apply (not_In_chain_effects _ _ Hpre) in Hin|].
    eapply H3; eassumption.
Qed.
End Classification.

Lemma classifier_reads_the_last_five_witness :
  In (E_classification_ainvoke {| llm_name := "large" |} "classify" (call_query sample_call)
        ["hi"; "42"; "hello"] (Return ClassificationResult.AGENT_REQUIRED))
     code_changes_sample_trace
  /\ exists h ms,
       In (E_get_session_history (call_user_id sample_call) (call_conversation_id sample_call)
             (Return h)) code_changes_sample_trace
       /\ validate_history h = map Msg ms
       /\ ["hi"; "42"; "hello"] = map content (last_n 5 ms)
       /\ length ["hi"; "42"; "hello"] = Nat.min 5 (length h).
Proof.
  assert (Hin : In (E_classification_ainvoke {| llm_name := "large" |} "classify"
                      (call_query sample_call) ["hi"; "42"; "hello"]
                      (Return ClassificationResult.AGENT_REQUIRED))
                   code_changes_sample_trace) by (do 6 right; left; reflexivity).
  split; [exact Hin|].
  exact (proj2 (proj2 (proj2 (proj2
           (classifier_reads_the_last_five patched_code_changes_agent sample_call sample_world
              [] _ _ _ _ _ Hin))))).
Defined.

Example last_five_of_seven :
  contents (last_n 5 (validate_history
                        [Prim_str "a"; Prim_int 2; Prim_str "c"; Msg (AIMessage "d");
                         Prim_bool false; Prim_str "f"; Msg (HumanMessage "g")]))
  = Return ["c"; "d"; "False"; "f"; "g"].
Proof. reflexivity. Qed.

(** ** What is written to the history *)

Section Writes.
Import CodeChangesShape.

Lemma CodeChanges_after_chain_write s query project_id user_id conversation_id node_ids
    r0 post conv chunk mt cits r :
  after_chain s query project_id user_id conversation_id node_ids r0 post ->
  In (E_add_message_chunk conv chunk mt cits r) post ->
  conv = conversation_id /\ mt = MessageType.AI_GENERATED
  /\ exists l p hc classification raw formatted,
       In (E_classification_ainvoke l p query hc (Return classification)) post
       /\ In (E_format_citations raw (Return formatted)) post
       /\ cits = match classification with
                 | ClassificationResult.AGENT_REQUIRED => Some formatted
                 | ClassificationResult.NO_AGENT_REQUIRED => None
                 end
       /\ (classification = ClassificationResult.NO_AGENT_REQUIRED -> raw = []).
Proof.
  intros Hpost Hin. destruct Hpost.
  1-6: cbn in Hin; intuition discriminate.
  - destruct tool; cbn in Hin; intuition discriminate.
  - assert (Hw : In (E_add_message_chunk conv chunk mt cits r)
                   (flat_map (chunk_effects conversation_id (chunk_citations tool formatted)
                                (CodeChangesChatAgent.event (event_citations_of tool formatted)))
                             done
                    ++ closing who conversation_id (chunk_citations tool formatted) done en fl)).
    { destruct tool; cbn [classify_effects kickoff_effects app] in Hin; split_in Hin;
        exact Hin. }
    apply In_stream_write in Hw as (-> & -> & ->).
    split; [reflexivity|]. split; [reflexivity|].
    exists l, p, hc, (classification_of tool), (raw_citations tool), formatted.
    destruct tool as [result|]; cbn [classify_effects kickoff_effects app In classification_of
                                       chunk_citations raw_citations];
      repeat split; auto 10; discriminate.
Qed.

(** X10.  Every fragment is written to the history under the
    [conversation_id] of the call and as an AI-generated message.
    [CustomAgent] never attaches citations to it.  [CodeChangesChatAgent]
    attaches the formatted citations when the classifier asked for the
    agent and none otherwise, although [format_citations] has been called
    in both cases, on the empty list in the second. *)
Theorem fragments_are_stored_for_the_conversation a c w t conv chunk mt cits r :
  In (E_add_message_chunk conv chunk mt cits r) (run_trace a c w t) ->
  conv = call_conversation_id c /\ mt = MessageType.AI_GENERATED
  /\ match a with
     | Custom _ => cits = None
     | CodeChanges _ =>
         exists l p hc classification raw formatted,
           In (E_classification_ainvoke l p (call_query c) hc (Return classification))
              (run_trace a c w t)
           /\ In (E_format_citations raw (Return formatted)) (run_trace a c w t)
           /\ cits = match classification with
                     | ClassificationResult.AGENT_REQUIRED => Some formatted
                     | ClassificationResult.NO_AGENT_REQUIRED => None
                     end
           /\ (classification = ClassificationResult.NO_AGENT_REQUIRED -> raw = [])
     end.
Proof.
  intros Hin. destruct a as [s|s].
  - destruct (CodeChanges_run_trace_inv s c w t) as (r0 & s' & pre & post & Hens & Htr & Hpost).
    rewrite Htr in *. clear Htr.
    apply CodeChanges_ensure_chain_spec in Hens as (Hpre & _).
    apply in_app_or in Hin as [Hin|Hin]; [now apply (not_In_chain_effects _ _ Hpre) in Hin|].
    destruct (CodeChanges_after_chain_write _ _ _ _ _ _ _ _ _ _ _ _ _ Hpost Hin)
      as (-> & -> & l & p & hc & cl & raw & f & H1 & H2 & H3 & H4).
    split; [reflexivity|]. split; [reflexivity|].
    exists l, p, hc, cl, raw, f. auto using in_or_app.
  - destruct (Custom_run_trace_inv s c w t) as (r0 & s' & pre & post & Hens & Htr & Hpost).
    rewrite Htr in *. clear Htr.
    apply Custom_ensure_chain_spec in Hens as (Hpre & _).
    apply in_app_or in Hin as [Hin|Hin]; [now apply (not_In_chain_effects _ _ Hpre) in Hin|].
    destruct Hpost.
    1-3: cbn in Hin; intuition discriminate.
    split_in Hin. apply In_stream_write in Hin as (-> & -> & ->). auto.
Qed.
End Writes.

Lemma fragments_are_stored_for_the_conversation_witness :
  In (E_add_message_chunk "conv-1" "Hel" MessageType.AI_GENERATED None (Return tt))
     no_agent_trace
  /\ exists l p hc classification raw formatted,
       In (E_classification_ainvoke l p (call_query sample_call) hc (Return classification))
          no_agent_trace
       /\ In (E_format_citations raw (Return formatted)) no_agent_trace
       /\ None = match classification with
                 | ClassificationResult.AGENT_REQUIRED => Some formatted
                 | ClassificationResult.NO_AGENT_REQUIRED => None
                 end
       /\ (classification = ClassificationResult.NO_AGENT_REQUIRED -> raw = []).
Proof.
  assert (Hin : In (E_add_message_chunk "conv-1" "Hel" MessageType.AI_GENERATED None
                      (Return tt)) no_agent_trace) by (do 11 right; left; reflexivity).
  split; [exact Hin|].
  exact (proj2 (proj2 (fragments_are_stored_for_the_conversation
                         (CodeChanges patched_code_changes_agent) sample_call no_agent_world
                         [] _ _ _ _ _ Hin))).
Defined.

(** ** The end of a run *)

Section RunEnd.
Variables (a : Agent) (c : Call) (w : World) (t : Trace).

Lemma filter_flush_setup setup :
  forallb setup_effect setup = true -> filter is_flush setup = [].
Proof.
  intros H. apply (filter_none_forallb _ _ _ H). intros x Hx. destruct x; try reflexivity.
  discriminate Hx.
Qed.

Lemma raised_in_exhausted who conv cits done fl x :
  In x (closing who conv cits done Exhausted fl) -> raised x = true ->
  x = E_flush_message_buffer conv MessageType.AI_GENERATED fl.
Proof.
  destruct fl as [[]|e]; cbn; intros Hin Hx; split_in Hin; subst; try discriminate Hx; auto.
Qed.

(** X11.  The buffer is flushed at most once in a run, for the
    conversation of the call, and only at the end of a run in which
    nothing failed: the stream is exhausted, every chunk received has been
    written, and no call other than the flush itself has raised.  A run
    that fails earlier leaves what it wrote unflushed. *)
Theorem flush_closes_a_clean_run :
  length (filter is_flush (run_trace a c w t)) <= 1
  /\ forall conv mt r,
       In (E_flush_message_buffer conv mt r) (run_trace a c w t) ->
       conv = call_conversation_id c /\ mt = MessageType.AI_GENERATED
       /\ In (E_anext (Return None)) (run_trace a c w t)
       /\ persisted (run_trace a c w t) = arrived (run_trace a c w t)
       /\ forall x, In x (run_trace a c w t) -> raised x = true ->
                    x = E_flush_message_buffer conv mt r.
Proof.
  destruct (run_trace_shape a c w t) as (_ & who & cits & ev & Hev & Hshape).
  destruct Hshape as [setup e Hs | setup done en fl Hs Hr].
  - rewrite filter_app, (filter_flush_setup _ Hs). split; [cbn; lia|].
    intros conv mt r Hin. exfalso.
    apply in_app_or in Hin as [Hin|Hin].
    + apply (In_forallb _ _ _ Hs) in Hin. discriminate Hin.
    + cbn in Hin. intuition discriminate.
  - rewrite !filter_app, (filter_flush_setup _ Hs), filter_flush_chunks. cbn [app]. split.
    + destruct en as [|e|ch e]; [destruct fl as [[]|e]| |]; cbn; lia.
    + intros conv mt r Hin.
      assert (Hl : In (E_flush_message_buffer conv mt r)
                     (flat_map (chunk_effects (call_conversation_id c) cits ev) done
                      ++ closing who (call_conversation_id c) cits done en fl)).
      { apply in_app_or in Hin as [Hin|Hin]; [|exact Hin].
        apply (In_forallb _ _ _ Hs) in Hin. discriminate Hin. }
      apply In_stream_flush in Hl as (-> & -> & -> & ->).
      split; [reflexivity|]. split; [reflexivity|]. split.
      { apply in_or_app. right. apply in_or_app. right. left. reflexivity. }
      split.
      { rewrite !persisted_app, !arrived_app, (setup_persisted _ Hs), (setup_arrived _ Hs).
        rewrite persisted_chunks, arrived_chunks, persisted_closing.
        destruct fl as [[]|e]; reflexivity. }
      intros x Hx Hrx.
      apply in_app_or in Hx as [Hx|Hx].
      { exfalso. rewrite <- not_true_iff_false in Hr. apply Hr.
        apply existsb_exists. now exists x. }
      apply in_app_or in Hx as [Hx|Hx].
      { exfalso. pose proof (raised_chunks (call_conversation_id c) cits ev done) as Hn.
        rewrite <- not_true_iff_false in Hn. apply Hn.
        apply existsb_exists. now exists x. }
      eapply raised_in_exhausted; eassumption.
Qed.

(** X12.  In every run, complete or not, the events yielded carry, in
    order, exactly the fragments that were written to the history: no
    stored fragment goes unreported.  The run yields one item per stored
    fragment, and one more, the error text, exactly when it does not
    complete. *)
Theorem one_item_per_stored_fragment :
  yielded (run_trace a c w t) = persisted (run_trace a c w t)
  /\ length (yields (run_trace a c w t))
     = length (persisted (run_trace a c w t))
       + (if completed (run_trace a c w t) then 0 else 1).
Proof.
  destruct (run_trace_shape a c w t) as (_ & who & cits & ev & Hev & Hshape).
  destruct Hshape as [setup e Hs | setup done en fl Hs Hr]; unfold yielded.
  - rewrite yields_app, persisted_app, (setup_yields _ Hs), (setup_persisted _ Hs).
    rewrite (setup_completed _ Hs). split; reflexivity.
  - rewrite !yields_app, !persisted_app, (setup_yields _ Hs), (setup_persisted _ Hs).
    rewrite (setup_completed _ Hs), completed_chunks, completed_closing.
    rewrite yields_chunks, persisted_chunks, yields_closing, persisted_closing.
    cbn [app]. rewrite fragments_app, (fragments_events _ Hev), !length_app, !length_map.
    rewrite app_nil_r.
    destruct en as [|e|ch e]; [destruct fl as [[]|e]| |]; cbn; rewrite ?app_nil_r;
      split; (reflexivity || lia).
Qed.


End RunEnd.

Example failing_write_loses_one_chunk :
  arrived failing_write_trace = persisted failing_write_trace ++ ["lo"]
  /\ yielded failing_write_trace = persisted failing_write_trace.
Proof. split; reflexivity. Qed.

Example failing_write_is_not_flushed :
  filter is_flush failing_write_trace = []
  /\ persisted failing_write_trace = ["Hel"]
  /\ arrived failing_write_trace = ["Hel"; "lo"]
  /\ length (yields failing_write_trace) = 2.
Proof. repeat split. Qed.

(** ** Building the chain: the prompts *)

Lemma find_app_first {A} (f : A -> bool) l1 l2 :
  find f (l1 ++ l2) = match find f l1 with Some x => Some x | None => find f l2 end.
Proof. induction l1 as [|x l1 IH]; [reflexivity|]. cbn. now destruct (f x). Qed.

Lemma dict_get_set_same k v d : dict_get k (dict_set k v d) = Some v.
Proof.
  induction d as [|[k0 v0] d IH]; unfold dict_get in *; cbn.
  - replace (PromptType.eqb k k) with true by (now destruct k). reflexivity.
  - destruct (PromptType.eqb k k0) eqn:E; cbn.
    + replace (PromptType.eqb k k) with true by (now destruct k). reflexivity.
    + rewrite E. exact IH.
Qed.

Lemma dict_get_fold k ps : forall d,
  dict_get k (fold_left (fun d p => dict_set (type p) p d) ps d)
  = match find (fun p => PromptType.eqb k (type p)) (rev ps) with
    | Some p => Some p
    | None => dict_get k d
    end.
Proof.
  induction ps as [|p ps IH]; intros d; [reflexivity|].
  cbn [fold_left rev]. rewrite IH, find_app_first.
  destruct (find _ (rev ps)); [reflexivity|]. cbn [find].
  destruct (PromptType.eqb k (type p)) eqn:E.
  - apply PromptType_eqb_eq in E as ->. apply dict_get_set_same.
  - apply dict_get_set_other. intros ->.
    assert (PromptType.eqb (type p) (type p) = true) by (now apply PromptType_eqb_eq).
    congruence.
Qed.

Lemma dict_get_last k ps :
  dict_get k (dict_of_prompts ps) = find (fun p => PromptType.eqb k (type p)) (rev ps).
Proof.
  unfold dict_of_prompts. rewrite dict_get_fold. now destruct (find _ (rev ps)).
Qed.

Section CodeChangesTemplate.
Import CodeChangesChatAgent.

(** X14.  The chain that [CodeChangesChatAgent._create_chain] returns is
    made of the text of the SYSTEM prompt, the placeholders [history] and
    [tool_results], and the text of the HUMAN prompt, in this order,
    piped into the handle the getter returned, which is left cached; when
    the prompt service lists several prompts of one type, the last one
    is taken. *)
Theorem create_chain_takes_the_last_prompt_of_each_type w t s ch s' t' :
  _create_chain w t s = (Return ch, s', t') ->
  exists prompts system_prompt human_prompt,
    In (E_get_prompts_by_agent_id_and_types "CODE_CHANGES_AGENT"
          [PromptType.SYSTEM; PromptType.HUMAN] (Return prompts)) t'
    /\ find (fun p => PromptType.eqb PromptType.SYSTEM (type p)) (rev prompts)
       = Some system_prompt
    /\ find (fun p => PromptType.eqb PromptType.HUMAN (type p)) (rev prompts)
       = Some human_prompt
    /\ chain_prompt ch
       = [ SystemMessagePromptTemplate (text system_prompt);
           MessagesPlaceholder "history";
           MessagesPlaceholder "tool_results";
           HumanMessagePromptTemplate (text human_prompt) ]
    /\ _llm s' = Some (chain_llm ch).
Proof.
  intros H. unfold _create_chain, _get_prompts in H. inv_all.
  all: tidy.
  all: repeat match goal with
         | H : _get_llm _ _ _ = (Return _, _, _) |- _ =>
             apply CodeChanges_get_llm_Return in H; destruct H as (? & _)
         | H : dict_get _ (dict_of_prompts _) = _ |- _ => rewrite dict_get_last in H
         end.
  all: eexists _, _, _; cbn [chain_prompt chain_llm In]; repeat split; eauto.
Qed.
End CodeChangesTemplate.

Lemma create_chain_takes_the_last_prompt_of_each_type_witness :
  exists prompts system_prompt human_prompt,
    In (E_get_prompts_by_agent_id_and_types "CODE_CHANGES_AGENT"
          [PromptType.SYSTEM; PromptType.HUMAN] (Return prompts))
       (snd (CodeChangesChatAgent._create_chain sample_world [] fresh_code_changes_agent))
    /\ find (fun p => PromptType.eqb PromptType.SYSTEM (type p)) (rev prompts)
       = Some system_prompt
    /\ find (fun p => PromptType.eqb PromptType.HUMAN (type p)) (rev prompts)
       = Some human_prompt
    /\ chain_prompt code_changes_sample_chain
       = [ SystemMessagePromptTemplate (text system_prompt);
           MessagesPlaceholder "history";
           MessagesPlaceholder "tool_results";
           HumanMessagePromptTemplate (text human_prompt) ]
    /\ CodeChangesChatAgent._llm
         (snd (fst (CodeChangesChatAgent._create_chain sample_world []
                      fresh_code_changes_agent)))
       = Some (chain_llm code_changes_sample_chain).
Proof.
  exact (create_chain_takes_the_last_prompt_of_each_type sample_world []
           fresh_code_changes_agent code_changes_sample_chain _ _ eq_refl).
Defined.

Example last_prompt_wins :
  dict_get PromptType.SYSTEM
    (dict_of_prompts [ {| type := PromptType.SYSTEM; text := "old" |};
                       {| type := PromptType.HUMAN; text := "{input}" |};
                       {| type := PromptType.SYSTEM; text := "new" |} ])
  = Some {| type := PromptType.SYSTEM; text := "new" |}.
Proof. reflexivity. Qed.

(** ** Building the chain: [CustomAgent] *)

Section CustomTemplate.
Import CustomAgent CustomAgentShape.

Ltac inv_prompt :=
  repeat match goal with
  | H : _get_system_prompt _ _ _ = _ |- _ =>
      apply Custom_get_system_prompt_inv in H;
      let m := fresh "method" in
      destruct H as (? & [(? & ? & ?) | (m & ? & ? & ?)])
  end; cleanup.

Lemma Custom_create_chain_no_prompt w t s r s' t' p :
  _create_chain w t s = (r, s', t') ->
  In (E_get_system_prompt (Return p)) t' ->
  p = None \/ p = Some EmptyString ->
  r = Raise (ValueError_system_prompt (agent_id s)) /\ s' = s
  /\ t' = [E_get_system_prompt (Return p)].
Proof.
  intros H Hin Hp. unfold _create_chain, CustomAgent._get_llm in H. inv_all.
  all: inv_prompt.
  all: tidy.
  all: in_cases; try discriminate.
  all: inj_effects.
  all: destruct Hp as [Hp|Hp]; try discriminate Hp.
  all: try (injection Hp as Hp; discriminate Hp).
  all: auto.
Qed.

(** X15.  When the lookup of the system prompt of a [CustomAgent] gives
    nothing, or the empty string, the run does nothing else: it asks for
    no model handle, reads no history and runs no auxiliary agent; it
    logs and yields one item, "An error occurred: System prompt not found
    for agent " followed by the [agent_id] of the instance. *)
Theorem empty_system_prompt_fails_the_run s c w t p :
  In (E_get_system_prompt (Return p)) (run_trace (Custom s) c w t) ->
  p = None \/ p = Some EmptyString ->
  run_trace (Custom s) c w t
  = [ E_get_system_prompt (Return p);
      E_logger_error
        ("Error during CustomAgent run: System prompt not found for agent " ++ agent_id s)%string;
      E_yield ("An error occurred: System prompt not found for agent " ++ agent_id s)%string ].
Proof.
  intros Hin Hp.
  destruct (Custom_run_trace_inv s c w t) as (r0 & s' & pre & post & Hens & Htr & Hpost).
  rewrite Htr in *. clear Htr.
  apply in_app_or in Hin as [Hin|Hin].
  - destruct (chain s) as [ch|] eqn:Hc.
    + rewrite (Custom_ensure_chain_Some _ _ _ _ Hc) in Hens. injection Hens as <- <- <-.
      destruct Hin.
    + destruct (_create_chain w t s) as [[rc sc] tc] eqn:Hcc.
      destruct rc as [ch|e].
      * rewrite (Custom_ensure_chain_built _ _ _ _ _ _ Hc Hcc) in Hens.
        injection Hens as <- <- <-.
        destruct (Custom_create_chain_no_prompt _ _ _ _ _ _ _ Hcc Hin Hp) as (Hr & _).
        discriminate Hr.
      * rewrite (Custom_ensure_chain_raised _ _ _ _ _ _ Hc Hcc) in Hens.
        injection Hens as <- <- <-.
        destruct (Custom_create_chain_no_prompt _ _ _ _ _ _ _ Hcc Hin Hp) as (Hr & _ & ->).
        injection Hr as ->. inversion Hpost; subst. reflexivity.
  - apply Custom_after_chain_effects in Hpost.
    apply (In_forallb _ _ _ Hpost) in Hin. discriminate Hin.
Qed.
End CustomTemplate.

Lemma empty_system_prompt_fails_the_run_witness :
  In (E_get_system_prompt (Return None)) no_system_prompt_trace
  /\ no_system_prompt_trace
     = [ E_get_system_prompt (Return None);
         E_logger_error "Error during CustomAgent run: System prompt not found for agent agent-1";
         E_yield "An error occurred: System prompt not found for agent agent-1" ].
Proof.
  assert (Hin : In (E_get_system_prompt (Return None)) no_system_prompt_trace)
    by (left; reflexivity).
  split; [exact Hin|].
  exact (empty_system_prompt_fails_the_run fresh_custom_agent sample_call
           no_system_prompt_world [] None Hin (or_introl eq_refl)).
Defined.

(** ** The text of an event *)

Lemma printable_app (a b : string) :
  printable (a ++ b)%string = printable a && printable b.
Proof.
  induction a as [|x a IH]; [reflexivity|]. cbn [printable String.append].
  rewrite IH. now rewrite andb_assoc.
Qed.

Lemma printable_escape_char c : printable (escape_char c) = true.
Proof. destruct c as [[] [] [] [] [] [] [] []]; reflexivity. Qed.

Lemma printable_escape s : printable (escape s) = true.
Proof.
  induction s as [|c s IH]; [reflexivity|]. cbn [escape].
  now rewrite printable_app, printable_escape_char, IH.
Qed.

Lemma printable_dumps_str s : printable (dumps_str s) = true.
Proof.
  unfold dumps_str. cbn [printable]. now rewrite printable_app, printable_escape.
Qed.

Lemma printable_join_items l :
  forallb printable l = true -> printable (join_items l) = true.
Proof.
  induction l as [|x l IH]; [reflexivity|]. cbn [forallb]. intros H.
  apply andb_prop in H as [Hx Hl]. destruct l as [|y l]; [exact Hx|].
  change (join_items (x :: y :: l)) with (x ++ ", " ++ join_items (y :: l))%string.
  rewrite !printable_app, Hx, (IH Hl). reflexivity.
Qed.

Lemma printable_dumps_citations cits : printable (dumps (citations_json cits)) = true.
Proof.
  rewrite dumps_citations_json. cbn [String.append printable].
  rewrite printable_app, printable_join_items; [reflexivity|].
  induction cits as [|x l IH]; [reflexivity|]. cbn [map forallb].
  now rewrite printable_dumps_str.
Qed.

(** X16.  An event reads back, as JSON, to an object of two members: the
    [message], which is the fragment character for character whatever it
    contains (quotes, backslashes, control characters, characters beyond
    ASCII), and the [citations], an array of the citation strings for
    [CodeChangesChatAgent] and the empty array for [CustomAgent]. *)
Theorem events_read_back (cits : list string) (m : string) :
  loads (CodeChangesChatAgent.event cits m)
  = Some (JObj [("citations", JArr (map JStr cits)); ("message", JStr m)])
  /\ event_message (CodeChangesChatAgent.event cits m) = Some m
  /\ event_citations (CodeChangesChatAgent.event cits m) = Some cits
  /\ loads (CustomAgent.event m) = Some (JObj [("message", JStr m); ("citations", JArr [])])
  /\ event_message (CustomAgent.event m) = Some m
  /\ event_citations (CustomAgent.event m) = Some [].
Proof.
  split; [apply loads_CodeChanges_event|].
  split; [apply event_message_CodeChanges|].
  split; [apply event_citations_CodeChanges|].
  split; [apply loads_Custom_event|].
  split; [apply event_message_Custom | apply event_citations_Custom].
Qed.

(** X17.  The text of an event is made of printable ASCII characters
    only: whatever the fragment and the citations contain, an event holds
    no line break, no other control character and no character beyond
    ASCII. *)
Theorem events_are_printable_ascii (cits : list string) (m : string) :
  printable (CodeChangesChatAgent.event cits m) = true
  /\ printable (CustomAgent.event m) = true.
Proof.
  unfold CodeChangesChatAgent.event, CustomAgent.event. rewrite !dumps_obj2.
  change (dumps (JStr m)) with (dumps_str m).
  change (dumps (JArr [])) with "[]"%string.
  cbn [String.append printable].
  repeat (rewrite ?printable_app; cbn [String.append printable]).
  rewrite printable_dumps_citations, !printable_dumps_str.
  split; reflexivity.
Qed.

(** ** Validation before classification *)

Section Validation.
Import CodeChangesChatAgent.



End Validation.

Example raw_history_breaks_classification :
  fst (fst (CodeChangesChatAgent._classify_query "q" [Msg (AIMessage "a"); Prim_int 7]
              sample_world [] patched_code_changes_agent))
  = Raise (mkExc AttributeError "'int' object has no attribute 'content'")
  /\ fst (fst (CodeChangesChatAgent._classify_query "q"
                 (validate_history [Msg (AIMessage "a"); Prim_int 7])
                 sample_world [] patched_code_changes_agent))
     = Return ClassificationResult.AGENT_REQUIRED.
Proof. split; reflexivity. Qed.

(** ** The model handle over the life of an instance *)

Section ProviderAnswers.

Lemma CodeChanges_create_chain_answers w t s r s' t' :
  CodeChangesChatAgent._create_chain w t s = (r, s', t') ->
  length (filter is_provider_answer t') <= 1
  /\ (filter is_provider_answer t' <> [] -> exists ch, r = Return ch).
Proof.
  intros H.
  unfold CodeChangesChatAgent._create_chain, CodeChangesChatAgent._get_prompts,
    CodeChangesChatAgent._get_llm in H.
  inv_all.
  all: tidy; cbn [filter is_provider_answer length].
  all: split; [lia|]; intros Hne; try (now contradiction Hne); eauto.
Qed.

Lemma Custom_create_chain_answers w t s r s' t' :
  CustomAgent._create_chain w t s = (r, s', t') ->
  length (filter is_provider_answer t') <= 1
  /\ (filter is_provider_answer t' <> [] -> exists ch, r = Return ch).
Proof.
  intros H. unfold CustomAgent._create_chain, CustomAgent._get_llm in H. inv_all.
  all: repeat match goal with
       | H : CustomAgent._get_system_prompt _ _ _ = _ |- _ =>
           apply Custom_get_system_prompt_inv in H;
           destruct H as (? & [(? & ? & ?) | (? & ? & ? & ?)])
       end; cleanup.
  all: tidy; cbn [filter is_provider_answer length].
  all: split; [lia|]; intros Hne; try (now contradiction Hne); eauto.
Qed.

Lemma run_provider_answers a c w t :
  length (filter is_provider_answer (run_trace a c w t))
  <= (match agent_chain a with Some _ => 0 | None => 1 end)
  /\ (agent_chain a <> None -> run_self a c w t = a)
  /\ (filter is_provider_answer (run_trace a c w t) <> [] ->
      agent_chain (run_self a c w t) <> None).
Proof.
  destruct a as [s|s]; cbn [agent_chain run_self run_trace].
  - destruct (CodeChangesChatAgent.run (call_query c) (call_project_id c) (call_user_id c)
                (call_conversation_id c) (call_node_ids c) w t s) as [[r s'] t'] eqn:H.
    apply CodeChanges_run_inv in H as (-> & r0 & pre & post & He & -> & Hpost).
    cbn [fst snd].
    assert (Hp : filter is_provider_answer post = []).
    { apply (filter_none_forallb _ _ _ (CodeChanges_after_chain_effects _ _ _ _ _ _ _ _ Hpost)).
      intros x Hx. destruct x; try reflexivity. discriminate Hx. }
    rewrite filter_app, Hp, app_nil_r.
    apply CodeChanges_ensure_chain_inv in He
      as [(c0 & Hc & _ & -> & ->) | (Hc & rc & sc & Hcc & Hrc)].
    + rewrite Hc. cbn. repeat split; auto; intros Hne; now contradiction Hne.
    + rewrite Hc. pose proof Hcc as Hk.
      apply CodeChanges_create_chain_answers in Hcc as (Hn & Hr).
      split; [exact Hn|]. split; [intros Hne; now contradiction Hne|].
      intros Hne. destruct (Hr Hne) as (ch & ->). destruct Hrc as (_ & ->). discriminate.
  - destruct (CustomAgent.run (call_query c) (call_project_id c) (call_user_id c)
                (call_conversation_id c) (call_node_ids c) w t s) as [[r s'] t'] eqn:H.
    apply Custom_run_inv in H as (-> & r0 & pre & post & He & -> & Hpost).
    cbn [fst snd].
    assert (Hp : filter is_provider_answer post = []).
    { apply (filter_none_forallb _ _ _ (Custom_after_chain_effects _ _ _ _ _ _ _ Hpost)).
      intros x Hx. destruct x; try reflexivity. discriminate Hx. }
    rewrite filter_app, Hp, app_nil_r.
    destruct (CustomAgent.chain s) as [c0|] eqn:Hc.
    + rewrite (Custom_ensure_chain_Some _ _ _ _ Hc) in He. injection He as <- <- <-.
      cbn. repeat split; auto; intros Hne; now contradiction Hne.
    + destruct (CustomAgent._create_chain w t s) as [[rc sc] tc] eqn:Hcc.
      pose proof Hcc as Hk.
      apply Custom_create_chain_answers in Hk as (Hn & Hr).
      destruct rc as [ch|e].
      * rewrite (Custom_ensure_chain_built _ _ _ _ _ _ Hc Hcc) in He.
        injection He as <- <- <-.
        split; [exact Hn|]. split; [intros Hne; now contradiction Hne|]. discriminate.
      * rewrite (Custom_ensure_chain_raised _ _ _ _ _ _ Hc Hcc) in He.
        injection He as <- <- <-.
        split; [exact Hn|]. split; [intros Hne; now contradiction Hne|].
        intros Hne. destruct (Hr Hne) as (ch & Hch). discriminate Hch.
Qed.

Lemma session_provider_answers calls : forall w t a,
  length (filter is_provider_answer (concat (session calls w t a)))
  <= (match agent_chain a with Some _ => 0 | None => 1 end).
Proof.
  induction calls as [|c calls IH]; intros w t a.
  - cbn. destruct (agent_chain a); lia.
  - cbn [session concat]. rewrite filter_app, length_app.
    destruct (run_provider_answers a c w t) as (Hn & Hkeep & Hbuilt).
    pose proof (IH w (t ++ run_trace a c w t) (run_self a c w t)) as Hrest.
    destruct (agent_chain a) as [ch|] eqn:Hc.
    + rewrite (Hkeep ltac:(discriminate)) in *. rewrite Hc in Hrest. lia.
    + destruct (filter is_provider_answer (run_trace a c w t)) as [|x l] eqn:Hf.
      * cbn [length]. destruct (agent_chain (run_self a c w t)); lia.
      * destruct (agent_chain (run_self a c w t)) eqn:Hc'.
        -- lia.
        -- exfalso. now apply Hbuilt.
Qed.

(** X19.  Over all the runs of one instance of either class, the provider
    hands out a model handle at most once: a handle obtained is always
    built into the chain, and an instance that holds a chain never calls
    the provider again. *)
Theorem provider_answers_at_most_once calls w t a :
  length (filter is_provider_answer (concat (session calls w t a))) <= 1.
Proof.
  pose proof (session_provider_answers calls w t a) as H.
  destruct (agent_chain a); lia.
Qed.
End ProviderAnswers.

(** ** A run stops at the first failure *)

Lemma after_first_raise_app l1 l2 :
  after_first_raise (l1 ++ l2)
  = if existsb raised l1 then after_first_raise l1 ++ l2 else after_first_raise l2.
Proof.
  induction l1 as [|x l1 IH]; [reflexivity|]. cbn [app after_first_raise existsb].
  destruct (raised x); [reflexivity | exact IH].
Qed.

Lemma after_first_raise_chunks conv cits ev done rest :
  after_first_raise (flat_map (chunk_effects conv cits ev) done ++ rest)
  = after_first_raise rest.
Proof. now rewrite after_first_raise_app, raised_chunks. Qed.

Lemma after_first_raise_closing who conv cits done en fl :
  existsb raised (closing who conv cits done en fl) = true ->
  exists e, after_first_raise (closing who conv cits done en fl) = failure_effects who e.
Proof.
  destruct en as [|e|ch e]; [destruct fl as [[]|e]| |]; cbn; intros H;
    try discriminate H; eauto.
Qed.

Section FirstFailure.

Lemma CodeChanges_create_chain_first_raise w t s r s' t' :
  CodeChangesChatAgent._create_chain w t s = (r, s', t') ->
  existsb raised t' = true ->
  forallb is_report (after_first_raise t') = true /\ yields (after_first_raise t') = [].
Proof.
  intros H.
  unfold CodeChangesChatAgent._create_chain, CodeChangesChatAgent._get_prompts,
    CodeChangesChatAgent._get_llm in H.
  inv_all.
  all: tidy; cbn; intros Hr; try discriminate Hr; split; reflexivity.
Qed.

Lemma Custom_create_chain_first_raise w t s r s' t' :
  CustomAgent._create_chain w t s = (r, s', t') ->
  existsb raised t' = true ->
  forallb is_report (after_first_raise t') = true /\ yields (after_first_raise t') = [].
Proof.
  intros H. unfold CustomAgent._create_chain, CustomAgent._get_llm in H. inv_all.
  all: repeat match goal with
       | H : CustomAgent._get_system_prompt _ _ _ = _ |- _ =>
           apply Custom_get_system_prompt_inv in H;
           destruct H as (? & [(? & ? & ?) | (? & ? & ? & ?)])
       end; cleanup.
  all: tidy; cbn; intros Hr; try discriminate Hr; split; reflexivity.
Qed.

Lemma CodeChanges_after_chain_first_raise s query project_id user_id conversation_id
    node_ids r0 post :
  CodeChangesShape.after_chain s query project_id user_id conversation_id node_ids r0 post ->
  existsb raised post = true ->
  exists e, after_first_raise post = failure_effects CodeChangesShape.who e.
Proof.
  intros Hpost. destruct Hpost.
  all: try destruct tool as [result|].
  all: cbn [CodeChangesShape.classify_effects CodeChangesShape.kickoff_effects app
            failure_effects existsb raised after_first_raise orb].
  all: intros Hr; try discriminate Hr; eauto.
  all: rewrite after_first_raise_chunks.
  all: apply after_first_raise_closing.
  all: now rewrite existsb_app, raised_chunks in Hr.
Qed.

Lemma Custom_after_chain_first_raise s query user_id conversation_id node_ids r0 post :
  CustomAgentShape.after_chain s query user_id conversation_id node_ids r0 post ->
  existsb raised post = true ->
  exists e, after_first_raise post = failure_effects CustomAgentShape.who e.
Proof.
  intros Hpost. destruct Hpost.
  all: cbn [app failure_effects existsb raised after_first_raise orb].
  all: intros Hr; try discriminate Hr; eauto.
  rewrite after_first_raise_chunks. apply after_first_raise_closing.
  now rewrite existsb_app, raised_chunks in Hr.
Qed.

(** X20.  A run stops at the first call that raises: nothing is read,
    written, streamed or asked of a collaborator after it.  What follows
    is only error logging, the handling of an exhausted quota, and the
    one item the run still yields, the error text. *)
Theorem run_stops_at_the_first_failure a c w t :
  existsb raised (run_trace a c w t) = true ->
  forallb is_report (after_first_raise (run_trace a c w t)) = true
  /\ exists e, yields (after_first_raise (run_trace a c w t)) = [error_text e].
Proof.
  intros Hr. destruct a as [s|s].
  - destruct (CodeChanges_run_trace_inv s c w t) as (r0 & s' & pre & post & Hens & Htr & Hpost).
    rewrite Htr in *. clear Htr. rewrite after_first_raise_app.
    destruct (existsb raised pre) eqn:Hpre.
    + pose proof Hens as Hspec.
      apply CodeChanges_ensure_chain_spec in Hspec as (_ & _ & _ & Hok).
      apply CodeChanges_ensure_chain_inv in Hens
        as [(c0 & _ & _ & _ & ->) | (Hc & rc & sc & Hcc & Hrc)]; [discriminate Hpre|].
      destruct (CodeChanges_create_chain_first_raise _ _ _ _ _ _ Hcc Hpre) as (Hq & Hy).
      destruct r0 as [[]|e0]; [rewrite (Hok eq_refl) in Hpre; discriminate Hpre|].
      inversion Hpost; subst.
      rewrite forallb_app, yields_app, Hq, Hy. split; [reflexivity|]. now exists e0.
    + rewrite existsb_app, Hpre in Hr.
      destruct (CodeChanges_after_chain_first_raise _ _ _ _ _ _ _ _ Hpost Hr) as (e & ->).
      split; [reflexivity|]. now exists e.
  - destruct (Custom_run_trace_inv s c w t) as (r0 & s' & pre & post & Hens & Htr & Hpost).
    rewrite Htr in *. clear Htr. rewrite after_first_raise_app.
    destruct (existsb raised pre) eqn:Hpre.
    + pose proof Hens as Hspec.
      apply Custom_ensure_chain_spec in Hspec as (_ & _ & Hok).
      destruct r0 as [[]|e0]; [rewrite (Hok eq_refl) in Hpre; discriminate Hpre|].
      inversion Hpost; subst.
      assert (Hpre' : forallb is_report (after_first_raise pre) = true
                      /\ yields (after_first_raise pre) = []).
      { destruct (CustomAgent.chain s) as [ch|] eqn:Hc.
        - rewrite (Custom_ensure_chain_Some _ _ _ _ Hc) in Hens. discriminate Hens.
        - destruct (CustomAgent._create_chain w t s) as [[rc sc] tc] eqn:Hcc.
          destruct rc as [ch|e1].
          + rewrite (Custom_ensure_chain_built _ _ _ _ _ _ Hc Hcc) in Hens.
            discriminate Hens.
          + rewrite (Custom_ensure_chain_raised _ _ _ _ _ _ Hc Hcc) in Hens.
            injection Hens as <- <- <-.
            eapply Custom_create_chain_first_raise; eassumption. }
      destruct Hpre' as (Hq & Hy).
      rewrite forallb_app, yields_app, Hq, Hy. split; [reflexivity|]. now exists e0.
    + rewrite existsb_app, Hpre in Hr.
      destruct (Custom_after_chain_first_raise _ _ _ _ _ _ _ Hpost Hr) as (e & ->).
      split; [reflexivity|]. now exists e.
Qed.
End FirstFailure.

Lemma run_stops_at_the_first_failure_witness :
  existsb raised failing_write_trace = true
  /\ forallb is_report (after_first_raise failing_write_trace) = true
  /\ exists e, yields (after_first_raise failing_write_trace) = [error_text e].
Proof.
  split; [reflexivity|].
  exact (run_stops_at_the_first_failure (Custom fresh_custom_agent) sample_call
           failing_write_world [] eq_refl).
Defined.

Example quota_trace_after_the_failure :
  after_first_raise quota_trace
  = [ E_handle_quota_exceeded (Return tt);
      E_logger_error "LLM API quota exceeded";
      E_logger_error "Error getting LLM: Error code: 429 - You exceeded your current quota";
      E_logger_error
        "Error during CodeChangesChatAgent run: Error code: 429 - You exceeded your current quota";
      E_yield "An error occurred: Error code: 429 - You exceeded your current quota" ].
Proof. reflexivity. Qed.
